(** * Real-time transcription session logic of the STT comparison demo

    A shallow embedding of the client-side session code of the two
    speech-to-text adapters ([VerbumService] in
    [src/services/verbumService.ts], [DeepgramService] in its store-backed
    revision) and of the easy-peasy store modules
    ([src/store/verbumModel.ts], [src/store/deepgramModel.ts]).

    Conventions of the embedding.
    - A JavaScript string is the list of its UTF-16 code units ([list N]).
    - [Date.now()] values and chunk timestamps are integers ([Z],
      milliseconds).  Every other JavaScript [number] is an IEEE 754
      double: a finite double is identified with the rational it denotes
      ([Q]), and sums, differences, products, quotients and square roots
      are the rounded operations of module [Double].  An operation is
      written exactly where it is exact on doubles: comparisons,
      [Math.max], [Math.min], [Math.round], the scaling of a sample by
      [32768], and arithmetic on integers below [2 ^ 53].
    - A method that talks to the outside world (socket, recorder, media
      tracks, store actions) returns the new state together with the list
      of external calls it made, in program order.
    - [undefined]/[null] are [None]. *)

From Stdlib Require Import ZArith NArith QArith Qround Qpower Reals Qreals Psatz List
Bool String Ascii.
From Stdlib Require Floats.
From Stdlib.Strings Require Import Byte.
From stdpp Require Import base option list gmap.
Import ListNotations.

Open Scope Z_scope.

(* ===================================================================== *)
(** ** IEEE 754 double precision                                         *)
(* ===================================================================== *)

(** A JavaScript [number] is a binary64 floating-point number.  A finite
    double is identified with the rational it denotes.  [rnd] takes a
    rational to the nearest double, a tie going to the one with the even
    significand, and an arithmetic operation of the language is the exact
    operation followed by [rnd].  The two zeros are not told apart, and
    [Infinity] and [NaN] are not values of the model: an operation below
    is the IEEE operation as long as its exact result is smaller than
    [2 ^ 1024] in magnitude, which seconds of audio, milliseconds and
    confidences are. *)
Module Double.

(** Exponent of the smallest positive double, [2 ^ -1074]. *)
Definition emin : Z := -1074.

(** [floor (log2 x)] for [x > 0]. *)
Definition ilog2 (x : Q) : Z :=
  let k := Z.log2 (Qnum x) - Z.log2 (Zpos (Qden x)) in
  if Qle_bool (2 ^ k)%Q x then k else k - 1.

(** The doubles next to [x > 0] are the multiples of [2 ^ ulp_exp x]:
    53 significant bits, or the subnormal spacing. *)
Definition ulp_exp (x : Q) : Z := Z.max (ilog2 x - 52) emin.

(** The nearest integer, a tie going to the even one. *)
Definition rne (x : Q) : Z :=
  let f := Qfloor x in
  match (x - inject_Z f ?= 1 # 2)%Q with
  | Lt => f
  | Gt => f + 1
  | Eq => if Z.even f then f else f + 1
  end.

Definition round_pos (x : Q) : Q :=
  let e := ulp_exp x in (inject_Z (rne (x / 2 ^ e)) * 2 ^ e)%Q.

(** Round to nearest, ties to even; the result is a reduced fraction. *)
Definition rnd (x : Q) : Q :=
  Qred match (x ?= 0)%Q with
       | Eq => 0%Q
       | Gt => round_pos x
       | Lt => (- round_pos (- x))%Q
       end.

(** [x + y], [x - y], [x * y], [x / y] on numbers. *)
Definition add (x y : Q) : Q := rnd (x + y).
Definition sub (x y : Q) : Q := rnd (x - y).
Definition mul (x y : Q) : Q := rnd (x * y).
Definition div (x y : Q) : Q := rnd (x / y).

(** An integer as a number (exact up to [2 ^ 53]), and a decimal literal
    of the source text. *)
Definition of_Z (z : Z) : Q := rnd (inject_Z z).
Definition of_nat (n : nat) : Q := of_Z (Z.of_nat n).
Definition lit (q : Q) : Q := rnd q.

(** [Math.sqrt(x)] for [x >= 0], correctly rounded: with [t] the square
    of the scaled root, [Z.sqrt (Qfloor t)] is the integer part of the
    scaled root and the comparison with [(f + 1/2)^2] places it with
    respect to the midpoint.  (A negative argument gives [NaN]; the code
    takes roots of means of squares only.) *)
Definition sqrt (x : Q) : Q :=
  match (x ?= 0)%Q with
  | Gt =>
      let e := Z.max (ilog2 x / 2 - 52) emin in
      let t := (x / 2 ^ (2 * e))%Q in
      let f := Z.sqrt (Qfloor t) in
      let c := (inject_Z f + (1 # 2))%Q in
      let m := match (t ?= c * c)%Q with
               | Lt => f
               | Gt => f + 1
               | Eq => if Z.even f then f else f + 1
               end in
      Qred (inject_Z m * 2 ^ e)
  | _ => 0%Q
  end.

(** The sum of a list accumulated from the left, rounded after every
    addition. *)
Definition sum (xs : list Q) : Q := fold_left add xs 0%Q.

(** The finite doubles: [M * 2 ^ e] with a significand of at most 53
    bits. *)
Definition is_double (x : Q) : Prop :=
  exists M e : Z,
    (x == inject_Z M * 2 ^ e)%Q /\ Z.abs M <= 2 ^ 53 /\ emin <= e.

(** The binary64 numbers of the kernel, used to compare the operations
    above with the machine's: the value of a finite one, and the one
    with a given value. *)
Definition of_float (x : PrimFloat.float) : option Q :=
  match FloatOps.Prim2SF x with
  | SpecFloat.S754_zero _ => Some 0%Q
  | SpecFloat.S754_finite s m e =>
      let v := (inject_Z (Zpos m) * 2 ^ e)%Q in
      Some (Qred (if s then - v else v)%Q)
  | _ => None
  end.

Definition to_float (x : Q) : PrimFloat.float :=
  match (x ?= 0)%Q with
  | Eq => FloatOps.SF2Prim (SpecFloat.S754_zero false)
  | Gt =>
      let e := ulp_exp x in
      FloatOps.SF2Prim (SpecFloat.S754_finite false (Z.to_pos (rne (x / 2 ^ e))) e)
  | Lt =>
      let e := ulp_exp (- x) in
      FloatOps.SF2Prim (SpecFloat.S754_finite true (Z.to_pos (rne (- x / 2 ^ e))) e)
  end.

End Double.

(* ===================================================================== *)
(** ** JavaScript primitives used by the code                            *)
(* ===================================================================== *)

Module JS.

(** [/\s/] and the characters removed by [String.prototype.trim]:
    WhiteSpace and LineTerminator code units of ECMAScript. *)
Definition isWhiteSpace (c : N) : bool :=
  ((9 <=? c) && (c <=? 13) || (c =? 32) || (c =? 160) || (c =? 5760)
   || (8192 <=? c) && (c <=? 8202) || (c =? 8232) || (c =? 8233)
   || (c =? 8239) || (c =? 8287) || (c =? 12288) || (c =? 65279))%N.

(** An ASCII literal as a JavaScript string. *)
Fixpoint lit (s : string) : list N :=
  match s with
  | EmptyString => []
  | String a s' => N_of_ascii a :: lit s'
  end.

Fixpoint trimStart (s : list N) : list N :=
  match s with
  | [] => []
  | c :: s' => if isWhiteSpace c then trimStart s' else s
  end.

Definition trimEnd (s : list N) : list N := rev (trimStart (rev s)).

(** [s.trim()] *)
Definition trim (s : list N) : list N := trimEnd (trimStart s).

(** [xs.join(sep)] *)
Fixpoint join (sep : list N) (xs : list (list N)) : list N :=
  match xs with
  | [] => []
  | [x] => x
  | x :: xs' => x ++ sep ++ join sep xs'
  end.

(** [s.split(/\s+/)]: the pieces between the maximal runs of white
    space.  [in_sep] says that the previous code unit belonged to a
    separator, [cur] is the current piece, reversed. *)
Fixpoint split_go (in_sep : bool) (cur : list N) (s : list N) : list (list N) :=
  match s with
  | [] => [rev cur]
  | c :: s' =>
      if isWhiteSpace c
      then if in_sep then split_go true cur s'
           else rev cur :: split_go true [] s'
      else split_go false (c :: cur) s'
  end.

Definition split_ws (s : list N) : list (list N) := split_go false [] s.

(** [word => word.length > 0] *)
Definition nonEmpty (w : list N) : bool :=
  match w with [] => false | _ :: _ => true end.

(** JavaScript truthiness of a string. *)
Definition truthy (s : list N) : bool := nonEmpty s.

(** [Math.max(a, b)] *)
Definition Math_max (a b : Q) : Q := if Qle_bool a b then b else a.

(** [Math.round(x)]: the nearest integer, halves towards +infinity. *)
Definition Math_round (x : Q) : Z := Qfloor (x + (1 # 2)).

Definition Qlt_bool (a b : Q) : bool := negb (Qle_bool b a).

(** [xs.reduce((sum, x) => sum + x, 0)] *)
Definition sum (xs : list Q) : Q := fold_left (fun sum x => Double.add sum x) xs 0%Q.

End JS.

(* ===================================================================== *)
(** ** [src/types]                                                       *)
(* ===================================================================== *)

Module TranscriptionResult.
Record t : Type := mk {
  text : list N;
  timestamp : Z;
  confidence : option Q;
  isFinal : bool;
  latency : option Q   (* per-utterance latency in milliseconds *)
}.
End TranscriptionResult.

Module TranscriptionMetrics.
Record t : Type := mk {
  latency : Z;      (* always produced by [Math.round] *)
  accuracy : Q;
  wordCount : nat
}.

(** An object as the spread operator sees it: the keys it owns. *)
Record obj : Type := mkObj {
  o_latency : option Z;
  o_accuracy : option Q;
  o_wordCount : option nat
}.

Definition to_obj (m : t) : obj :=
  mkObj (Some (latency m)) (Some (accuracy m)) (Some (wordCount m)).

(** [{ ...prev, ...payload }] *)
Definition spread (prev : t) (payload : obj) : t :=
  mk (default (latency prev) (o_latency payload))
     (default (accuracy prev) (o_accuracy payload))
     (default (wordCount prev) (o_wordCount payload)).

Definition zero : t := mk 0 0%Q 0%nat.
End TranscriptionMetrics.

Inductive ConnectionStatus : Type :=
| disconnected | connecting | connected | error.

(* ===================================================================== *)
(** ** [src/store/verbumModel.ts] and [src/store/deepgramModel.ts]       *)
(* ===================================================================== *)

(** The two store modules have the same state and the same action bodies;
  they differ in their names and log messages only.  [Model] is that
  common text, [StoreModel] holds one instance per backend. *)
Module Model.
Import TranscriptionResult.

Record t : Type := mk {
  text : list N;
  results : list TranscriptionResult.t;
  metrics : TranscriptionMetrics.t;
  isActive : bool;
  connectionStatus : ConnectionStatus
}.

Definition initial : t := mk [] [] TranscriptionMetrics.zero false disconnected.

(** computed [finalText] *)
Definition finalText (state : t) : list N :=
  JS.trim (JS.join (JS.lit " ")
             (map TranscriptionResult.text (List.filter isFinal (results state)))).

(** computed [totalWords] *)
Definition totalWords (state : t) : nat :=
  length (List.filter JS.nonEmpty (JS.split_ws (finalText state))).

(** action [addResult] *)
Definition addResult (state : t) (payload : TranscriptionResult.t) : t :=
  let results' := results state ++ [payload] in            (* push *)
  let text' :=
    if isFinal payload then
      JS.trim (JS.join (JS.lit " ")
                 (map TranscriptionResult.text (List.filter isFinal results')))
    else
      let finalWords :=
        JS.join (JS.lit " ")
          (map TranscriptionResult.text (List.filter isFinal results')) in
      if JS.truthy finalWords
      then finalWords ++ JS.lit " " ++ TranscriptionResult.text payload
      else TranscriptionResult.text payload in
  mk text' results' (metrics state) (isActive state) (connectionStatus state).

(** action [updateText] *)
Definition updateText (state : t) (payload : list N) : t :=
  mk payload (results state) (metrics state) (isActive state) (connectionStatus state).

(** action [updateMetrics] *)
Definition updateMetrics (state : t) (payload : TranscriptionMetrics.obj) : t :=
  mk (text state) (results state)
     (TranscriptionMetrics.spread (metrics state) payload)
     (isActive state) (connectionStatus state).

(** action [setActive] *)
Definition setActive (state : t) (payload : bool) : t :=
  mk (text state) (results state) (metrics state) payload (connectionStatus state).

(** action [setConnectionStatus] *)
Definition setConnectionStatus (state : t) (payload : ConnectionStatus) : t :=
  mk (text state) (results state) (metrics state) (isActive state) payload.

(** action [clearResults] *)
Definition clearResults (state : t) : t :=
  mk [] [] (metrics state) (isActive state) (connectionStatus state).

(** action [reset] *)
Definition reset (state : t) : t :=
  mk [] [] TranscriptionMetrics.zero false disconnected.
End Model.

Module StoreModel.
Record t : Type := mk { deepgram : Model.t; verbum : Model.t }.
Definition initial : t := mk Model.initial Model.initial.
Definition on_deepgram (f : Model.t -> Model.t) (s : t) : t :=
  mk (f (deepgram s)) (verbum s).
Definition on_verbum (f : Model.t -> Model.t) (s : t) : t :=
  mk (deepgram s) (f (verbum s)).
End StoreModel.

(* ===================================================================== *)
(** ** Code shared verbatim by the two services                          *)
(* ===================================================================== *)

(** [calculateMetrics], [detectAudioActivity] and [cleanupOldTimestamps]
  have the same body in [VerbumService] and in [DeepgramService] (the
  log messages apart); each is embedded once. *)
Module Service.
Import TranscriptionResult.

(** [r.latency!], [r.confidence!]: the value behind a filter that has
    already excluded [undefined]. *)
Definition bang (o : option Q) : Q := default 0%Q o.

Definition latencyPresentPositive (r : TranscriptionResult.t) : bool :=
  match latency r with
  | Some l => JS.Qlt_bool 0 l      (* r.latency !== undefined && r.latency > 0 *)
  | None => false
  end.

Definition confidencePresent (r : TranscriptionResult.t) : bool :=
  match confidence r with Some _ => true | None => false end.

Definition words (s : list N) : nat :=
  length (List.filter JS.nonEmpty (JS.split_ws s)).

Definition calculateMetrics (results : list TranscriptionResult.t)
  : TranscriptionMetrics.t :=
  let finalResults := List.filter isFinal results in
  if (length finalResults =? 0)%nat then
    TranscriptionMetrics.mk 0 0%Q 0%nat
  else
    let latencies :=
      map (fun r => bang (latency r)) (List.filter latencyPresentPositive finalResults) in
    let avgLatency :=
      if (0 <? length latencies)%nat
      then Double.div (JS.sum latencies) (Double.of_nat (length latencies))
      else 0%Q in
    let confidences :=
      map (fun r => bang (confidence r)) (List.filter confidencePresent finalResults) in
    let avgAccuracy :=
      if (0 <? length confidences)%nat
      then Double.mul
             (Double.div (JS.sum confidences) (Double.of_nat (length confidences))) 100
      else 95%Q in
    let wordCount :=
      fold_left (fun acc r => (acc + words (text r))%nat) finalResults 0%nat in
    TranscriptionMetrics.mk
      (JS.Math_round avgLatency)
      (Double.div (inject_Z (JS.Math_round (Double.mul avgAccuracy 10))) 10)
      wordCount.

(** *** Typed arrays over an [ArrayBuffer] (a list of bytes) *)

Definition Uint8Array (audioData : list byte) : list Z :=
  map (fun b => Z.of_N (Byte.to_N b)) audioData.

(** One little-endian two's-complement 16-bit sample. *)
Definition int16 (lo hi : byte) : Z :=
  let u := Z.of_N (Byte.to_N lo) + 256 * Z.of_N (Byte.to_N hi) in
  if 32768 <=? u then u - 65536 else u.

Fixpoint int16_samples (audioData : list byte) : list Z :=
  match audioData with
  | lo :: hi :: rest => int16 lo hi :: int16_samples rest
  | _ => []
  end.

(** [new Int16Array(buffer)] throws a RangeError ([None]) unless the
    byte length is a multiple of 2. *)
Definition Int16Array (audioData : list byte) : option (list Z) :=
  if Nat.even (length audioData) then Some (int16_samples audioData) else None.

(** [(a / n) > t] on JavaScript numbers, for integers [a], [n >= 0]:
    [0 / 0] is NaN and every comparison with NaN is false. *)
Definition ratio_gt (a n : Z) (t : Q) : bool :=
  if n =? 0 then false else JS.Qlt_bool t (inject_Z a / inject_Z n).

(** [Math.sqrt(x) > t] for a threshold [t >= 0], decided without
    computing the root: [sqrt x > t] exactly when [x > t * t]
    (lemma [sqrt_gt_correct] below). *)
Definition sqrt_gt (x : Q) (t : Q) : bool := JS.Qlt_bool (t * t) x.

(** The [for] loop counting the bytes above the threshold. *)
Definition count_above (threshold : Z) (xs : list Z) : Z :=
  fold_left (fun activity x => if threshold <? x then activity + 1 else activity) xs 0.

(** The [for] loop accumulating the squares. *)
Definition sum_squares (xs : list Z) : Z :=
  fold_left (fun sumSquares x => sumSquares + x * x) xs 0.

(** The [try] block of [detectAudioActivity]; [None] is a thrown
    exception.  [newInt16Array] is the typed-array constructor, the one
    call of the block that can throw. *)
Definition detect_try (newInt16Array : list byte -> option (list Z))
    (audioData : list byte) : option bool :=
  let byteLength := length audioData in
  if (byteLength =? 0)%nat || negb (byteLength mod 2 =? 0)%nat then
    let uint8Array := Uint8Array audioData in
    let threshold := 10 in
    let activity := count_above threshold uint8Array in
    Some (ratio_gt activity (Z.of_nat (length uint8Array)) (1 # 10))
  else
    match newInt16Array audioData with
    | None => None
    | Some int16Array =>
        let threshold := 500%Q in
        let sumSquares := sum_squares int16Array in
        let n := Z.of_nat (length int16Array) in
        if n =? 0 then Some false   (* NaN > threshold *)
        else Some (sqrt_gt (inject_Z sumSquares / inject_Z n) threshold)
    end.

(** [try { ... } catch { return audioData.byteLength > 0 }] *)
Definition detect_try_catch (newInt16Array : list byte -> option (list Z))
    (audioData : list byte) : bool :=
  match detect_try newInt16Array audioData with
  | Some b => b
  | None => (0 <? length audioData)%nat
  end.

(** [detectAudioActivity] *)
Definition detectAudioActivity (audioData : list byte) : bool :=
  detect_try_catch Int16Array audioData.

(** The body of the loop of [cleanupOldTimestamps] for one entry. *)
Definition dropOld (cutoffTime : Z) (m : gmap nat Z) (e : nat * Z) : gmap nat Z :=
  let '(chunkId, timestamp) := e in
  if timestamp <? cutoffTime then delete chunkId m else m.

(** [cleanupOldTimestamps]: [now] is the value of [Date.now()].  The
    loop visits every entry of the map and deletes from the map it
    iterates. *)
Definition cleanupOldTimestamps (now : Z) (audioChunkTimestamps : gmap nat Z)
  : gmap nat Z :=
  let cutoffTime := now - 10000 in
  fold_left (dropOld cutoffTime) (map_to_list audioChunkTimestamps)
    audioChunkTimestamps.
End Service.

(* ===================================================================== *)
(** ** Calls that leave the service                                      *)
(* ===================================================================== *)

(** Every call on an object the service does not own (socket, Deepgram
    connection, recorder, media stream, caller-supplied callback).  Store
    actions are not calls: the store is part of the modelled state. *)
Inductive Call : Type :=
  | io_connect (socketId : nat) (language : list N)   (* io(url, {...}) *)
  | socket_emit_streamEnd (socketId : nat)
  | socket_emit_audioStream (socketId : nat) (buffer : list byte)
  | socket_disconnect (socketId : nat)
  | listen_live (connectionId : nat) (language : list N)
  | connection_send (connectionId : nat) (pcmData : list Z)
  | connection_finish (connectionId : nat)
  | recorder_new (mediaStream : nat)
  | recorder_stop
  | tracks_stop (mediaStream : nat)   (* getTracks().forEach(track => track.stop()) *)
  | callback (result : TranscriptionResult.t).

(** A call that gives a resource back. *)
Definition releases (c : Call) : bool :=
  match c with
  | socket_disconnect _ | connection_finish _ | recorder_stop | tracks_stop _ => true
  | _ => false
  end.

(** A call that opens a transport connection. *)
Definition opens (c : Call) : bool :=
  match c with
  | io_connect _ _ | listen_live _ _ => true
  | _ => false
  end.

(** [.sort((a, b) => b - a)] on numbers. *)
Fixpoint insert_desc (x : Z) (l : list Z) : list Z :=
  match l with
  | [] => [x]
  | y :: l' => if y <=? x then x :: l else y :: insert_desc x l'
  end.

Definition sort_desc (l : list Z) : list Z := fold_right insert_desc [] l.

(* ===================================================================== *)
(** ** [src/services/verbumService.ts]                                   *)
(* ===================================================================== *)

(** [MediaRecorder.state] *)
Inductive RecorderState : Type := inactive | recording | paused.

Module VerbumService.

(** [onTranscription || ((result) => store.getActions().verbum.addResult(result))] *)
Inductive Callback : Type := toCaller | toStore.

(** The socket.io socket as the service sees it. *)
Record Socket : Type := mkSocket { socketId : nat; socket_connected : bool }.

Inductive Status : Type := recognized | recognizing.

Inductive Confidence : Type :=
  | conf_number (c : Q) | conf_string (s : list N) | conf_undefined.

Record VerbumSpeechResult : Type := mkData {
  d_text : list N;               (* "" also stands for a missing text *)
  d_confidence : Confidence;
  d_status : Status;
  d_duration : option Q;
  d_offset : option Q
}.

Record t : Type := mk {
  socket : option Socket;
  isActive : bool;
  isConnecting : bool;
  onTranscription : option Callback;
  startTime : Z;
  results : list TranscriptionResult.t;
  mediaRecorder : option RecorderState;
  stream : option nat;
  audioChunkTimestamps : gmap nat Z;
  currentUtteranceStart : Z;
  audioActivityDetected : bool;
  chunkCounter : nat
}.

(** Field initialisers of the class. *)
Definition new : t :=
  mk None false false None 0 [] None None ∅ 0 false 0%nat.

(** The service together with the store it was constructed with. *)
Record world : Type := mkWorld { svc : t; store : StoreModel.t }.

(** [mapLanguageCode(code, 'verbum')] of [src/utils]: the nine supported
    codes map to themselves, anything else to ['en-US']. *)
Definition mapLanguageCode (code : list N) : list N :=
  if existsb (fun c => if decide (c = code) then true else false)
       (map JS.lit ["en-US"; "es-ES"; "de-DE"; "it-IT"; "fr-FR";
                    "zh-CN"; "ja-JP"; "ko-KR"; "ru-RU"]%string)
  then code else JS.lit "en-US".

(** [startTranscription], up to the [await] on the connection promise
    (the promise executor of [connectToVerbum] runs synchronously).
    [now] is [Date.now()], [fresh] names the socket [io] returns,
    [withCallback] says whether the caller passed [onTranscription]. *)
Definition startTranscription (now : Z) (fresh : nat) (mediaStream : nat)
    (language : list N) (withCallback : bool) (w : world) : world * list Call :=
  let s := svc w in
  if isActive s || isConnecting s then (w, [])     (* already active or connecting *)
  else
    let s1 :=
      mk (Some (mkSocket fresh false))              (* this.socket = io(...) *)
         true true
         (Some (if withCallback then toCaller else toStore))
         now []
         (mediaRecorder s) (stream s) (audioChunkTimestamps s)
         (currentUtteranceStart s) (audioActivityDetected s) (chunkCounter s) in
    let st1 :=
      StoreModel.on_verbum
        (fun m => Model.setConnectionStatus (Model.setActive m true) connecting)
        (store w) in
    (mkWorld s1 st1, [io_connect fresh (mapLanguageCode language)]).

(** [socket.on('connect', ...)] *)
Definition on_connect (w : world) : world :=
  let s := svc w in
  let s1 :=
    mk (option_map (fun k => mkSocket (socketId k) true) (socket s))
       true false (onTranscription s) (startTime s) (results s)
       (mediaRecorder s) (stream s) (audioChunkTimestamps s)
       (currentUtteranceStart s) (audioActivityDetected s) (chunkCounter s) in
  mkWorld s1
    (StoreModel.on_verbum
       (fun m => Model.setActive (Model.setConnectionStatus m connected) true)
       (store w)).

(** [socket.on('connect_error', ...)]; the [catch] block of
    [startTranscription], which the rejection reaches, makes the same
    two writes before it falls back to the Web Speech API. *)
Definition on_connect_error (w : world) : world :=
  let s := svc w in
  let s1 :=
    mk (socket s) (isActive s) false (onTranscription s) (startTime s) (results s)
       (mediaRecorder s) (stream s) (audioChunkTimestamps s)
       (currentUtteranceStart s) (audioActivityDetected s) (chunkCounter s) in
  mkWorld s1
    (StoreModel.on_verbum (fun m => Model.setConnectionStatus m error) (store w)).

(** [socket.on('disconnect', ...)] *)
Definition on_disconnect (w : world) : world :=
  let s := svc w in
  let s1 :=
    mk (option_map (fun k => mkSocket (socketId k) false) (socket s))
       false false (onTranscription s) (startTime s) (results s)
       (mediaRecorder s) (stream s) (audioChunkTimestamps s)
       (currentUtteranceStart s) (audioActivityDetected s) (chunkCounter s) in
  mkWorld s1
    (StoreModel.on_verbum
       (fun m => Model.setActive (Model.setConnectionStatus m disconnected) false)
       (store w)).

(** [startAudioStreaming], up to [mediaRecorder.start(20)]. *)
Definition startAudioStreaming (mediaStream : nat) (w : world) : world * list Call :=
  let s := svc w in
  let s1 :=
    mk (socket s) (isActive s) (isConnecting s) (onTranscription s) (startTime s)
       (results s) (Some recording) (Some mediaStream) ∅ 0 false 0%nat in
  (mkWorld s1 (store w), [recorder_new mediaStream]).

(** [mediaRecorder.ondataavailable], the synchronous part: [size] is
    [event.data.size]. *)
Definition ondataavailable (now : Z) (size : nat) (w : world) : world :=
  let s := svc w in
  if (0 <? size)%nat then
    let chunkId := chunkCounter s in
    let chunkTimestamp := now in
    let stamps := <[chunkId := chunkTimestamp]> (audioChunkTimestamps s) in
    let stamps' :=
      if (chunkId mod 20 =? 0)%nat
      then Service.cleanupOldTimestamps now stamps else stamps in
    mkWorld
      (mk (socket s) (isActive s) (isConnecting s) (onTranscription s) (startTime s)
          (results s) (mediaRecorder s) (stream s) stamps'
          (currentUtteranceStart s) (audioActivityDetected s) (S chunkId))
      (store w)
  else w.

(** The continuation of [event.data.arrayBuffer()] for the chunk stamped
    [chunkTimestamp]. *)
Definition onArrayBuffer (chunkTimestamp : Z) (buffer : list byte) (w : world)
  : world * list Call :=
  let s := svc w in
  let hasActivity :=
    (100 <? length buffer)%nat || Service.detectAudioActivity buffer in
  let mark := negb (audioActivityDetected s) && hasActivity in
  let s1 :=
    mk (socket s) (isActive s) (isConnecting s) (onTranscription s) (startTime s)
       (results s) (mediaRecorder s) (stream s) (audioChunkTimestamps s)
       (if mark then chunkTimestamp else currentUtteranceStart s)
       (if mark then true else audioActivityDetected s) (chunkCounter s) in
  (mkWorld s1 (store w),
   match socket s with
   | Some k =>
       if socket_connected k && isActive s
       then [socket_emit_audioStream (socketId k) buffer] else []
   | None => []
   end).

(** The confidence stored with a result. *)
Definition storedConfidence (c : Confidence) : Q :=
  match c with
  | conf_number q => q
  | conf_string s =>
      if decide (s = JS.lit "high") then Double.lit (9 # 10)
      else if decide (s = JS.lit "medium") then Double.lit (7 # 10)
      else if decide (s = JS.lit "low") then Double.lit (5 # 10)
      else Double.lit (8 # 10)
  | conf_undefined => Double.lit (8 # 10)
  end.

Definition isRecognized (st : Status) : bool :=
  match st with recognized => true | recognizing => false end.

(** The latency computed by [handleSpeechResult] before clamping. *)
Definition calculatedLatency (resultTimestamp : Z) (s : t) : Z :=
  if 0 <? currentUtteranceStart s then
    resultTimestamp - currentUtteranceStart s
  else if (0 <? size (audioChunkTimestamps s))%nat then
    let recentTimestamps :=
      sort_desc
        (List.filter (fun timestamp => resultTimestamp - 3000 <? timestamp)
           (map snd (map_to_list (audioChunkTimestamps s)))) in
    match recentTimestamps with
    | t0 :: _ => resultTimestamp - t0
    | [] => 0
    end
  else 0.

(** [handleSpeechResult]; [now] is [Date.now()]. *)
Definition handleSpeechResult (now : Z) (data : VerbumSpeechResult) (w : world)
  : world * list Call :=
  let s := svc w in
  if negb (JS.truthy (d_text data)) || negb (JS.truthy (JS.trim (d_text data)))
  then (w, [])
  else
    let resultTimestamp := now in
    let lat := calculatedLatency resultTimestamp s in
    let final := isRecognized (d_status data) in
    let result :=
      TranscriptionResult.mk (JS.trim (d_text data)) resultTimestamp
        (Some (storedConfidence (d_confidence data))) final
        (Some (JS.Math_max 0 (inject_Z lat))) in
    let s1 :=
      mk (socket s) (isActive s) (isConnecting s) (onTranscription s) (startTime s)
         (results s ++ [result]) (mediaRecorder s) (stream s)
         (audioChunkTimestamps s)
         (if final then 0 else currentUtteranceStart s)
         (if final then false else audioActivityDetected s) (chunkCounter s) in
    match onTranscription s with
    | None => (mkWorld s1 (store w), [])      (* TypeError: handler abandoned *)
    | Some cb =>
        let '(st1, calls) :=
          match cb with
          | toStore => (StoreModel.on_verbum (fun m => Model.addResult m result) (store w), [])
          | toCaller => (store w, [callback result])
          end in
        let st2 :=
          if final then
            let currentResults := Model.results (StoreModel.verbum st1) in
            let metrics := Service.calculateMetrics currentResults in
            StoreModel.on_verbum
              (fun m => Model.updateMetrics m (TranscriptionMetrics.to_obj metrics)) st1
          else st1 in
        (mkWorld s1 st2, calls)
    end.

(** One result of [recognition.onresult] on the Web Speech fallback;
    the callback handed to [fallbackToWebSpeech] is the caller's, or the
    store's [addResult] when the caller gave none. *)
Definition webSpeech_onresult (now : Z) (transcript : list N) (conf : Q)
    (final : bool) (w : world) : world * list Call :=
  let s := svc w in
  let result :=
    TranscriptionResult.mk transcript now
      (Some (if Qeq_bool conf 0 then Double.lit (85 # 100) else conf)) final None in
  let s1 :=
    mk (socket s) (isActive s) (isConnecting s) (onTranscription s) (startTime s)
       (results s ++ [result]) (mediaRecorder s) (stream s)
       (audioChunkTimestamps s) (currentUtteranceStart s)
       (audioActivityDetected s) (chunkCounter s) in
  if JS.truthy (JS.trim transcript) then
    match onTranscription s with
    | Some toCaller => (mkWorld s1 (store w), [callback result])
    | _ => (mkWorld s1 (StoreModel.on_verbum (fun m => Model.addResult m result) (store w)), [])
    end
  else (mkWorld s1 (store w), []).

(** [stopTranscription] *)
Definition stopTranscription (w : world) : world * list Call :=
  let s := svc w in
  let c1 :=
    match socket s with
    | Some k => if socket_connected k then [socket_emit_streamEnd (socketId k)] else []
    | None => []
    end in
  let '(rec', c2) :=
    match mediaRecorder s with
    | Some inactive => (Some inactive, [])
    | Some _ => (None, [recorder_stop])
    | None => (None, [])
    end in
  let c3 := match stream s with Some ms => [tracks_stop ms] | None => [] end in
  let c4 := match socket s with Some k => [socket_disconnect (socketId k)] | None => [] end in
  let s1 :=
    mk None false false (onTranscription s) (startTime s) (results s)
       rec' None (audioChunkTimestamps s) (currentUtteranceStart s)
       (audioActivityDetected s) (chunkCounter s) in
  let st1 :=
    if (0 <? length (results s))%nat then
      let finalMetrics := Service.calculateMetrics (results s) in
      StoreModel.on_verbum
        (fun m => Model.updateMetrics m (TranscriptionMetrics.to_obj finalMetrics))
        (store w)
    else store w in
  let st2 :=
    StoreModel.on_verbum
      (fun m => Model.setActive (Model.setConnectionStatus m disconnected) false) st1 in
  (mkWorld s1 st2, c1 ++ c2 ++ c3 ++ c4).

End VerbumService.

(* ===================================================================== *)
(** ** [DeepgramService] (store-backed revision)                         *)
(* ===================================================================== *)

Module DeepgramService.

(** [data.channel?.alternatives?.[0]]; the handler reads [start] and
    [duration] from this object. *)
Record Alternative : Type := mkAlt {
  transcript : list N;
  confidence : option Q;
  start : option Q;
  duration : option Q
}.

Record Data : Type := mkData {
  is_final : bool;
  alternative : option Alternative
}.

(** The message as the interface [DeepgramResponse] of the file declares
    it: [start] and [duration] are fields of the message, an alternative
    has a transcript and a confidence (and words, which the service
    never reads). *)
Record DeepgramAlternative : Type := mkAlternative {
  a_transcript : list N;
  a_confidence : Q
}.

Record DeepgramResponse : Type := mkResponse {
  r_duration : Q;
  r_start : Q;
  r_is_final : bool;
  r_alternatives : list DeepgramAlternative
}.

(** What [handleTranscriptResult], whose parameter is typed [any], finds
    in such a message: [alternatives[0]] has no [start] and no
    [duration] of its own. *)
Definition received (message : DeepgramResponse) : Data :=
  mkData (r_is_final message)
    (option_map (fun a => mkAlt (a_transcript a) (Some (a_confidence a)) None None)
       (head (r_alternatives message))).

Record t : Type := mk {
  connection : option nat;
  mediaRecorder : option RecorderState;
  stream : option nat;
  isActive : bool;
  connectionStartTime : Z;
  audioActivityDetected : bool;
  currentUtteranceStart : Z;
  chunkCounter : nat;
  audioChunkTimestamps : gmap nat Z;
  audioCursor : Q;             (* total seconds of audio submitted *)
  sessionStartTime : Z;
  audioStreamStartTime : Z
}.

Definition new : t := mk None None None false 0 false 0 0%nat ∅ 0%Q 0 0.

Record world : Type := mkWorld { svc : t; store : StoreModel.t }.

Definition Math_min (a b : Q) : Q := if Qle_bool a b then a else b.

(** Storing a number in an [Int16Array] slot drops its fraction; the
    values stored here are already within the 16-bit range. *)
Definition toInt16 (x : Q) : Z := if Qle_bool 0 x then Qfloor x else Qceiling x.

Definition convertFloat32ToPCM16 (float32Array : list Q) : list Z :=
  map (fun x => toInt16 (JS.Math_max (-32768) (Math_min 32767 (x * 32768)))) float32Array.

Definition detectAudioActivityFromFloat32 (float32Array : list Q) : bool :=
  let threshold := Double.lit (1 # 100) in
  let sumSquares :=
    fold_left (fun sumSquares x => Double.add sumSquares (Double.mul x x))
      float32Array 0%Q in
  if (length float32Array =? 0)%nat then false   (* 0 / 0 is NaN, NaN > threshold *)
  else
    let rms := Double.sqrt (Double.div sumSquares (Double.of_nat (length float32Array))) in
    JS.Qlt_bool threshold rms.

(** [stopTranscription]; the calls inside its [try] block are taken not
    to throw. *)
Definition stopTranscription (w : world) : world * list Call :=
  let s := svc w in
  if negb (isActive s) then (w, [])             (* service is not active *)
  else
    let st1 := StoreModel.on_deepgram (fun m => Model.setActive m false) (store w) in
    let '(rec', c1) :=
      match mediaRecorder s with
      | Some inactive => (Some inactive, [])
      | Some _ => (None, [recorder_stop])
      | None => (None, [])
      end in
    let c2 := match stream s with Some ms => [tracks_stop ms] | None => [] end in
    let c3 := match connection s with Some k => [connection_finish k] | None => [] end in
    let s1 :=
      mk None rec' None false (connectionStartTime s) (audioActivityDetected s)
         (currentUtteranceStart s) (chunkCounter s) (audioChunkTimestamps s)
         (audioCursor s) (sessionStartTime s) (audioStreamStartTime s) in
    let st2 :=
      StoreModel.on_deepgram (fun m => Model.setConnectionStatus m disconnected) st1 in
    let currentResults := Model.results (StoreModel.deepgram st2) in
    let st3 :=
      if (0 <? length currentResults)%nat then
        let finalMetrics := Service.calculateMetrics currentResults in
        StoreModel.on_deepgram
          (fun m => Model.updateMetrics m (TranscriptionMetrics.to_obj finalMetrics)) st2
      else st2 in
    (mkWorld s1 st3, c1 ++ c2 ++ c3).

(** The state resets at the head of [startAudioStreaming]. *)
Definition startAudioStreaming (now : Z) (mediaStream : nat) (s : t) : t :=
  mk (connection s) (mediaRecorder s) (Some mediaStream) (isActive s)
     (connectionStartTime s) false 0 0%nat ∅ 0%Q now now.

(** The [catch] block of [startTranscription]. *)
Definition startFailed (w : world) : world :=
  let s := svc w in
  mkWorld
    (mk (connection s) (mediaRecorder s) (stream s) false (connectionStartTime s)
        (audioActivityDetected s) (currentUtteranceStart s) (chunkCounter s)
        (audioChunkTimestamps s) (audioCursor s) (sessionStartTime s)
        (audioStreamStartTime s))
    (StoreModel.on_deepgram
       (fun m => Model.setActive (Model.setConnectionStatus m error) false) (store w)).

(** [startTranscription], run without another handler in between.
    [now] is [Date.now()]; [live] is the connection returned by
    [client.listen.live] ([None]: it throws); [audioOk] is false when
    setting up the [AudioContext] throws.  The boolean of the result
    says whether the returned promise is rejected. *)
Definition startTranscription (now : Z) (live : option nat) (audioOk : bool)
    (mediaStream : nat) (language : list N) (w : world)
  : world * list Call * bool :=
  let '(w0, c0) :=
    if isActive (svc w) then stopTranscription w   (* stopping current session *)
    else (w, []) in
  let s := svc w0 in
  let st1 :=
    StoreModel.on_deepgram
      (fun m => Model.setActive
                  (Model.setConnectionStatus (Model.reset m) connecting) true)
      (store w0) in
  let s1 :=
    mk (connection s) (mediaRecorder s) (stream s) true now
       (audioActivityDetected s) (currentUtteranceStart s) (chunkCounter s)
       (audioChunkTimestamps s) (audioCursor s) (sessionStartTime s)
       (audioStreamStartTime s) in
  match live with
  | None => (startFailed (mkWorld s1 st1), c0, true)
  | Some k =>
      let s2 :=
        mk (Some k) (mediaRecorder s1) (stream s1) (isActive s1)
           (connectionStartTime s1) (audioActivityDetected s1)
           (currentUtteranceStart s1) (chunkCounter s1) (audioChunkTimestamps s1)
           (audioCursor s1) (sessionStartTime s1) (audioStreamStartTime s1) in
      let st2 :=
        StoreModel.on_deepgram (fun m => Model.setConnectionStatus m connected) st1 in
      let w3 := mkWorld (startAudioStreaming now mediaStream s2) st2 in
      if audioOk then (w3, c0 ++ [listen_live k language], false)
      else (startFailed w3, c0 ++ [listen_live k language], true)
  end.

(** [LiveTranscriptionEvents.Open] *)
Definition on_open (w : world) : world :=
  mkWorld (svc w)
    (StoreModel.on_deepgram (fun m => Model.setConnectionStatus m connected) (store w)).

(** [LiveTranscriptionEvents.Error] *)
Definition on_error (w : world) : world :=
  mkWorld (svc w)
    (StoreModel.on_deepgram (fun m => Model.setConnectionStatus m error) (store w)).

(** [LiveTranscriptionEvents.Close] *)
Definition on_close (w : world) : world :=
  let s := svc w in
  mkWorld
    (mk (connection s) (mediaRecorder s) (stream s) false (connectionStartTime s)
        (audioActivityDetected s) (currentUtteranceStart s) (chunkCounter s)
        (audioChunkTimestamps s) (audioCursor s) (sessionStartTime s)
        (audioStreamStartTime s))
    (StoreModel.on_deepgram
       (fun m => Model.setActive (Model.setConnectionStatus m disconnected) false)
       (store w)).

(** [transcript.confidence || 0.95] *)
Definition storedConfidence (c : option Q) : Q :=
  match c with
  | Some q => if Qeq_bool q 0 then Double.lit (95 # 100) else q
  | None => Double.lit (95 # 100)
  end.

(** The latency computed by [handleTranscriptResult] before the final
    clamp. *)
Definition calculatedLatency (resultTimestamp : Z) (final : bool)
    (a : Alternative) (s : t) : Q :=
  match negb final, start a, duration a with
  | true, Some st, Some du =>
      let audioCursorX := audioCursor s in
      let transcriptCursorY := Double.add st du in
      JS.Math_max 0 (Double.mul (Double.sub audioCursorX transcriptCursorY) 1000)
  | _, _, _ =>
      if final then
        if 0 <? currentUtteranceStart s
        then inject_Z (resultTimestamp - currentUtteranceStart s)
        else 0%Q
      else 0%Q
  end.

(** [handleTranscriptResult]; [now] is [Date.now()]. *)
Definition handleTranscriptResult (now : Z) (data : Data) (w : world) : world :=
  let s := svc w in
  match alternative data with
  | None => w
  | Some a =>
      if negb (JS.truthy (transcript a)) || negb (JS.truthy (JS.trim (transcript a)))
      then w
      else
        let resultTimestamp := now in
        let final := is_final data in
        let lat := calculatedLatency resultTimestamp final a s in
        let s1 :=
          mk (connection s) (mediaRecorder s) (stream s) (isActive s)
             (connectionStartTime s)
             (if final then false else audioActivityDetected s)
             (if final then 0 else currentUtteranceStart s)
             (chunkCounter s) (audioChunkTimestamps s) (audioCursor s)
             (sessionStartTime s) (audioStreamStartTime s) in
        let result :=
          TranscriptionResult.mk (JS.trim (transcript a)) resultTimestamp
            (Some (storedConfidence (confidence a))) final
            (Some (JS.Math_max 0 lat)) in
        let st1 := StoreModel.on_deepgram (fun m => Model.addResult m result) (store w) in
        let st2 :=
          if final then
            let currentResults := Model.results (StoreModel.deepgram st1) in
            let metrics := Service.calculateMetrics currentResults in
            StoreModel.on_deepgram
              (fun m => Model.updateMetrics m (TranscriptionMetrics.to_obj metrics)) st1
          else st1 in
        mkWorld s1 st2
  end.

(** Whether [processor.onaudioprocess] gets past its first line. *)
Definition submits (s : t) : bool :=
  match connection s with Some _ => isActive s | None => false end.

(** [processor.onaudioprocess]; [inputBuffer] is channel 0 of the event. *)
Definition onaudioprocess (now : Z) (inputBuffer : list Q) (w : world)
  : world * list Call :=
  let s := svc w in
  match connection s with
  | Some k =>
      if negb (isActive s) then (w, [])
      else
        let chunkId := chunkCounter s in
        let chunkTimestamp := now in
        let stamps := <[chunkId := chunkTimestamp]> (audioChunkTimestamps s) in
        let hasActivity := detectAudioActivityFromFloat32 inputBuffer in
        let mark := negb (audioActivityDetected s) && hasActivity in
        let pcmData := convertFloat32ToPCM16 inputBuffer in
        let chunkDurationSeconds :=
          Double.div (Double.of_nat (length inputBuffer)) 16000 in
        let stamps' :=
          if (chunkId mod 50 =? 0)%nat
          then Service.cleanupOldTimestamps now stamps else stamps in
        (mkWorld
           (mk (connection s) (mediaRecorder s) (stream s) (isActive s)
               (connectionStartTime s)
               (if mark then true else audioActivityDetected s)
               (if mark then chunkTimestamp else currentUtteranceStart s)
               (S chunkId) stamps'
               (Double.add (audioCursor s) chunkDurationSeconds)
               (sessionStartTime s) (audioStreamStartTime s))
           (store w),
         [connection_send k pcmData])
  | None => (w, [])
  end.

(** *** Everything that can run between two session starts *)

Inductive Op : Type :=
  | op_audio (now : Z) (inputBuffer : list Q)
  | op_transcript (now : Z) (data : Data)
  | op_open | op_error | op_close
  | op_stop.

Definition step (o : Op) (w : world) : world :=
  match o with
  | op_audio now buf => fst (onaudioprocess now buf w)
  | op_transcript now data => handleTranscriptResult now data w
  | op_open => on_open w
  | op_error => on_error w
  | op_close => on_close w
  | op_stop => fst (stopTranscription w)
  end.

Definition run (ops : list Op) (w : world) : world :=
  fold_left (fun w o => step o w) ops w.

(** What one operation adds to the cursor: the duration of its chunk when
    it is an audio chunk that gets submitted. *)
Definition advance_of (o : Op) (w : world) : list Q :=
  match o with
  | op_audio _ buf =>
      if submits (svc w) then [Double.div (Double.of_nat (length buf)) 16000] else []
  | _ => []
  end.

(** The durations by which the cursor is advanced while [ops] run from
    [w], in order: one per chunk that is submitted. *)
Fixpoint advances (ops : list Op) (w : world) : list Q :=
  match ops with
  | [] => []
  | o :: ops' => advance_of o w ++ advances ops' (step o w)
  end.

(** The external calls one operation makes. *)
Definition calls_of (o : Op) (w : world) : list Call :=
  match o with
  | op_audio now buf => snd (onaudioprocess now buf w)
  | op_stop => snd (stopTranscription w)
  | _ => []
  end.

(** The external calls made while [ops] run from [w], in order. *)
Fixpoint trace (ops : list Op) (w : world) : list Call :=
  match ops with
  | [] => []
  | o :: ops' => calls_of o w ++ trace ops' (step o w)
  end.

End DeepgramService.

(* ===================================================================== *)
(** ** The quantities the specification speaks about                     *)
(* ===================================================================== *)

(** These follow the words of the specification, not the code; the
    theorems below relate the two. *)
Module Spec.
Import TranscriptionResult.

(** Arithmetic mean. *)
Definition mean (xs : list Q) : Q :=
  (fold_right Qplus 0 xs / inject_Z (Z.of_nat (length xs)))%Q.

(** The mean as the machine computes it: the numbers are added from the
    left, then the sum is divided by their count, and every operation is
    rounded to a double. *)
Definition mean_double (xs : list Q) : Q :=
  Double.div (Double.sum xs) (Double.of_nat (length xs)).

(** The latency fields that are present and positive. *)
Definition positive_latencies (rs : list TranscriptionResult.t) : list Q :=
  flat_map (fun r => match latency r with
                     | Some l => if Qlt_le_dec 0 l then [l] else []
                     | None => []
                     end) rs.

(** The confidence fields that are present. *)
Definition present_confidences (rs : list TranscriptionResult.t) : list Q :=
  flat_map (fun r => match confidence r with Some c => [c] | None => [] end) rs.

(** Number of white-space-delimited non-empty tokens: the positions at
    which a token begins.  [prev_ws] says that the previous code unit
    was white space (or that there is none). *)
Fixpoint token_starts (prev_ws : bool) (s : list N) : nat :=
  match s with
  | [] => 0
  | c :: s' =>
      ((if prev_ws && negb (JS.isWhiteSpace c) then 1 else 0)
       + token_starts (JS.isWhiteSpace c) s')%nat
  end.

Definition token_count (s : list N) : nat := token_starts true s.

(** Space-joined, trimmed concatenation of the final texts. *)
Definition finalText (rs : list TranscriptionResult.t) : list N :=
  JS.trim (JS.join [32%N] (map text (List.filter isFinal rs))).

(** Root mean square of a sequence of samples. *)
Definition rms (samples : list Z) : R :=
  sqrt (fold_right (fun x acc => IZR x * IZR x + acc) 0 samples
        / INR (length samples))%R.

(** Fraction of the bytes whose unsigned value exceeds [threshold]. *)
Definition fraction_above (threshold : Z) (bytes : list byte) : Q :=
  (inject_Z (Z.of_nat (length (List.filter
                                 (fun b => threshold <? Z.of_N (Byte.to_N b)) bytes)))
   / inject_Z (Z.of_nat (length bytes)))%Q.

(** Exact sum of a sequence of durations. *)
Definition total (ds : list Q) : Q := fold_right Qplus 0%Q ds.

(** The latency formula of the specification, in milliseconds. *)
Definition cursor_latency (audioCursor offsetSeconds durationSeconds : Q) : Q :=
  let transcriptCursor := (offsetSeconds + durationSeconds)%Q in
  let raw := ((audioCursor - transcriptCursor) * 1000)%Q in
  if Qlt_le_dec raw 0 then 0%Q else raw.
End Spec.

(* ===================================================================== *)
(** ** Concrete inputs used by the examples                              *)
(* ===================================================================== *)

Module Ex.
Import TranscriptionResult.

Definition final_hi_untrimmed : TranscriptionResult.t :=
  TranscriptionResult.mk (JS.lit " hi") 1000 (Some (Double.lit (9 # 10))) true None.

Definition interim_x : TranscriptionResult.t :=
  TranscriptionResult.mk (JS.lit "x") 1100 (Some (Double.lit (8 # 10))) false None.

Definition final_quick : TranscriptionResult.t :=
  TranscriptionResult.mk (JS.lit "the quick") 1000 (Some (Double.lit (9 # 10))) true (Some 120%Q).

Definition final_fox : TranscriptionResult.t :=
  TranscriptionResult.mk (JS.lit "brown fox") 2000 (Some (Double.lit (8 # 10))) true (Some 81%Q).

Definition interim_hello : TranscriptionResult.t :=
  TranscriptionResult.mk (JS.lit "hello") 900 (Some (Double.lit (8 # 10))) false (Some 50%Q).

Definition store_with_hi : Model.t :=
  Model.addResult Model.initial final_hi_untrimmed.

Definition store_with_quick : Model.t :=
  Model.addResult Model.initial final_quick.
(** A Verbum session that is streaming: socket 3 connected, recorder
    running on media stream 7, one final result so far. *)
Definition verbum_streaming : VerbumService.world :=
  VerbumService.mkWorld
    (VerbumService.mk (Some (VerbumService.mkSocket 3 true)) true false
       (Some VerbumService.toStore) 500 [final_quick] (Some recording) (Some 7%nat)
       (<[0%nat := 900]> ∅) 900 true 1%nat)
    (StoreModel.mk Model.initial
       (Model.setConnectionStatus (Model.setActive store_with_quick true) connected)).

(** A Deepgram session that is streaming on connection 1 and media stream
    7, after five chunks of 0.02 s, with one final result in the store. *)
Definition deepgram_streaming : DeepgramService.world :=
  DeepgramService.mkWorld
    (DeepgramService.mk (Some 1%nat) None (Some 7%nat) true 500 false 0 5%nat
       ∅ (Double.lit (1 # 10)) 600 600)
    (StoreModel.mk
       (Model.setConnectionStatus (Model.setActive store_with_quick true) connected)
       Model.initial).
(** The same Verbum session between two utterances: no utterance start
    is tracked and no chunk has been stamped. *)
Definition verbum_between_utterances : VerbumService.world :=
  VerbumService.mkWorld
    (VerbumService.mk (Some (VerbumService.mkSocket 3 true)) true false
       (Some VerbumService.toStore) 500 [final_quick] (Some recording) (Some 7%nat)
       ∅ 0 false 1%nat)
    (VerbumService.store verbum_streaming).

(** Interim Verbum events that carry an offset and a duration. *)
Definition verbum_interim_a : VerbumService.VerbumSpeechResult :=
  VerbumService.mkData (JS.lit "hello") (VerbumService.conf_number (Double.lit (9 # 10)))
    VerbumService.recognizing (Some (3 # 100)) (Some (2 # 100)).

Definition verbum_interim_b : VerbumService.VerbumSpeechResult :=
  VerbumService.mkData (JS.lit "hello") (VerbumService.conf_number (Double.lit (9 # 10)))
    VerbumService.recognizing (Some 1%Q) (Some 1%Q).

(** A final Verbum event without offset and duration. *)
Definition verbum_final : VerbumService.VerbumSpeechResult :=
  VerbumService.mkData (JS.lit "hello world") (VerbumService.conf_string (JS.lit "high"))
    VerbumService.recognized None None.

(** An interim Deepgram event at offset 0.02 s lasting 0.03 s, and a final
    one without position. *)
Definition deepgram_interim : DeepgramService.Data :=
  DeepgramService.mkData false
    (Some (DeepgramService.mkAlt (JS.lit "hello") (Some (Double.lit (9 # 10)))
             (Some (Double.lit (2 # 100))) (Some (Double.lit (3 # 100))))).

Definition deepgram_final : DeepgramService.Data :=
  DeepgramService.mkData true
    (Some (DeepgramService.mkAlt (JS.lit "hello world") (Some (Double.lit (9 # 10))) None None)).

(** The latency stored with the most recent result. *)
Definition last_latency (rs : list TranscriptionResult.t) : option (option Q) :=
  option_map TranscriptionResult.latency (last rs).
End Ex.

(* ===================================================================== *)
(** ** [src/utils]                                                       *)
(* ===================================================================== *)

Module Utils.

Inductive ServiceName : Type := deepgram | verbum | webspeech.

(** The [mapping] table of [mapLanguageCode]: per language code, the
    codes for [deepgram], [verbum] and [webspeech]. *)
Definition mapping : list (string * (string * string * string)) :=
  [ ("en-US", ("en-US", "en-US", "en-US"));
    ("es-ES", ("es", "es-ES", "es-ES"));
    ("de-DE", ("de", "de-DE", "de-DE"));
    ("it-IT", ("it", "it-IT", "it-IT"));
    ("fr-FR", ("fr", "fr-FR", "fr-FR"));
    ("zh-CN", ("zh", "zh-CN", "zh-CN"));
    ("ja-JP", ("ja", "ja-JP", "ja-JP"));
    ("ko-KR", ("ko", "ko-KR", "ko-KR"));
    ("ru-RU", ("ru", "ru-RU", "ru-RU")) ]%string.

(** [row[service]] *)
Definition entry (service : ServiceName) (row : string * string * string) : list N :=
  let '(d, v, w) := row in
  JS.lit match service with deepgram => d | verbum => v | webspeech => w end.

(** [mapping[code]]: the row of an own key.  A name that the object only
    inherits ([constructor], [toString], ...) yields a value without the
    service keys, which the optional chaining then turns into
    [undefined] like a missing key. *)
Fixpoint row_of (code : list N) (table : list (string * (string * string * string)))
  : option (string * string * string) :=
  match table with
  | [] => None
  | (k, row) :: table' =>
      if decide (JS.lit k = code) then Some row else row_of code table'
  end.

(** [mapping[code]?.[service] || mapping['en-US'][service]] *)
Definition mapLanguageCode (code : list N) (service : ServiceName) : list N :=
  match row_of code mapping with
  | Some row =>
      if JS.truthy (entry service row) then entry service row
      else entry service ("en-US", "en-US", "en-US")%string
  | None => entry service ("en-US", "en-US", "en-US")%string
  end.

(** The codes that are keys of [mapping]. *)
Definition supported : list (list N) := map (fun e => JS.lit (fst e)) mapping.

(** [calculateAverage] *)
Definition calculateAverage (numbers : list Q) : Q :=
  if (length numbers =? 0)%nat then 0%Q
  else Double.div (JS.sum numbers) (Double.of_nat (length numbers)).

(** [countWords] *)
Definition countWords (text : list N) : nat :=
  length (List.filter JS.nonEmpty (JS.split_ws (JS.trim text))).

(** [s.substring(start, end)] for integer arguments: both are clamped to
    [0, s.length] and swapped when [start > end]. *)
Definition substring (s : list N) (start end_ : Z) : list N :=
  let len := Z.of_nat (length s) in
  let a := Z.min (Z.max start 0) len in
  let b := Z.min (Z.max end_ 0) len in
  let from := Z.min a b in
  let to := Z.max a b in
  firstn (Z.to_nat (to - from)) (skipn (Z.to_nat from) s).

(** [truncateText], for an integer [maxLength] *)
Definition truncateText (text : list N) (maxLength : Z) : list N :=
  if Z.of_nat (length text) <=? maxLength then text
  else substring text 0 (maxLength - 3) ++ JS.lit "...".

End Utils.

(* ===================================================================== *)
(** ** Runs of store actions and of service events                       *)
(* ===================================================================== *)

(** The actions of a store module, as dispatched values. *)
Module Dispatch.

Inductive Action : Type :=
  | addResult (payload : TranscriptionResult.t)
  | updateText (payload : list N)
  | updateMetrics (payload : TranscriptionMetrics.obj)
  | setActive (payload : bool)
  | setConnectionStatus (payload : ConnectionStatus)
  | clearResults
  | reset.

Definition apply (a : Action) (state : Model.t) : Model.t :=
  match a with
  | addResult p => Model.addResult state p
  | updateText p => Model.updateText state p
  | updateMetrics p => Model.updateMetrics state p
  | setActive p => Model.setActive state p
  | setConnectionStatus p => Model.setConnectionStatus state p
  | clearResults => Model.clearResults state
  | reset => Model.reset state
  end.

Definition run (acts : list Action) (state : Model.t) : Model.t :=
  fold_left (fun st a => apply a st) acts state.

(** The action empties the result list. *)
Definition clears (a : Action) : bool :=
  match a with clearResults | reset => true | _ => false end.

(** The results an action list adds, in order. *)
Definition added (acts : list Action) : list TranscriptionResult.t :=
  flat_map (fun a => match a with addResult p => [p] | _ => [] end) acts.

End Dispatch.

(** Everything that can happen to a [DeepgramService], session starts
    included. *)
Module DeepgramSession.
Import DeepgramService.

Inductive Event : Type :=
  | ev_start (now : Z) (live : option nat) (audioOk : bool)
             (mediaStream : nat) (language : list N)
  | ev_op (o : Op).

Definition step (e : Event) (w : world) : world :=
  match e with
  | ev_start now live audioOk mediaStream language =>
      fst (fst (startTranscription now live audioOk mediaStream language w))
  | ev_op o => DeepgramService.step o w
  end.

Definition run (es : list Event) (w : world) : world :=
  fold_left (fun w e => step e w) es w.

(** The service as constructed, with any store. *)
Definition fresh (st : StoreModel.t) : world := mkWorld DeepgramService.new st.

(** What holds of the service in every state a session can reach: chunk
    ids in the timestamp map are below the counter, an idle utterance
    timer has start 0, an active service holds a connection, and the
    cursor is not negative. *)
Definition Inv (s : DeepgramService.t) : Prop :=
  (forall k t, audioChunkTimestamps s !! k = Some t -> (k < chunkCounter s)%nat)
  /\ (audioActivityDetected s = false -> currentUtteranceStart s = 0)
  /\ (isActive s = true -> connection s <> None)
  /\ (0 <= audioCursor s)%Q.

(** The operations are audio chunks only. *)
Definition audioOnly (ops : list Op) : Prop :=
  Forall (fun o => match o with op_audio _ _ => True | _ => False end) ops.

(** Every audio event of the run carries [n] samples. *)
Definition fixedBuffers (n : nat) (es : list Event) : Prop :=
  Forall (fun e => match e with
                   | ev_op (op_audio _ buf) => length buf = n
                   | _ => True
                   end) es.

End DeepgramSession.

(** Everything that can happen to a [VerbumService]. *)
Module VerbumSession.
Import VerbumService.

Inductive Event : Type :=
  | ev_start (now : Z) (fresh mediaStream : nat) (language : list N)
             (withCallback : bool)
  | ev_connect
  | ev_connect_error
  | ev_disconnect
  | ev_startAudioStreaming (mediaStream : nat)
  | ev_dataavailable (now : Z) (size : nat)
  | ev_arrayBuffer (chunkTimestamp : Z) (buffer : list byte)
  | ev_speechRecognized (now : Z) (data : VerbumSpeechResult)
  | ev_webSpeech (now : Z) (transcript : list N) (conf : Q) (final : bool)
  | ev_stop.

Definition step (e : Event) (w : world) : world :=
  match e with
  | ev_start now fresh mediaStream language withCallback =>
      fst (startTranscription now fresh mediaStream language withCallback w)
  | ev_connect => on_connect w
  | ev_connect_error => on_connect_error w
  | ev_disconnect => on_disconnect w
  | ev_startAudioStreaming mediaStream => fst (startAudioStreaming mediaStream w)
  | ev_dataavailable now size => ondataavailable now size w
  | ev_arrayBuffer chunkTimestamp buffer => fst (onArrayBuffer chunkTimestamp buffer w)
  | ev_speechRecognized now data => fst (handleSpeechResult now data w)
  | ev_webSpeech now transcript conf final =>
      fst (webSpeech_onresult now transcript conf final w)
  | ev_stop => fst (stopTranscription w)
  end.

Definition run (es : list Event) (w : world) : world :=
  fold_left (fun w e => step e w) es w.

(** The service as constructed, with any store. *)
Definition fresh (st : StoreModel.t) : world := mkWorld VerbumService.new st.

(** What holds of the service in every state a session can reach: chunk
    ids in the timestamp map are below the counter, an idle utterance
    timer has start 0, and a connecting service counts as active and
    holds a socket. *)
Definition Inv (s : VerbumService.t) : Prop :=
  (forall k t, audioChunkTimestamps s !! k = Some t -> (k < chunkCounter s)%nat)
  /\ (audioActivityDetected s = false -> currentUtteranceStart s = 0)
  /\ (isConnecting s = true -> isActive s = true)
  /\ (isConnecting s = true -> socket s <> None).

(** The events are results of the Web Speech fallback only. *)
Definition webSpeechOnly (es : list Event) : Prop :=
  Forall (fun e => match e with ev_webSpeech _ _ _ _ => True | _ => False end) es.

End VerbumSession.

(** Further quantities the properties speak about. *)
Module Measure.

(** Every code unit of the string is white space. *)
Definition blank (s : list N) : bool := forallb JS.isWhiteSpace s.

(** The string neither starts nor ends with white space. *)
Definition trimmed (s : list N) : Prop :=
  match s with
  | [] => True
  | c :: _ => JS.isWhiteSpace c = false
  end
  /\ match rev s with
     | [] => True
     | c :: _ => JS.isWhiteSpace c = false
     end.

(** The keys of a timestamp map are below a counter. *)
Definition keysBelow (n : nat) (m : gmap nat Z) : Prop :=
  forall k t, m !! k = Some t -> (k < n)%nat.

End Measure.

(* ===================================================================== *)
(** * Properties                                                         *)
(* ===================================================================== *)

(** ** Rounding to the nearest double *)

Section DoubleFacts.
Local Open Scope Q_scope.

Lemma pow2_pos (e : Z) : 0 < 2 ^ e.
Proof. apply Qpower_0_lt. reflexivity. Qed.

Lemma pow2_add (a b : Z) : 2 ^ (a + b) == 2 ^ a * 2 ^ b.
Proof. apply Qpower_plus. discriminate. Qed.

Lemma pow2_succ (a : Z) : 2 ^ (a + 1) == 2 * 2 ^ a.
Proof. rewrite pow2_add. change (2 ^ 1) with 2. ring. Qed.

Lemma pow2_le (a b : Z) : (a <= b)%Z -> 2 ^ a <= 2 ^ b.
Proof. intros H. apply Qpower_le_compat_l; [exact H|discriminate]. Qed.

Lemma pow2_lt_inv (a b : Z) : 2 ^ a < 2 ^ b -> (a < b)%Z.
Proof. intros H. apply (Qpower_lt_compat_l_inv 2); [exact H|reflexivity]. Qed.

Lemma pow2_Z (n : Z) : (0 <= n)%Z -> inject_Z (2 ^ n) == 2 ^ n.
Proof. intros H. apply (Zpower_Qpower 2 n H). Qed.

Lemma ilog2_spec (x : Q) :
  0 < x -> 2 ^ Double.ilog2 x <= x /\ x < 2 ^ (Double.ilog2 x + 1).
Proof.
  intros Hx. destruct x as [n d].
  assert (Hn : (0 < n)%Z).
  { unfold Qlt in Hx. simpl in Hx. lia. }
  unfold Double.ilog2. cbn [Qnum Qden].
  set (a := Z.log2 n). set (b := Z.log2 (Z.pos d)).
  assert (Ha0 : (0 <= a)%Z) by apply Z.log2_nonneg.
  assert (Hb0 : (0 <= b)%Z) by apply Z.log2_nonneg.
  destruct (Z.log2_spec n Hn) as [Ha1 Ha2]. fold a in Ha1, Ha2.
  destruct (Z.log2_spec (Z.pos d) eq_refl) as [Hb1 Hb2]. fold b in Hb1, Hb2.
  rewrite Zle_Qle, pow2_Z in Ha1, Hb1 by assumption.
  rewrite Zlt_Qlt, pow2_Z in Ha2, Hb2 by lia.
  change (Z.succ a) with (a + 1)%Z in Ha2. change (Z.succ b) with (b + 1)%Z in Hb2.
  rewrite pow2_succ in Ha2, Hb2.
  assert (Hk : 2 ^ (a - b) * 2 ^ b == 2 ^ a).
  { rewrite <- pow2_add. replace (a - b + b)%Z with a by lia. reflexivity. }
  assert (Hxd : (n # d) * inject_Z (Z.pos d) == inject_Z n).
  { rewrite Qmake_Qdiv. field. discriminate. }
  pose proof (pow2_pos (a - b)) as HK. pose proof (pow2_pos b) as HB.
  pose proof (pow2_pos a) as HA.
  assert (Hd : 0 < inject_Z (Z.pos d)) by reflexivity.
  set (X := n # d) in *. set (D := inject_Z (Z.pos d)) in *.
  set (N := inject_Z n) in *. set (K := 2 ^ (a - b)) in *.
  set (A := 2 ^ a) in *. set (B := 2 ^ b) in *.
  destruct (Qle_bool K X) eqn:E.
  - apply Qle_bool_iff in E. split; [exact E|].
    rewrite pow2_succ. fold K.
    destruct (Qlt_le_dec X (2 * K)) as [H|H]; [exact H|exfalso]. nra.
  - assert (E' : X < K).
    { apply Qnot_le_lt. intros H. apply Qle_bool_iff in H. congruence. }
    replace (a - b - 1 + 1)%Z with (a - b)%Z by lia. split; [|exact E'].
    assert (Hk' : 2 * 2 ^ (a - b - 1) == K).
    { rewrite <- pow2_succ. replace (a - b - 1 + 1)%Z with (a - b)%Z by lia. reflexivity. }
    pose proof (pow2_pos (a - b - 1)) as HK'.
    set (K' := 2 ^ (a - b - 1)) in *.
    destruct (Qlt_le_dec X K') as [H|H]; [exfalso|exact H]. nra.
Qed.

Lemma ilog2_unique (x : Q) (k : Z) :
  2 ^ k <= x -> x < 2 ^ (k + 1) -> Double.ilog2 x = k.
Proof.
  intros H1 H2.
  assert (Hx : 0 < x) by (pose proof (pow2_pos k); lra).
  destruct (ilog2_spec x Hx) as [H3 H4].
  assert (Double.ilog2 x < k + 1)%Z by (apply pow2_lt_inv; lra).
  assert (k < Double.ilog2 x + 1)%Z by (apply pow2_lt_inv; lra).
  lia.
Qed.

Lemma ilog2_comp (x y : Q) : 0 < x -> x == y -> Double.ilog2 x = Double.ilog2 y.
Proof.
  intros Hx E. symmetry. destruct (ilog2_spec x Hx) as [H1 H2].
  apply ilog2_unique; rewrite <- E; assumption.
Qed.

Lemma ilog2_mono (x y : Q) : 0 < x -> x <= y -> (Double.ilog2 x <= Double.ilog2 y)%Z.
Proof.
  intros Hx Hxy.
  destruct (ilog2_spec x Hx) as [H1 _].
  destruct (ilog2_spec y ltac:(lra)) as [_ H2].
  assert (Double.ilog2 x < Double.ilog2 y + 1)%Z by (apply pow2_lt_inv; lra).
  lia.
Qed.

Lemma ilog2_scaled (m e : Z) :
  (0 < m)%Z -> Double.ilog2 (inject_Z m * 2 ^ e) = (Z.log2 m + e)%Z.
Proof.
  intros Hm. destruct (Z.log2_spec m Hm) as [H1 H2].
  pose proof (Z.log2_nonneg m) as H0.
  rewrite Zle_Qle, pow2_Z in H1 by assumption.
  rewrite Zlt_Qlt, pow2_Z in H2 by lia.
  change (Z.succ (Z.log2 m)) with (Z.log2 m + 1)%Z in H2.
  pose proof (pow2_pos e) as He.
  apply ilog2_unique.
  - rewrite pow2_add. nra.
  - replace (Z.log2 m + e + 1)%Z with (Z.log2 m + 1 + e)%Z by lia.
    rewrite pow2_add. nra.
Qed.


Lemma rne_cases (x : Q) :
  Double.rne x = Qfloor x \/ Double.rne x = (Qfloor x + 1)%Z.
Proof.
  unfold Double.rne. destruct (x - inject_Z (Qfloor x) ?= 1 # 2); auto.
  destruct (Z.even (Qfloor x)); auto.
Qed.

Lemma rne_comp (x y : Q) : x == y -> Double.rne x = Double.rne y.
Proof.
  intros E. unfold Double.rne. rewrite (Qfloor_comp _ _ E).
  assert (E' : x - inject_Z (Qfloor y) == y - inject_Z (Qfloor y)) by (rewrite E; reflexivity).
  rewrite (Qcompare_comp _ _ E' _ _ (Qeq_refl (1 # 2))). reflexivity.
Qed.

Lemma rne_Z (z : Z) : Double.rne (inject_Z z) = z.
Proof.
  unfold Double.rne. rewrite Qfloor_Z.
  destruct (Qcompare_spec (inject_Z z - inject_Z z) (1 # 2)) as [H|H|H];
    [exfalso; lra | reflexivity | exfalso; lra].
Qed.

Lemma rne_mono (x y : Q) : x <= y -> (Double.rne x <= Double.rne y)%Z.
Proof.
  intros Hxy.
  pose proof (Qfloor_resp_le _ _ Hxy) as Hfg.
  destruct (Z.eq_dec (Qfloor x) (Qfloor y)) as [E|NE].
  - unfold Double.rne. rewrite <- E.
    destruct (Qcompare_spec (x - inject_Z (Qfloor x)) (1 # 2)) as [H|H|H];
      destruct (Qcompare_spec (y - inject_Z (Qfloor x)) (1 # 2)) as [H'|H'|H'];
      try (exfalso; lra); destruct (Z.even (Qfloor x)); lia.
  - destruct (rne_cases x) as [-> | ->]; destruct (rne_cases y) as [-> | ->]; lia.
Qed.

Lemma rne_le_Z (x : Q) (z : Z) : x <= inject_Z z -> (Double.rne x <= z)%Z.
Proof. intros H. rewrite <- (rne_Z z). apply rne_mono, H. Qed.

Lemma rne_ge_Z (x : Q) (z : Z) : inject_Z z <= x -> (z <= Double.rne x)%Z.
Proof. intros H. rewrite <- (rne_Z z). apply rne_mono, H. Qed.

Lemma ulp_exp_bounds (x : Q) :
  (Double.ilog2 x - 52 <= Double.ulp_exp x)%Z /\ (Double.emin <= Double.ulp_exp x)%Z.
Proof. unfold Double.ulp_exp. lia. Qed.

Lemma ulp_exp_comp (x y : Q) : 0 < x -> x == y -> Double.ulp_exp x = Double.ulp_exp y.
Proof. intros Hx E. unfold Double.ulp_exp. rewrite (ilog2_comp x y Hx E). reflexivity. Qed.

Lemma ulp_exp_mono (x y : Q) : 0 < x -> x <= y -> (Double.ulp_exp x <= Double.ulp_exp y)%Z.
Proof.
  intros Hx Hxy. pose proof (ilog2_mono x y Hx Hxy). unfold Double.ulp_exp. lia.
Qed.

Lemma scaled_lt (x : Q) :
  0 < x -> x / 2 ^ Double.ulp_exp x < inject_Z (2 ^ 53).
Proof.
  intros Hx. destruct (ilog2_spec x Hx) as [_ H].
  destruct (ulp_exp_bounds x) as [He _].
  apply Qlt_shift_div_r; [apply pow2_pos|].
  rewrite pow2_Z by lia. rewrite <- pow2_add.
  eapply Qlt_le_trans; [exact H|]. apply pow2_le. lia.
Qed.

Lemma round_pos_comp (x y : Q) : 0 < x -> x == y -> Double.round_pos x == Double.round_pos y.
Proof.
  intros Hx E. unfold Double.round_pos. cbv zeta.
  rewrite (ulp_exp_comp x y Hx E).
  rewrite (rne_comp (x / 2 ^ Double.ulp_exp y) (y / 2 ^ Double.ulp_exp y)).
  - reflexivity.
  - rewrite E. reflexivity.
Qed.

Lemma round_pos_nonneg (x : Q) : 0 < x -> 0 <= Double.round_pos x.
Proof.
  intros Hx. unfold Double.round_pos. cbv zeta.
  pose proof (pow2_pos (Double.ulp_exp x)) as He.
  assert (H : (0 <= Double.rne (x / 2 ^ Double.ulp_exp x))%Z).
  { apply rne_ge_Z. apply Qle_shift_div_l; [exact He|]. change (inject_Z 0) with 0. lra. }
  rewrite Zle_Qle in H. change (inject_Z 0) with 0 in H. nra.
Qed.

Lemma round_pos_mono (x y : Q) :
  0 < x -> x <= y -> Double.round_pos x <= Double.round_pos y.
Proof.
  intros Hx Hxy. assert (Hy : 0 < y) by lra.
  pose proof (ulp_exp_mono x y Hx Hxy) as He.
  unfold Double.round_pos. cbv zeta.
  set (ex := Double.ulp_exp x) in *. set (ey := Double.ulp_exp y) in *.
  pose proof (pow2_pos ex) as Hex. pose proof (pow2_pos ey) as Hey.
  destruct (Z.eq_dec ex ey) as [E|NE].
  - rewrite <- E.
    assert (H : (Double.rne (x / 2 ^ ex) <= Double.rne (y / 2 ^ ex))%Z).
    { apply rne_mono. apply Qle_shift_div_l; [exact Hex|].
      unfold Qdiv. rewrite <- Qmult_assoc, (Qmult_comm (/ _)), Qmult_inv_r, Qmult_1_r;
        [exact Hxy|]. intros H0. rewrite H0 in Hex. discriminate. }
    rewrite Zle_Qle in H. nra.
  - assert (Hlt : (ex < ey)%Z) by lia.
    (* the larger one is at least 2^(ilog2 y) *)
    assert (Hy1 : ey = (Double.ilog2 y - 52)%Z).
    { destruct (ulp_exp_bounds x) as [_ Hm]. fold ex in Hm.
      unfold ey, Double.ulp_exp in *. lia. }
    destruct (ilog2_spec y Hy) as [Hy2 _].
    assert (Hy3 : (2 ^ 52 <= Double.rne (y / 2 ^ ey))%Z).
    { apply rne_ge_Z. apply Qle_shift_div_l; [exact Hey|].
      rewrite pow2_Z by lia. rewrite <- pow2_add.
      replace (52 + ey)%Z with (Double.ilog2 y) by lia. exact Hy2. }
    assert (Hx3 : (Double.rne (x / 2 ^ ex) <= 2 ^ 53)%Z).
    { apply rne_le_Z. apply Qlt_le_weak. apply scaled_lt, Hx. }
    rewrite Zle_Qle in Hy3, Hx3. rewrite pow2_Z in Hy3, Hx3 by lia.
    assert (Hp : 2 ^ 53 * 2 ^ ex <= 2 ^ 52 * 2 ^ ey).
    { rewrite <- !pow2_add. apply pow2_le. lia. }
    pose proof (pow2_pos 52) as H52. pose proof (pow2_pos 53) as H53.
    set (a := inject_Z (Double.rne (x / 2 ^ ex))) in *.
    set (b := inject_Z (Double.rne (y / 2 ^ ey))) in *.
    set (P52 := 2 ^ 52) in *. set (P53 := 2 ^ 53) in *.
    set (Ex := 2 ^ ex) in *. set (Ey := 2 ^ ey) in *.
    apply Qle_trans with (P53 * Ex); [nra|].
    apply Qle_trans with (P52 * Ey); [exact Hp|nra].
Qed.

Lemma round_pos_fixed (x : Q) (M e : Z) :
  0 < x -> x == inject_Z M * 2 ^ e -> (M <= 2 ^ 53)%Z -> (Double.emin <= e)%Z ->
  Double.round_pos x == x.
Proof.
  intros Hx E HM He.
  pose proof (pow2_pos e) as Hpe.
  assert (HM0 : (0 < M)%Z).
  { destruct (Z.lt_ge_cases 0 M) as [H|H]; [exact H|exfalso].
    rewrite Zle_Qle in H. change (inject_Z 0) with 0 in H. rewrite E in Hx. nra. }
  unfold Double.round_pos. cbv zeta.
  assert (Hu : Double.ulp_exp x = Z.max (Z.log2 M + e - 52) Double.emin).
  { unfold Double.ulp_exp. rewrite (ilog2_comp _ _ Hx E), ilog2_scaled by exact HM0.
    reflexivity. }
  rewrite Hu. set (e' := Z.max (Z.log2 M + e - 52) Double.emin).
  pose proof (pow2_pos e') as Hpe'.
  destruct (Z.eq_dec M (2 ^ 53)%Z) as [EM|NM].
  - assert (He' : e' = (e + 1)%Z).
    { unfold e'. rewrite EM. rewrite Z.log2_pow2 by lia. lia. }
    rewrite He'.
    assert (Hs : x / 2 ^ (e + 1) == inject_Z (2 ^ 52)).
    { rewrite E, EM, pow2_succ.
      change (2 ^ 53)%Z with (2 * 2 ^ 52)%Z. rewrite inject_Z_mult.
      change (inject_Z 2) with 2. field.
      intros H0. rewrite H0 in Hpe. discriminate. }
    rewrite (rne_comp _ _ Hs), rne_Z, E, EM, pow2_succ.
    change (2 ^ 53)%Z with (2 * 2 ^ 52)%Z. rewrite inject_Z_mult.
    change (inject_Z 2) with 2. ring.
  - assert (Hl : (Z.log2 M < 53)%Z) by (apply Z.log2_lt_pow2; lia).
    assert (He' : (e' <= e)%Z) by (unfold e'; lia).
    assert (Hs : x / 2 ^ e' == inject_Z (M * 2 ^ (e - e'))).
    { rewrite E, inject_Z_mult, pow2_Z by lia.
      replace e with (e - e' + e')%Z at 1 by lia. rewrite pow2_add. field.
      intros H0. rewrite H0 in Hpe'. discriminate. }
    rewrite (rne_comp _ _ Hs), rne_Z, E, inject_Z_mult, pow2_Z by lia.
    rewrite <- Qmult_assoc, <- pow2_add. replace (e - e' + e')%Z with e by lia.
    reflexivity.
Qed.

Lemma round_pos_is_double (x : Q) : 0 < x -> Double.is_double (Double.round_pos x).
Proof.
  intros Hx. exists (Double.rne (x / 2 ^ Double.ulp_exp x)), (Double.ulp_exp x).
  split; [reflexivity|]. split; [|apply ulp_exp_bounds].
  assert (H1 : (Double.rne (x / 2 ^ Double.ulp_exp x) <= 2 ^ 53)%Z).
  { apply rne_le_Z, Qlt_le_weak, scaled_lt, Hx. }
  assert (H0 : (0 <= Double.rne (x / 2 ^ Double.ulp_exp x))%Z).
  { apply rne_ge_Z. apply Qle_shift_div_l; [apply pow2_pos|].
    change (inject_Z 0) with 0. lra. }
  lia.
Qed.


Lemma rnd_pos_eq (x : Q) : 0 < x -> Double.rnd x == Double.round_pos x.
Proof.
  intros Hx. unfold Double.rnd. rewrite Qred_correct.
  destruct (Qcompare_spec x 0) as [H|H|H]; [exfalso; lra|exfalso; lra|reflexivity].
Qed.

Lemma rnd_neg_eq (x : Q) : x < 0 -> Double.rnd x == - Double.round_pos (- x).
Proof.
  intros Hx. unfold Double.rnd. rewrite Qred_correct.
  destruct (Qcompare_spec x 0) as [H|H|H]; [exfalso; lra|reflexivity|exfalso; lra].
Qed.

Lemma rnd_zero_eq (x : Q) : x == 0 -> Double.rnd x = 0.
Proof.
  intros Hx. unfold Double.rnd.
  destruct (Qcompare_spec x 0) as [H|H|H]; [reflexivity|exfalso; lra|exfalso; lra].
Qed.

Lemma rnd_comp (x y : Q) : x == y -> Double.rnd x = Double.rnd y.
Proof.
  intros E. unfold Double.rnd. apply Qred_complete.
  rewrite (Qcompare_comp _ _ E _ _ (Qeq_refl 0)).
  destruct (Qcompare_spec y 0) as [H|H|H]; [reflexivity| |].
  - assert (E' : - x == - y) by (rewrite E; reflexivity).
    rewrite (round_pos_comp (- x) (- y)); [reflexivity|lra|exact E'].
  - apply round_pos_comp; [lra|exact E].
Qed.

Lemma rnd_opp (x : Q) : Double.rnd (- x) == - Double.rnd x.
Proof.
  destruct (Q_dec x 0) as [[H|H]|H].
  - rewrite (rnd_neg_eq x H), (rnd_pos_eq (- x)) by lra. ring.
  - rewrite (rnd_pos_eq x H), (rnd_neg_eq (- x)) by lra.
    rewrite (round_pos_comp (- - x) x); [reflexivity|lra|ring].
  - rewrite (rnd_zero_eq x H), (rnd_zero_eq (- x)) by lra. reflexivity.
Qed.

Lemma rnd_nonneg (x : Q) : 0 <= x -> 0 <= Double.rnd x.
Proof.
  intros Hx. destruct (Qle_lt_or_eq _ _ Hx) as [H|H].
  - rewrite (rnd_pos_eq x H). apply round_pos_nonneg, H.
  - rewrite (rnd_zero_eq x) by (symmetry; exact H). apply Qle_refl.
Qed.

Lemma rnd_nonpos (x : Q) : x <= 0 -> Double.rnd x <= 0.
Proof.
  intros Hx. pose proof (rnd_nonneg (- x) ltac:(lra)) as H.
  rewrite rnd_opp in H. lra.
Qed.

(** Rounding is monotone. *)
Lemma rnd_mono (x y : Q) : x <= y -> Double.rnd x <= Double.rnd y.
Proof.
  intros Hxy. destruct (Qlt_le_dec 0 x) as [Hx|Hx].
  - rewrite (rnd_pos_eq x Hx), (rnd_pos_eq y) by lra. apply round_pos_mono; assumption.
  - destruct (Qlt_le_dec y 0) as [Hy|Hy].
    + assert (Hx' : x < 0) by lra.
      rewrite (rnd_neg_eq x Hx'), (rnd_neg_eq y Hy).
      pose proof (round_pos_mono (- y) (- x) ltac:(lra) ltac:(lra)). lra.
    + pose proof (rnd_nonpos x Hx). pose proof (rnd_nonneg y Hy). lra.
Qed.

Lemma is_double_opp (x : Q) : Double.is_double x -> Double.is_double (- x).
Proof.
  intros (M & e & E & HM & He). exists (- M)%Z, e. split; [|split; [lia|exact He]].
  rewrite E, inject_Z_opp. ring.
Qed.

Lemma is_double_comp (x y : Q) : x == y -> Double.is_double x -> Double.is_double y.
Proof. intros E (M & e & E' & H). exists M, e. rewrite <- E. auto. Qed.

(** A double is its own rounding. *)
Lemma rnd_fixed (x : Q) : Double.is_double x -> Double.rnd x == x.
Proof.
  intros Hd. destruct (Q_dec x 0) as [[H|H]|H].
  - rewrite (rnd_neg_eq x H).
    destruct (is_double_opp x Hd) as (M & e & E & HM & He).
    rewrite (round_pos_fixed (- x) M e); [ring|lra|exact E|lia|exact He].
  - rewrite (rnd_pos_eq x H).
    destruct Hd as (M & e & E & HM & He).
    apply (round_pos_fixed x M e); [exact H|exact E|lia|exact He].
  - rewrite (rnd_zero_eq x H). symmetry. exact H.
Qed.

Lemma is_double_0 : Double.is_double 0.
Proof. exists 0%Z, 0%Z. split; [reflexivity|]. split; [discriminate|discriminate]. Qed.

(** Every result of a rounding is a double. *)
Lemma rnd_is_double (x : Q) : Double.is_double (Double.rnd x).
Proof.
  destruct (Q_dec x 0) as [[H|H]|H].
  - apply (is_double_comp (- Double.round_pos (- x))); [symmetry; apply rnd_neg_eq, H|].
    apply is_double_opp, round_pos_is_double. lra.
  - apply (is_double_comp (Double.round_pos x)); [symmetry; apply rnd_pos_eq, H|].
    apply round_pos_is_double, H.
  - rewrite (rnd_zero_eq x H). apply is_double_0.
Qed.

Lemma rnd_idem (x : Q) : Double.rnd (Double.rnd x) = Double.rnd x.
Proof.
  assert (H : Double.rnd (Double.rnd x) == Double.rnd x) by apply rnd_fixed, rnd_is_double.
  assert (R : forall y, Qred (Double.rnd y) = Double.rnd y).
  { intros y. unfold Double.rnd. apply Qred_complete, Qred_correct. }
  etransitivity; [symmetry; apply R|]. etransitivity; [|apply R].
  apply Qred_complete, H.
Qed.

(** Integers up to [2 ^ 53] in magnitude are doubles. *)
Lemma is_double_Z (z : Z) : (Z.abs z <= 2 ^ 53)%Z -> Double.is_double (inject_Z z).
Proof.
  intros H. exists z, 0%Z. split; [|split; [exact H|discriminate]].
  change (2 ^ 0) with 1. ring.
Qed.

Lemma of_Z_exact (z : Z) : (Z.abs z <= 2 ^ 53)%Z -> Double.of_Z z == inject_Z z.
Proof. intros H. apply rnd_fixed, is_double_Z, H. Qed.

(** What the monotonicity of the audio cursor rests on. *)
Lemma add_increases (c d : Q) : Double.is_double c -> 0 <= d -> c <= Double.add c d.
Proof.
  intros Hc Hd. rewrite <- (rnd_fixed c Hc) at 1. apply rnd_mono. lra.
Qed.

Lemma add_nonneg (c d : Q) : 0 <= c -> 0 <= d -> 0 <= Double.add c d.
Proof. intros Hc Hd. apply rnd_nonneg. lra. Qed.

Lemma div_nonneg (a b : Q) : 0 <= a -> 0 < b -> 0 <= Double.div a b.
Proof. intros Ha Hb. apply rnd_nonneg. apply Qle_shift_div_l; [exact Hb|]. lra. Qed.

Lemma of_Z_nonneg (z : Z) : (0 <= z)%Z -> 0 <= Double.of_Z z.
Proof. intros H. apply rnd_nonneg. rewrite Zle_Qle in H. exact H. Qed.


Lemma of_nat_nonneg (n : nat) : 0 <= Double.of_nat n.
Proof. apply of_Z_nonneg. lia. Qed.

Lemma of_nat_exact (n : nat) :
  (Z.of_nat n <= 2 ^ 53)%Z -> Double.of_nat n == inject_Z (Z.of_nat n).
Proof. intros H. apply of_Z_exact. lia. Qed.

Lemma of_nat_pos (n : nat) : (0 < n)%nat -> 1 <= Double.of_nat n.
Proof.
  intros H. change 1 with (Double.rnd 1). apply rnd_mono.
  change 1 with (inject_Z 1). rewrite <- Zle_Qle. lia.
Qed.

End DoubleFacts.

(** The operations of [Double] and those of the kernel's binary64
    numbers give the same results, here on 0.1 and 0.2, on 0.064 (one
    chunk of 1024 samples at 16 kHz) and on a confidence just below a
    rounding tie. *)
Example binary64_agrees :
  Forall (fun ab : Q * Q =>
            let (a, b) := ab in
            let x := Double.to_float a in
            let y := Double.to_float b in
            Double.of_float x = Some a
            /\ Double.of_float (PrimFloat.add x y) = Some (Double.add a b)
            /\ Double.of_float (PrimFloat.sub x y) = Some (Double.sub a b)
            /\ Double.of_float (PrimFloat.mul x y) = Some (Double.mul a b)
            /\ Double.of_float (PrimFloat.div x y) = Some (Double.div a b)
            /\ Double.of_float (PrimFloat.sqrt x) = Some (Double.sqrt a))
    [ (Double.lit (1 # 10), Double.lit (2 # 10));
      (Double.lit (64 # 1000), Double.lit (576 # 1000));
      (Double.lit (5834999999999999 # 10000000000000000), 100%Q);
      (1024%Q, 16000%Q);
      (Double.lit (1 # 10000), Double.lit (1 # 3)) ].
Proof. repeat constructor; vm_compute; reflexivity. Qed.

(** ** The store actions *)

Section StoreActions.
Import TranscriptionResult.

Lemma filter_isFinal_snoc (rs : list TranscriptionResult.t) (p : TranscriptionResult.t) :
  List.filter isFinal (rs ++ [p])
  = List.filter isFinal rs ++ (if isFinal p then [p] else []).
Proof.
  rewrite List.filter_app. simpl. destruct (isFinal p); reflexivity.
Qed.

Lemma truthy_true_not_nil (s : list N) : JS.truthy s = true <-> s <> [].
Proof. destruct s; simpl; split; congruence. Qed.

(** C10. [setActive], [setConnectionStatus] and [updateMetrics] write
    their own field ([isActive], [connectionStatus], [metrics]) and leave
    every other field, [text] and [results] among them, as it was;
    [updateMetrics] takes each metric from the payload when the payload
    has it and from the previous metrics otherwise, so a complete
    payload replaces the metrics. *)
Theorem store_setters_frame (state : Model.t) (a : bool) (c : ConnectionStatus)
    (payload : TranscriptionMetrics.obj) (full : TranscriptionMetrics.t) :
  Model.setActive state a
    = Model.mk (Model.text state) (Model.results state) (Model.metrics state)
        a (Model.connectionStatus state)
  /\ Model.setConnectionStatus state c
    = Model.mk (Model.text state) (Model.results state) (Model.metrics state)
        (Model.isActive state) c
  /\ (let state' := Model.updateMetrics state payload in
      Model.text state' = Model.text state
      /\ Model.results state' = Model.results state
      /\ Model.isActive state' = Model.isActive state
      /\ Model.connectionStatus state' = Model.connectionStatus state
      /\ TranscriptionMetrics.latency (Model.metrics state')
         = match TranscriptionMetrics.o_latency payload with
           | Some v => v
           | None => TranscriptionMetrics.latency (Model.metrics state)
           end
      /\ TranscriptionMetrics.accuracy (Model.metrics state')
         = match TranscriptionMetrics.o_accuracy payload with
           | Some v => v
           | None => TranscriptionMetrics.accuracy (Model.metrics state)
           end
      /\ TranscriptionMetrics.wordCount (Model.metrics state')
         = match TranscriptionMetrics.o_wordCount payload with
           | Some v => v
           | None => TranscriptionMetrics.wordCount (Model.metrics state)
           end)
  /\ Model.metrics (Model.updateMetrics state (TranscriptionMetrics.to_obj full)) = full.
Proof.
  split; [reflexivity|]. split; [reflexivity|]. split.
  - destruct payload as [[l|] [x|] [n|]]; cbn; repeat split; reflexivity.
  - destruct full; reflexivity.
Qed.

(** What [addResult] does, branch by branch.  It appends the result.  For
    a final result the displayed text is the space-joined, trimmed
    concatenation of the final texts in arrival order (interim results
    leave no trace in it).  For an interim result the displayed text is
    the space-joined concatenation of the final texts, not trimmed,
    then a space and the interim text, or the interim text alone when
    that concatenation is empty; it is [finalText], a space and the
    interim text whenever trimming does not change the concatenation. *)
Theorem addResult_text (state : Model.t) (payload : TranscriptionResult.t) :
  let state' := Model.addResult state payload in
  let joined :=
    JS.join (JS.lit " ") (map text (List.filter isFinal (Model.results state))) in
  Model.results state' = Model.results state ++ [payload]
  /\ (isFinal payload = true ->
      Model.text state' = Spec.finalText (Model.results state ++ [payload])
      /\ Model.text state' = Model.finalText state')
  /\ (isFinal payload = false ->
      Model.finalText state' = Model.finalText state
      /\ (joined = [] -> Model.text state' = text payload)
      /\ (joined <> [] ->
          Model.text state' = joined ++ [32%N] ++ text payload)
      /\ (joined <> [] -> JS.trim joined = joined ->
          Model.text state'
          = Spec.finalText (Model.results state) ++ [32%N] ++ text payload)).
Proof.
  cbn zeta. change [32%N] with (JS.lit " ").
  assert (Hsp : forall rs, Spec.finalText rs
                 = JS.trim (JS.join (JS.lit " ") (map text (List.filter isFinal rs))))
    by reflexivity.
  split; [reflexivity|]. split.
  - intros Hf. unfold Model.addResult, Model.finalText.
    cbn [Model.text Model.results]. rewrite Hf, Hsp. split; reflexivity.
  - intros Hf.
    assert (Hfl : List.filter isFinal (Model.results state ++ [payload])
                  = List.filter isFinal (Model.results state)).
    { rewrite filter_isFinal_snoc, Hf, app_nil_r. reflexivity. }
    unfold Model.addResult, Model.finalText.
    cbn [Model.text Model.results]. rewrite Hf, Hfl, Hsp.
    split; [reflexivity|]. split; [|split].
    + intros Hj. rewrite Hj. reflexivity.
    + intros Hj. apply truthy_true_not_nil in Hj. rewrite Hj. reflexivity.
    + intros Hj Ht. rewrite Ht. apply truthy_true_not_nil in Hj. rewrite Hj.
      reflexivity.
Qed.

(** The theorem at a store holding the final text "the quick" and the
    interim result "hello". *)
Lemma addResult_text_witness :
  Model.text (Model.addResult Ex.store_with_quick Ex.interim_hello)
  = Spec.finalText (Model.results Ex.store_with_quick) ++ [32%N] ++ JS.lit "hello".
Proof.
  apply (addResult_text Ex.store_with_quick Ex.interim_hello).
  - reflexivity.
  - vm_compute. discriminate.
  - vm_compute. reflexivity.
Defined.

(** C5.  The interim branch of [addResult] joins the final texts without
    the [trim()] that its final branch, the computed [finalText] and the
    interim branch of [addTranslationResult] apply.  So when a final
    text carries surrounding white space (the Web Speech fallback hands
    its transcripts on untrimmed), the text displayed after an interim
    result is not the final text with the interim text appended: after
    the final " hi" the interim "x" displays " hi x", which is neither
    the final text "hi" followed by "x" nor by " x". *)
Lemma addResult_interim_not_trimmed :
  Model.text (Model.addResult Ex.store_with_hi Ex.interim_x) = JS.lit " hi x"
  /\ Spec.finalText (Model.results (Model.addResult Ex.store_with_hi Ex.interim_x))
     = JS.lit "hi"
  /\ Model.text (Model.addResult Ex.store_with_hi Ex.interim_x)
     <> Spec.finalText (Model.results (Model.addResult Ex.store_with_hi Ex.interim_x))
        ++ JS.lit " " ++ text Ex.interim_x
  /\ Model.text (Model.addResult Ex.store_with_hi Ex.interim_x)
     <> Spec.finalText (Model.results (Model.addResult Ex.store_with_hi Ex.interim_x))
        ++ text Ex.interim_x.
Proof. vm_compute. repeat split; discriminate. Qed.

(** Such texts reach the store: on the Web Speech fallback of a service
    started without a callback, the transcripts " hi" (final) and "x"
    (interim) are handed to [addResult] as they are. *)
Example webSpeech_passes_untrimmed :
  let w0 :=
    VerbumService.mkWorld
      (VerbumService.mk None true false (Some VerbumService.toStore) 0 [] None None
         ∅ 0 false 0%nat)
      StoreModel.initial in
  let w1 := fst (VerbumService.webSpeech_onresult 1000 (JS.lit " hi") (Double.lit (9 # 10)) true w0) in
  let w2 := fst (VerbumService.webSpeech_onresult 1100 (JS.lit "x") (Double.lit (8 # 10)) false w1) in
  Model.text (StoreModel.verbum (VerbumService.store w2)) = JS.lit " hi x".
Proof. vm_compute. reflexivity. Qed.

End StoreActions.

(** ** Old chunk timestamps *)

Section Cleanup.
Variable cutoffTime : Z.

Lemma drop_lookup_Some (m : gmap nat Z) (e : nat * Z) (k : nat) (t : Z) :
  Service.dropOld cutoffTime m e !! k = Some t -> m !! k = Some t.
Proof.
  destruct e as [k' t']. unfold Service.dropOld.
  destruct (t' <? cutoffTime); [|done].
  rewrite lookup_delete_Some. tauto.
Qed.

Lemma sweep_lookup_Some (l : list (nat * Z)) (m : gmap nat Z) (k : nat) (t : Z) :
  fold_left (Service.dropOld cutoffTime) l m !! k = Some t -> m !! k = Some t.
Proof.
  revert m. induction l as [|e l IH]; intros m H; [exact H|].
  simpl in H. apply IH in H. eapply drop_lookup_Some, H.
Qed.

Lemma sweep_removes_old (l : list (nat * Z)) (m : gmap nat Z) (k : nat) (t : Z) :
  (k, t) ∈ l -> t < cutoffTime ->
  fold_left (Service.dropOld cutoffTime) l m !! k = None.
Proof.
  revert m. induction l as [|e l IH]; intros m Hin Hlt.
  - apply elem_of_nil in Hin. contradiction.
  - apply elem_of_cons in Hin as [<- | Hin]; [|simpl; apply IH; assumption].
    simpl.
    destruct (fold_left (Service.dropOld cutoffTime) l _ !! k) as [t'|] eqn:E;
      [|reflexivity].
    apply sweep_lookup_Some in E. unfold Service.dropOld in E.
    apply Z.ltb_lt in Hlt. rewrite Hlt, lookup_delete_eq in E. discriminate.
Qed.

Lemma sweep_keeps_recent (l : list (nat * Z)) (m : gmap nat Z) (k : nat) :
  (forall t, (k, t) ∈ l -> cutoffTime <= t) ->
  fold_left (Service.dropOld cutoffTime) l m !! k = m !! k.
Proof.
  revert m. induction l as [|e l IH]; intros m Hall; [reflexivity|].
  simpl. rewrite IH.
  - destruct e as [k' t']. unfold Service.dropOld.
    destruct (t' <? cutoffTime) eqn:E; [|reflexivity].
    apply Z.ltb_lt in E. apply lookup_delete_ne. intros ->.
    specialize (Hall t' (list_elem_of_here _ _)). lia.
  - intros t Hin. apply Hall. apply list_elem_of_further, Hin.
Qed.

Lemma sweep_lookup (m : gmap nat Z) (k : nat) (t : Z) :
  fold_left (Service.dropOld cutoffTime) (map_to_list m) m !! k = Some t
  <-> m !! k = Some t /\ cutoffTime <= t.
Proof.
  split.
  - intros H. pose proof (sweep_lookup_Some _ _ _ _ H) as Hm. split; [exact Hm|].
    destruct (Z_lt_le_dec t cutoffTime) as [Hlt|]; [|assumption].
    rewrite (sweep_removes_old _ m k t) in H; [discriminate | | exact Hlt].
    apply elem_of_map_to_list, Hm.
  - intros [Hm Hle]. rewrite sweep_keeps_recent; [exact Hm|].
    intros t' Hin. apply elem_of_map_to_list in Hin. congruence.
Qed.
End Cleanup.

(** C9. After [cleanupOldTimestamps] at time [now], every timestamp left
    in [audioChunkTimestamps] is at least [now - 10000]: an entry is in
    the cleaned map exactly when it was in the map and is not older than
    ten seconds. *)
Theorem cleanupOldTimestamps_recent (now : Z) (audioChunkTimestamps : gmap nat Z)
    (chunkId : nat) (timestamp : Z) :
  (Service.cleanupOldTimestamps now audioChunkTimestamps !! chunkId = Some timestamp ->
   now - 10000 <= timestamp)
  /\ (Service.cleanupOldTimestamps now audioChunkTimestamps !! chunkId = Some timestamp
      <-> audioChunkTimestamps !! chunkId = Some timestamp /\ now - 10000 <= timestamp).
Proof.
  assert (H : Service.cleanupOldTimestamps now audioChunkTimestamps !! chunkId
              = Some timestamp
              <-> audioChunkTimestamps !! chunkId = Some timestamp
                  /\ now - 10000 <= timestamp).
  { unfold Service.cleanupOldTimestamps. cbv zeta.
    apply (sweep_lookup (now - 10000)). }
  split; [|exact H]. intros E. apply H in E. tauto.
Qed.

(** The theorem on a map with one chunk of 20 s ago and one of 5 s ago,
    cleaned at [now = 25000]: the recent one stays. *)
Lemma cleanupOldTimestamps_recent_witness :
  25000 - 10000 <= 20000
  /\ Service.cleanupOldTimestamps 25000 (<[1%nat := 20000]> (<[0%nat := 5000]> ∅)) !! 0%nat
     = None.
Proof.
  split.
  - apply (cleanupOldTimestamps_recent 25000 (<[1%nat := 20000]> (<[0%nat := 5000]> ∅))
             1%nat 20000).
    vm_compute. reflexivity.
  - vm_compute. reflexivity.
Defined.

(** ** Activity detection *)

Section Activity.
Import Service.

Lemma Qlt_bool_iff (a b : Q) : JS.Qlt_bool a b = true <-> (a < b)%Q.
Proof.
  unfold JS.Qlt_bool. rewrite negb_true_iff. split.
  - intros H. apply Qnot_le_lt. intros Hle. apply Qle_bool_iff in Hle. congruence.
  - intros H. destruct (Qle_bool b a) eqn:E; [|reflexivity].
    apply Qle_bool_iff in E. exfalso. exact (Qlt_not_le _ _ H E).
Qed.

Lemma Q2R_inject_Z (z : Z) : Q2R (inject_Z z) = IZR z.
Proof. unfold Q2R, inject_Z. simpl. field. Qed.

(** [sqrt_gt] decides [Math.sqrt(x) > t] on the reals. *)
Lemma sqrt_gt_correct (x t : Q) :
  (0 <= t)%Q -> (0 <= x)%Q ->
  sqrt_gt x t = true <-> (Q2R t < sqrt (Q2R x))%R.
Proof.
  intros Ht Hx. unfold sqrt_gt. rewrite Qlt_bool_iff.
  apply Qle_Rle in Ht, Hx. rewrite RMicromega.Q2R_0 in Ht, Hx.
  split.
  - intros H. apply Qlt_Rlt in H. rewrite Q2R_mult in H.
    rewrite <- (sqrt_square (Q2R t)) at 1 by exact Ht.
    apply sqrt_lt_1_alt. split; [|exact H].
    apply Rmult_le_pos; exact Ht.
  - intros H. apply Rlt_Qlt. rewrite Q2R_mult.
    rewrite <- (sqrt_sqrt (Q2R x)) by exact Hx.
    apply Rmult_le_0_lt_compat; assumption.
Qed.

Lemma sum_squares_from (xs : list Z) (acc : Z) :
  fold_left (fun sumSquares x => sumSquares + x * x) xs acc
  = acc + fold_right (fun x s => x * x + s) 0 xs.
Proof.
  revert acc. induction xs as [|x xs IH]; intros acc; simpl; [lia|].
  rewrite IH. lia.
Qed.

Lemma sum_squares_IZR (xs : list Z) :
  IZR (sum_squares xs) = fold_right (fun x acc => IZR x * IZR x + acc)%R 0%R xs.
Proof.
  unfold sum_squares. rewrite sum_squares_from, Z.add_0_l.
  induction xs as [|x xs IH]; simpl; [reflexivity|].
  rewrite plus_IZR, mult_IZR, IH. reflexivity.
Qed.

Lemma sum_squares_nonneg (xs : list Z) : 0 <= sum_squares xs.
Proof.
  unfold sum_squares. rewrite sum_squares_from, Z.add_0_l.
  induction xs as [|x xs IH]; simpl; nia.
Qed.

Lemma count_above_from (threshold : Z) (xs : list Z) (acc : Z) :
  fold_left (fun activity x => if threshold <? x then activity + 1 else activity) xs acc
  = acc + Z.of_nat (length (List.filter (fun x => threshold <? x) xs)).
Proof.
  revert acc. induction xs as [|x xs IH]; intros acc; simpl; [lia|].
  rewrite IH. destruct (threshold <? x); simpl length; lia.
Qed.

Lemma count_above_Uint8Array (threshold : Z) (audioData : list byte) :
  count_above threshold (Uint8Array audioData)
  = Z.of_nat (length (List.filter
                        (fun b => threshold <? Z.of_N (Byte.to_N b)) audioData)).
Proof.
  unfold count_above. rewrite count_above_from, Z.add_0_l. f_equal.
  unfold Uint8Array. induction audioData as [|b bs IH]; simpl; [reflexivity|].
  destruct (threshold <? Z.of_N (Byte.to_N b)); simpl; rewrite IH; reflexivity.
Qed.

Lemma length_int16_samples (audioData : list byte) :
  length (int16_samples audioData) = Nat.div2 (length audioData).
Proof.
  assert (H : forall n (l : list byte), (length l < n)%nat ->
              length (int16_samples l) = Nat.div2 (length l)).
  { induction n as [|n IH]; intros l Hl; [lia|].
    destruct l as [|lo [|hi rest]]; try reflexivity.
    simpl. f_equal. apply IH. simpl in Hl. lia. }
  apply (H (S (length audioData))). lia.
Qed.

Lemma mod2_even (n : nat) : (n mod 2 =? 0)%nat = Nat.even n.
Proof.
  destruct (Nat.even n) eqn:E.
  - apply Nat.even_spec in E. destruct E as [k ->]. apply Nat.eqb_eq.
    rewrite Nat.mul_comm. apply Nat.Div0.mod_mul.
  - apply Nat.eqb_neq. intros H. apply Nat.Div0.mod_divides in H.
    destruct H as [k ->].
    rewrite Nat.even_mul in E. discriminate.
Qed.
End Activity.

(** C8. [detectAudioActivity] on a buffer of positive even byte length
    answers true exactly when the root mean square of its little-endian
    16-bit signed samples exceeds 500; on a buffer of odd byte length,
    exactly when more than a tenth of its bytes have an unsigned value
    above 10; on an empty buffer it answers false.  Its [try] block never
    throws on a byte buffer, and whenever the block does throw (the
    typed-array constructor failing) the answer is
    [audioData.byteLength > 0]. *)
Theorem detectAudioActivity_spec (audioData : list byte) :
  let n := length audioData in
  ((0 < n)%nat -> Nat.even n = true ->
   (Service.detectAudioActivity audioData = true
    <-> (500 < Spec.rms (Service.int16_samples audioData))%R))
  /\ (Nat.odd n = true ->
      (Service.detectAudioActivity audioData = true
       <-> (1 # 10 < Spec.fraction_above 10 audioData)%Q))
  /\ (n = 0%nat -> Service.detectAudioActivity audioData = false)
  /\ Service.detect_try Service.Int16Array audioData
     = Some (Service.detectAudioActivity audioData)
  /\ (forall newInt16Array,
        Service.detect_try newInt16Array audioData = None ->
        Service.detect_try_catch newInt16Array audioData = (0 <? n)%nat).
Proof.
  cbv zeta. repeat apply conj.
  - intros Hpos Hev.
    unfold Service.detectAudioActivity, Service.detect_try_catch, Service.detect_try.
    cbv zeta. rewrite mod2_even, Hev.
    destruct (Nat.eqb_spec (length audioData) 0) as [E|_]; [lia|]. simpl orb. cbv iota.
    unfold Service.Int16Array. rewrite Hev.
    assert (Hn : (0 < Nat.div2 (length audioData))%nat).
    { destruct audioData as [|b0 [|b1 rest]].
      - simpl in Hpos. lia.
      - discriminate Hev.
      - simpl. apply Nat.lt_0_succ. }
    rewrite <- length_int16_samples in Hn.
    set (samples := Service.int16_samples audioData) in *.
    destruct (Z.eqb_spec (Z.of_nat (length samples)) 0) as [E|_]; [lia|].
    assert (HnR : (0 < IZR (Z.of_nat (length samples)))%R) by (apply IZR_lt; lia).
    assert (Hq : ~ inject_Z (Z.of_nat (length samples)) == 0).
    { intros H. apply Qeq_eqR in H. rewrite Q2R_inject_Z, RMicromega.Q2R_0 in H. lra. }
    rewrite sqrt_gt_correct.
    + unfold Spec.rms. rewrite Q2R_div, !Q2R_inject_Z by exact Hq.
      rewrite sum_squares_IZR, INR_IZR_INZ.
      replace (Q2R 500) with 500%R by (unfold Q2R; simpl; lra). reflexivity.
    + discriminate.
    + apply Qle_shift_div_l.
      * rewrite <- (Zlt_Qlt 0). lia.
      * rewrite Qmult_0_l. rewrite <- (Zle_Qle 0). apply sum_squares_nonneg.
  - intros Hodd.
    unfold Service.detectAudioActivity, Service.detect_try_catch, Service.detect_try.
    cbv zeta. rewrite mod2_even.
    rewrite <- Nat.negb_even in Hodd. apply negb_true_iff in Hodd. rewrite Hodd.
    rewrite orb_true_r. unfold Service.ratio_gt.
    assert (Hlen : length (Service.Uint8Array audioData) = length audioData)
      by apply length_map.
    rewrite Hlen.
    destruct (Z.eqb_spec (Z.of_nat (length audioData)) 0) as [E|_].
    { destruct audioData; [discriminate|simpl in E; lia]. }
    rewrite Qlt_bool_iff, count_above_Uint8Array. reflexivity.
  - intros E. destruct audioData; [reflexivity|discriminate].
  - unfold Service.detectAudioActivity, Service.detect_try_catch.
    destruct (Service.detect_try Service.Int16Array audioData) as [b|] eqn:E;
      [reflexivity|].
    unfold Service.detect_try in E. cbv zeta in E. rewrite mod2_even in E.
    destruct ((length audioData =? 0)%nat || negb (Nat.even (length audioData))) eqn:G;
      [discriminate|].
    apply orb_false_iff in G as [_ G]. apply negb_false_iff in G.
    unfold Service.Int16Array in E. rewrite G in E.
    destruct (Z.of_nat (length (Service.int16_samples audioData)) =? 0); discriminate.
  - intros newInt16Array E. unfold Service.detect_try_catch. rewrite E. reflexivity.
Qed.

(** The theorem on a four-byte buffer holding the samples 1024 and -1024,
    on a three-byte buffer with one loud byte, and on the empty buffer. *)
Lemma detectAudioActivity_spec_witness :
  (500 < Spec.rms (Service.int16_samples [x00; x04; x00; xfc]))%R
  /\ (1 # 10 < Spec.fraction_above 10 [xc8; x00; x00])%Q
  /\ Service.detectAudioActivity [] = false.
Proof.
  split; [|split].
  - apply (proj1 (detectAudioActivity_spec [x00; x04; x00; xfc])).
    + simpl. lia.
    + reflexivity.
    + vm_compute. reflexivity.
  - apply (proj1 (proj2 (detectAudioActivity_spec [xc8; x00; x00]))).
    + reflexivity.
    + vm_compute. reflexivity.
  - apply (proj1 (proj2 (proj2 (detectAudioActivity_spec [])))). reflexivity.
Defined.

(** ** Metrics *)

Section Metrics.
Import TranscriptionResult.

Lemma nonEmpty_rev (w : list N) : JS.nonEmpty (rev w) = JS.nonEmpty w.
Proof.
  destruct w as [|c w]; [reflexivity|]. simpl.
  destruct (rev w ++ [c]) eqn:E; [|reflexivity].
  apply app_eq_nil in E as [_ E]. discriminate.
Qed.

(** The non-empty pieces of the split are the tokens: one for the piece
    under construction when it is non-empty, one for each later token
    start. *)
Lemma split_go_count (s : list N) (in_sep : bool) (cur : list N) :
  (in_sep = true -> cur = []) ->
  length (List.filter JS.nonEmpty (JS.split_go in_sep cur s))
  = if JS.nonEmpty cur then S (Spec.token_starts false s)
    else Spec.token_starts true s.
Proof.
  revert in_sep cur. induction s as [|c s IH]; intros in_sep cur Hinv.
  - simpl. rewrite nonEmpty_rev. destruct (JS.nonEmpty cur); reflexivity.
  - simpl. destruct (JS.isWhiteSpace c) eqn:Ec.
    + destruct in_sep.
      * rewrite (Hinv eq_refl). rewrite IH by reflexivity. reflexivity.
      * simpl. rewrite nonEmpty_rev.
        destruct (JS.nonEmpty cur); simpl; rewrite IH by reflexivity; reflexivity.
    + rewrite IH by discriminate. simpl.
      destruct (JS.nonEmpty cur); reflexivity.
Qed.

Lemma words_token_count (s : list N) : Service.words s = Spec.token_count s.
Proof.
  unfold Service.words, JS.split_ws. rewrite split_go_count by discriminate.
  reflexivity.
Qed.

(** No piece of the split contains white space. *)
Lemma split_go_no_space (s : list N) (in_sep : bool) (cur : list N) :
  forallb (fun c => negb (JS.isWhiteSpace c)) cur = true ->
  Forall (fun w => forallb (fun c => negb (JS.isWhiteSpace c)) w = true)
    (JS.split_go in_sep cur s).
Proof.
  revert in_sep cur. induction s as [|c s IH]; intros in_sep cur Hcur.
  - simpl. constructor; [|constructor].
    rewrite forallb_forall in *. intros x Hx. apply Hcur, in_rev, Hx.
  - simpl. destruct (JS.isWhiteSpace c) eqn:Ec.
    + destruct in_sep; [apply IH, Hcur|].
      constructor; [|apply IH; reflexivity].
      rewrite forallb_forall in *. intros x Hx. apply Hcur, in_rev, Hx.
    + apply IH. simpl. rewrite Ec. exact Hcur.
Qed.

Lemma wordCount_fold (rs : list TranscriptionResult.t) (acc : nat) :
  fold_left (fun acc r => (acc + Service.words (text r))%nat) rs acc
  = (acc + list_sum (map (fun r => Spec.token_count (text r)) rs))%nat.
Proof.
  revert acc. induction rs as [|r rs IH]; intros acc; simpl; [lia|].
  rewrite IH, words_token_count. lia.
Qed.

Lemma latencies_positive (rs : list TranscriptionResult.t) :
  map (fun r => Service.bang (latency r)) (List.filter Service.latencyPresentPositive rs)
  = Spec.positive_latencies rs.
Proof.
  induction rs as [|r rs IH]; [reflexivity|].
  simpl. unfold Service.latencyPresentPositive at 1.
  destruct (latency r) as [l|] eqn:El; [|exact IH].
  destruct (Qlt_le_dec 0 l) as [Hlt|Hle].
  - apply Qlt_bool_iff in Hlt. rewrite Hlt. simpl. rewrite El, IH. reflexivity.
  - destruct (JS.Qlt_bool 0 l) eqn:E; [|exact IH].
    apply Qlt_bool_iff in E. exfalso. exact (Qlt_not_le _ _ E Hle).
Qed.

Lemma confidences_present (rs : list TranscriptionResult.t) :
  map (fun r => Service.bang (confidence r)) (List.filter Service.confidencePresent rs)
  = Spec.present_confidences rs.
Proof.
  induction rs as [|r rs IH]; [reflexivity|].
  simpl. unfold Service.confidencePresent at 1.
  destruct (confidence r) as [c|] eqn:Ec; [|exact IH].
  simpl. rewrite Ec, IH. reflexivity.
Qed.

Lemma sum_mean_double (xs : list Q) :
  Double.div (JS.sum xs) (Double.of_nat (length xs)) = Spec.mean_double xs.
Proof. reflexivity. Qed.

(** [Math.round] returns the nearest integer, a half going up. *)
Lemma Math_round_nearest (x : Q) :
  (inject_Z (JS.Math_round x) - (1 # 2) <= x
   /\ x < inject_Z (JS.Math_round x) + (1 # 2))%Q.
Proof.
  unfold JS.Math_round.
  pose proof (Qfloor_le (x + (1 # 2))) as Hlo.
  pose proof (Qlt_floor (x + (1 # 2))) as Hhi.
  rewrite inject_Z_plus in Hhi. change (inject_Z 1) with 1%Q in Hhi.
  split; lra.
Qed.

Lemma length_pos_not_nil {A} (l : list A) : (0 <? length l)%nat = true <-> l <> [].
Proof.
  destruct l; simpl; split; intros H;
    try reflexivity; try discriminate; exfalso; apply H; reflexivity.
Qed.
End Metrics.

(** C4, as the code has it.  [calculateMetrics] looks at the final
    results only.  With no final result it returns
    [{latency: 0, accuracy: 0, wordCount: 0}].  Otherwise [latency] is
    the integer nearest to the mean of the latencies that are present
    and positive (0 when there is none), the mean being computed in
    double precision; [accuracy] is [k / 10] for the integer [k] nearest
    to that mean of the confidences that are present, times 100, times
    10, each product and the final quotient rounded to a double (95 when
    there is none); and [wordCount] is the number of
    white-space-delimited non-empty tokens of all the final texts
    together. *)
Theorem calculateMetrics_spec (results : list TranscriptionResult.t) :
  let finals := List.filter TranscriptionResult.isFinal results in
  let m := Service.calculateMetrics results in
  let lats := Spec.positive_latencies finals in
  let confs := Spec.present_confidences finals in
  (finals = [] -> m = TranscriptionMetrics.mk 0 0%Q 0%nat)
  /\ (finals <> [] ->
      (lats = [] -> TranscriptionMetrics.latency m = 0)
      /\ (lats <> [] ->
          (inject_Z (TranscriptionMetrics.latency m) - (1 # 2) <= Spec.mean_double lats
           /\ Spec.mean_double lats < inject_Z (TranscriptionMetrics.latency m) + (1 # 2))%Q)
      /\ (confs = [] -> TranscriptionMetrics.accuracy m = 95%Q)
      /\ (confs <> [] ->
          exists k : Z,
            TranscriptionMetrics.accuracy m = Double.div (inject_Z k) 10
            /\ (inject_Z k - (1 # 2)
                <= Double.mul (Double.mul (Spec.mean_double confs) 100) 10
                /\ Double.mul (Double.mul (Spec.mean_double confs) 100) 10
                   < inject_Z k + (1 # 2))%Q)
      /\ TranscriptionMetrics.wordCount m
         = list_sum (map (fun r => Spec.token_count (TranscriptionResult.text r)) finals)).
Proof.
  cbv zeta. unfold Service.calculateMetrics. cbv zeta.
  rewrite latencies_positive, confidences_present.
  set (finals := List.filter TranscriptionResult.isFinal results).
  set (lats := Spec.positive_latencies finals).
  set (confs := Spec.present_confidences finals).
  split.
  - intros E. rewrite E. reflexivity.
  - intros Hne.
    destruct (Nat.eqb_spec (length finals) 0) as [E|_].
    { destruct finals; [congruence|discriminate]. }
    cbn [TranscriptionMetrics.latency TranscriptionMetrics.accuracy
         TranscriptionMetrics.wordCount].
    split; [|split; [|split; [|split]]].
    + intros E. rewrite E. reflexivity.
    + intros Hl. apply length_pos_not_nil in Hl. rewrite Hl, sum_mean_double.
      apply Math_round_nearest.
    + intros E. rewrite E. vm_compute. reflexivity.
    + intros Hc. apply length_pos_not_nil in Hc. rewrite Hc, sum_mean_double.
      eexists. split; [reflexivity|]. apply Math_round_nearest.
    + rewrite wordCount_fold. reflexivity.
Qed.

(** The theorem on the final results "the quick" (latency 120, confidence
    0.9) and "brown fox" (latency 81, confidence 0.8) after an interim
    one: latency 101 (the mean is 100.5), four words; and on the empty
    list. *)
Lemma calculateMetrics_spec_witness :
  Service.calculateMetrics [] = TranscriptionMetrics.mk 0 0%Q 0%nat
  /\ TranscriptionMetrics.wordCount
       (Service.calculateMetrics [Ex.interim_hello; Ex.final_quick; Ex.final_fox])
     = 4%nat
  /\ (Spec.mean_double [120; 81]
      < inject_Z (TranscriptionMetrics.latency
                    (Service.calculateMetrics
                       [Ex.interim_hello; Ex.final_quick; Ex.final_fox])) + (1 # 2))%Q.
Proof.
  split; [|split].
  - apply (proj1 (calculateMetrics_spec [])). reflexivity.
  - rewrite (proj2 (proj2 (proj2 (proj2
               (proj2 (calculateMetrics_spec
                         [Ex.interim_hello; Ex.final_quick; Ex.final_fox])
                  ltac:(discriminate)))))).
    reflexivity.
  - apply (proj1 (proj2 (proj2 (calculateMetrics_spec
                                  [Ex.interim_hello; Ex.final_quick; Ex.final_fox])
                           ltac:(discriminate)))).
    discriminate.
Defined.

(** C4 as stated fails on doubles.  One final result with the confidence
    0.5834999999999999 (a double, just below 0.5835): the mean times 100
    is below 58.35, so rounded to one decimal place it is 58.3; the code
    returns 58.4, because the product by 100 and then by 10 is rounded
    up to 583.5 before [Math.round] sees it. *)
Lemma calculateMetrics_accuracy_double_rounding :
  let c := Double.lit (5834999999999999 # 10000000000000000) in
  let r := TranscriptionResult.mk (JS.lit "ok") 1000 (Some c) true None in
  let accuracy := TranscriptionMetrics.accuracy (Service.calculateMetrics [r]) in
  Double.of_float (Double.to_float c) = Some c
  /\ accuracy = Double.lit (584 # 10)
  /\ Double.mul (Double.mul c 100) 10 = (1167 # 2)%Q
  /\ (Spec.mean [c] * 100 < 5835 # 100)%Q
  /\ ((583 # 10) - (1 # 20) <= Spec.mean [c] * 100 < (583 # 10) + (1 # 20))%Q
  /\ ~ (accuracy - (1 # 20) <= Spec.mean [c] * 100)%Q.
Proof.
  cbv zeta. split; [vm_compute; reflexivity|]. split; [vm_compute; reflexivity|].
  split; [vm_compute; reflexivity|]. split; [vm_compute; reflexivity|].
  split; [split; vm_compute; [discriminate|reflexivity]|].
  vm_compute. intros H. apply H. reflexivity.
Qed.

(** ** The audio cursor of [DeepgramService] *)

Section AudioCursor.
Import DeepgramService.

Lemma handleTranscriptResult_cursor (now : Z) (data : Data) (w : world) :
  audioCursor (svc (handleTranscriptResult now data w)) = audioCursor (svc w).
Proof.
  unfold handleTranscriptResult.
  destruct (alternative data) as [a|]; [|reflexivity].
  destruct (negb (JS.truthy (transcript a)) || negb (JS.truthy (JS.trim (transcript a))));
    reflexivity.
Qed.

Lemma stopTranscription_cursor (w : world) :
  audioCursor (svc (fst (stopTranscription w))) = audioCursor (svc w).
Proof.
  unfold stopTranscription.
  destruct (isActive (svc w)); [|reflexivity]. simpl negb. cbv iota.
  destruct (mediaRecorder (svc w)) as [[| |]|]; reflexivity.
Qed.

Lemma onaudioprocess_cursor (now : Z) (buf : list Q) (w : world) :
  audioCursor (svc (fst (onaudioprocess now buf w)))
  = if submits (svc w)
    then Double.add (audioCursor (svc w)) (Double.div (Double.of_nat (length buf)) 16000)
    else audioCursor (svc w).
Proof.
  unfold onaudioprocess, submits.
  destruct (connection (svc w)) as [k|]; [|reflexivity].
  destruct (isActive (svc w)); reflexivity.
Qed.

Lemma step_cursor (o : Op) (w : world) :
  audioCursor (svc (step o w)) = fold_left Double.add (advance_of o w) (audioCursor (svc w)).
Proof.
  destruct o as [now buf|now data| | | |]; unfold step, advance_of.
  - rewrite onaudioprocess_cursor. destruct (submits (svc w)); reflexivity.
  - apply handleTranscriptResult_cursor.
  - reflexivity.
  - reflexivity.
  - reflexivity.
  - apply stopTranscription_cursor.
Qed.

Lemma advances_cons (o : Op) (ops : list Op) (w : world) :
  advances (o :: ops) w = advance_of o w ++ advances ops (step o w).
Proof. reflexivity. Qed.

Lemma run_cursor (ops : list Op) (w : world) :
  audioCursor (svc (run ops w)) = fold_left Double.add (advances ops w) (audioCursor (svc w)).
Proof.
  revert w. induction ops as [|o ops IH]; intros w; [reflexivity|].
  rewrite advances_cons, fold_left_app. change (run (o :: ops) w) with (run ops (step o w)).
  rewrite IH, step_cursor. reflexivity.
Qed.

Lemma chunk_duration_nonneg (n : nat) : (0 <= Double.div (Double.of_nat n) 16000)%Q.
Proof. apply div_nonneg; [apply of_nat_nonneg|reflexivity]. Qed.

Lemma advances_nonneg (ops : list Op) (w : world) :
  Forall (fun d => (0 <= d)%Q) (advances ops w).
Proof.
  revert w. induction ops as [|o ops IH]; intros w; [constructor|].
  rewrite advances_cons. apply Forall_app. split; [|apply IH].
  destruct o; simpl; try constructor.
  destruct (submits (svc w)); constructor; [|constructor].
  apply chunk_duration_nonneg.
Qed.

(** A running sum of non-negative terms that starts at a double never
    falls below its start. *)
Lemma fold_add_increases (ds : list Q) (c : Q) :
  Double.is_double c -> Forall (fun d => (0 <= d)%Q) ds ->
  (c <= fold_left Double.add ds c)%Q.
Proof.
  intros Hc Hds. revert c Hc. induction Hds as [|d ds Hd _ IH]; intros c Hc.
  - apply Qle_refl.
  - simpl. apply Qle_trans with (Double.add c d); [apply add_increases; assumption|].
    apply IH, rnd_is_double.
Qed.

Lemma fold_add_is_double (ds : list Q) (c : Q) :
  Double.is_double c -> Double.is_double (fold_left Double.add ds c).
Proof.
  revert c. induction ds as [|d ds IH]; intros c Hc; [exact Hc|].
  simpl. apply IH, rnd_is_double.
Qed.

Lemma run_app (p q : list Op) (w : world) : run (p ++ q) w = run q (run p w).
Proof. unfold run. apply fold_left_app. Qed.

Lemma advances_app (p q : list Op) (w : world) :
  advances (p ++ q) w = advances p w ++ advances q (run p w).
Proof.
  revert w. induction p as [|o p IH]; intros w; [reflexivity|].
  change ((o :: p) ++ q) with (o :: (p ++ q)).
  rewrite !advances_cons, IH, app_assoc. reflexivity.
Qed.
End AudioCursor.

(** C6, as the code has it.  After [startAudioStreaming] has reset the
    cursor to 0, whatever runs next (audio chunks, transcript events,
    connection events, a stop), in any order: after every prefix [p] of
    the run the cursor is the running sum of the durations of the chunks
    submitted so far, added one by one in double precision; each
    duration is non-negative; and the cursor never decreases as the run
    goes on. *)
Theorem audioCursor_monotone_sum (now : Z) (mediaStream : nat)
    (s : DeepgramService.t) (st : StoreModel.t) (p q : list DeepgramService.Op) :
  let w0 :=
    DeepgramService.mkWorld (DeepgramService.startAudioStreaming now mediaStream s) st in
  DeepgramService.audioCursor (DeepgramService.svc w0) = 0%Q
  /\ DeepgramService.audioCursor (DeepgramService.svc (DeepgramService.run p w0))
     = Double.sum (DeepgramService.advances p w0)
  /\ Forall (fun d => (0 <= d)%Q) (DeepgramService.advances (p ++ q) w0)
  /\ DeepgramService.advances (p ++ q) w0
     = DeepgramService.advances p w0
       ++ DeepgramService.advances q (DeepgramService.run p w0)
  /\ (DeepgramService.audioCursor (DeepgramService.svc (DeepgramService.run p w0))
      <= DeepgramService.audioCursor
           (DeepgramService.svc (DeepgramService.run (p ++ q) w0)))%Q.
Proof.
  cbv zeta. split; [reflexivity|]. split; [|split; [|split]].
  - apply run_cursor.
  - apply advances_nonneg.
  - apply advances_app.
  - rewrite run_app, (run_cursor q). apply fold_add_increases; [|apply advances_nonneg].
    rewrite run_cursor. apply fold_add_is_double, is_double_0.
Qed.

(** C6 as stated fails on doubles: the cursor is not the exact sum of the
    durations.  After nine chunks of 1024 samples, each lasting the
    double 0.064, the cursor is the double 0.5760000000000001, which is
    neither nine times that duration nor 0.576; the kernel's binary64
    addition gives the same cursor. *)
Lemma audioCursor_not_exact_sum :
  let w0 :=
    DeepgramService.mkWorld
      (DeepgramService.startAudioStreaming 1000 7
         (DeepgramService.svc Ex.deepgram_streaming))
      (DeepgramService.store Ex.deepgram_streaming) in
  let p := repeat (DeepgramService.op_audio 1064 (repeat 0%Q 1024)) 9 in
  let cursor :=
    DeepgramService.audioCursor (DeepgramService.svc (DeepgramService.run p w0)) in
  DeepgramService.advances p w0 = repeat (Double.lit (64 # 1000)) 9
  /\ cursor = Double.lit (5760000000000001 # 10000000000000000)
  /\ ~ (cursor == Spec.total (DeepgramService.advances p w0))%Q
  /\ ~ (cursor == 576 # 1000)%Q
  /\ Double.of_float
       (Nat.iter 9
          (fun c => PrimFloat.add c
                      (PrimFloat.div (Double.to_float 1024) (Double.to_float 16000)))
          (Double.to_float 0))
     = Some cursor.
Proof.
  cbv zeta. split; [vm_compute; reflexivity|]. split; [vm_compute; reflexivity|].
  split; [vm_compute; discriminate|]. split; [vm_compute; discriminate|].
  vm_compute. reflexivity.
Qed.

(** ** Stopping a session *)

Section Stop.

Lemma spread_to_obj (prev m : TranscriptionMetrics.t) :
  TranscriptionMetrics.spread prev (TranscriptionMetrics.to_obj m) = m.
Proof. destruct m; reflexivity. Qed.

Lemma verbum_stop_twice (v : VerbumService.world) :
  VerbumService.stopTranscription (fst (VerbumService.stopTranscription v))
  = (fst (VerbumService.stopTranscription v), []).
Proof.
  destruct v as [s [dg vb]]. destruct s as [sock a c cb t0 rs rec ms stamps cus aad n].
  destruct vb as [txt srs m act cs].
  unfold VerbumService.stopTranscription.
  cbn [VerbumService.svc VerbumService.store VerbumService.socket
       VerbumService.mediaRecorder VerbumService.stream VerbumService.results
       VerbumService.onTranscription VerbumService.startTime
       VerbumService.audioChunkTimestamps VerbumService.currentUtteranceStart
       VerbumService.audioActivityDetected VerbumService.chunkCounter].
  destruct rec as [[| |]|]; destruct rs as [|r rs];
    cbn [fst length Nat.ltb Nat.leb app VerbumService.svc VerbumService.store
         VerbumService.socket VerbumService.mediaRecorder VerbumService.stream
         VerbumService.results VerbumService.onTranscription VerbumService.startTime
         VerbumService.audioChunkTimestamps VerbumService.currentUtteranceStart
         VerbumService.audioActivityDetected VerbumService.chunkCounter];
    unfold StoreModel.on_verbum, Model.updateMetrics, Model.setActive,
      Model.setConnectionStatus;
    cbn [StoreModel.verbum StoreModel.deepgram Model.text Model.results Model.metrics
         Model.isActive Model.connectionStatus];
    rewrite ?spread_to_obj; reflexivity.
Qed.

Lemma deepgram_stop_inactive (d : DeepgramService.world) :
  DeepgramService.isActive (DeepgramService.svc d) = false ->
  DeepgramService.stopTranscription d = (d, []).
Proof. intros H. unfold DeepgramService.stopTranscription. rewrite H. reflexivity. Qed.

Lemma deepgram_stop_active (d : DeepgramService.world) :
  DeepgramService.isActive (DeepgramService.svc d) = true ->
  let d1 := fst (DeepgramService.stopTranscription d) in
  DeepgramService.isActive (DeepgramService.svc d1) = false
  /\ DeepgramService.connection (DeepgramService.svc d1) = None
  /\ DeepgramService.stream (DeepgramService.svc d1) = None
  /\ snd (DeepgramService.stopTranscription d)
     = match DeepgramService.mediaRecorder (DeepgramService.svc d) with
       | Some inactive | None => []
       | Some _ => [recorder_stop]
       end
       ++ match DeepgramService.stream (DeepgramService.svc d) with
          | Some ms => [tracks_stop ms] | None => []
          end
       ++ match DeepgramService.connection (DeepgramService.svc d) with
          | Some k => [connection_finish k] | None => []
          end
  /\ Model.connectionStatus (StoreModel.deepgram (DeepgramService.store d1))
     = disconnected
  /\ Model.isActive (StoreModel.deepgram (DeepgramService.store d1)) = false
  /\ Model.results (StoreModel.deepgram (DeepgramService.store d1))
     = Model.results (StoreModel.deepgram (DeepgramService.store d))
  /\ (Model.results (StoreModel.deepgram (DeepgramService.store d)) <> [] ->
      Model.metrics (StoreModel.deepgram (DeepgramService.store d1))
      = Service.calculateMetrics
          (Model.results (StoreModel.deepgram (DeepgramService.store d)))).
Proof.
  intros H. cbv zeta. unfold DeepgramService.stopTranscription. rewrite H.
  simpl negb. cbv iota.
  destruct d as [s [dg vb]]. destruct dg as [txt srs m act cs].
  cbn [DeepgramService.svc DeepgramService.store].
  destruct (DeepgramService.mediaRecorder s) as [[| |]|]; destruct srs as [|r rs];
    cbn; rewrite ?spread_to_obj; repeat split; congruence.
Qed.
End Stop.

(** C7, as the code has it.  In both services a second
    [stopTranscription] right after the first changes nothing and makes
    no call at all: no socket, connection, recorder or track is released
    twice, and nothing that could throw is run.  The first call of
    [VerbumService], from any state, emits [streamEnd] on a connected
    socket, stops a recorder that is not inactive, stops the tracks of
    the stream and disconnects the socket, each when it is held; after
    it the socket and the stream are dropped, both flags are down, the
    store says [disconnected] and inactive, and the metrics of the
    results are published when there are results.  The first call of
    [DeepgramService] on an active service stops the recorder, stops the
    tracks and finishes the connection in the same way and reaches the
    same terminal state; on a service that is not active the call is a
    guarded no-op. *)
Theorem stopTranscription_idempotent (v : VerbumService.world)
    (d : DeepgramService.world) :
  let v1 := fst (VerbumService.stopTranscription v) in
  let d1 := fst (DeepgramService.stopTranscription d) in
  VerbumService.stopTranscription v1 = (v1, [])
  /\ DeepgramService.stopTranscription d1 = (d1, [])
  /\ (snd (VerbumService.stopTranscription v)
      = match VerbumService.socket (VerbumService.svc v) with
        | Some k =>
            if VerbumService.socket_connected k
            then [socket_emit_streamEnd (VerbumService.socketId k)] else []
        | None => []
        end
        ++ match VerbumService.mediaRecorder (VerbumService.svc v) with
           | Some inactive | None => []
           | Some _ => [recorder_stop]
           end
        ++ match VerbumService.stream (VerbumService.svc v) with
           | Some ms => [tracks_stop ms] | None => []
           end
        ++ match VerbumService.socket (VerbumService.svc v) with
           | Some k => [socket_disconnect (VerbumService.socketId k)] | None => []
           end
      /\ VerbumService.socket (VerbumService.svc v1) = None
      /\ VerbumService.stream (VerbumService.svc v1) = None
      /\ VerbumService.isActive (VerbumService.svc v1) = false
      /\ VerbumService.isConnecting (VerbumService.svc v1) = false
      /\ Model.connectionStatus (StoreModel.verbum (VerbumService.store v1))
         = disconnected
      /\ Model.isActive (StoreModel.verbum (VerbumService.store v1)) = false
      /\ (VerbumService.results (VerbumService.svc v) <> [] ->
          Model.metrics (StoreModel.verbum (VerbumService.store v1))
          = Service.calculateMetrics (VerbumService.results (VerbumService.svc v))))
  /\ (DeepgramService.isActive (DeepgramService.svc d) = true ->
      snd (DeepgramService.stopTranscription d)
      = match DeepgramService.mediaRecorder (DeepgramService.svc d) with
        | Some inactive | None => []
        | Some _ => [recorder_stop]
        end
        ++ match DeepgramService.stream (DeepgramService.svc d) with
           | Some ms => [tracks_stop ms] | None => []
           end
        ++ match DeepgramService.connection (DeepgramService.svc d) with
           | Some k => [connection_finish k] | None => []
           end
      /\ DeepgramService.connection (DeepgramService.svc d1) = None
      /\ DeepgramService.stream (DeepgramService.svc d1) = None
      /\ DeepgramService.isActive (DeepgramService.svc d1) = false
      /\ Model.connectionStatus (StoreModel.deepgram (DeepgramService.store d1))
         = disconnected
      /\ Model.isActive (StoreModel.deepgram (DeepgramService.store d1)) = false
      /\ (Model.results (StoreModel.deepgram (DeepgramService.store d)) <> [] ->
          Model.metrics (StoreModel.deepgram (DeepgramService.store d1))
          = Service.calculateMetrics
              (Model.results (StoreModel.deepgram (DeepgramService.store d)))))
  /\ (DeepgramService.isActive (DeepgramService.svc d) = false ->
      DeepgramService.stopTranscription d = (d, [])).
Proof.
  cbv zeta. split; [apply verbum_stop_twice|]. split; [|split; [|split]].
  - destruct (DeepgramService.isActive (DeepgramService.svc d)) eqn:E.
    + apply deepgram_stop_inactive. apply (deepgram_stop_active d E).
    + rewrite (deepgram_stop_inactive d E). simpl fst.
      apply deepgram_stop_inactive, E.
  - destruct v as [s [dg vb]]. destruct vb as [txt srs m act cs].
    unfold VerbumService.stopTranscription.
    cbn [VerbumService.svc VerbumService.store].
    destruct (VerbumService.mediaRecorder s) as [[| |]|];
      destruct (VerbumService.results s) as [|r rs];
      cbn; rewrite ?spread_to_obj; repeat split; congruence.
  - intros E. pose proof (deepgram_stop_active d E) as H. cbv zeta in H. tauto.
  - apply deepgram_stop_inactive.
Qed.

(** The theorem on the two streaming sessions of [Ex]: the first stop
    releases each resource once, the second makes no call. *)
Lemma stopTranscription_idempotent_witness :
  snd (VerbumService.stopTranscription Ex.verbum_streaming)
  = [socket_emit_streamEnd 3; recorder_stop; tracks_stop 7; socket_disconnect 3]
  /\ snd (VerbumService.stopTranscription
            (fst (VerbumService.stopTranscription Ex.verbum_streaming))) = []
  /\ snd (DeepgramService.stopTranscription Ex.deepgram_streaming)
     = [tracks_stop 7; connection_finish 1]
  /\ DeepgramService.connection
       (DeepgramService.svc (fst (DeepgramService.stopTranscription Ex.deepgram_streaming)))
     = None
  /\ Model.metrics
       (StoreModel.verbum
          (VerbumService.store (fst (VerbumService.stopTranscription Ex.verbum_streaming))))
     = Service.calculateMetrics [Ex.final_quick].
Proof.
  pose proof (stopTranscription_idempotent Ex.verbum_streaming Ex.deepgram_streaming)
    as (Hv & _ & (Hvc & Hvt) & Hd & _).
  split; [rewrite Hvc; reflexivity|]. split; [rewrite Hv; reflexivity|].
  destruct (Hd eq_refl) as (Hdc & Hdn & _).
  split; [rewrite Hdc; reflexivity|]. split; [exact Hdn|].
  apply Hvt. discriminate.
Defined.

(** C7 as stated fails for [DeepgramService] from a state in which it is
    not active.  After the server has closed the connection of the
    streaming session of [Ex], and after a start whose audio set-up
    threw, [stopTranscription] makes no call and leaves the connection
    (and the stream) in the service; after the failed start the store
    still says [error]. *)
Lemma deepgram_stop_when_inactive_releases_nothing :
  let closed := DeepgramService.on_close Ex.deepgram_streaming in
  let failed :=
    fst (fst (DeepgramService.startTranscription 5000 (Some 2%nat) false 7
                (JS.lit "en-US") (DeepgramSession.fresh StoreModel.initial))) in
  DeepgramService.stopTranscription closed = (closed, [])
  /\ DeepgramService.connection (DeepgramService.svc closed) = Some 1%nat
  /\ DeepgramService.stream (DeepgramService.svc closed) = Some 7%nat
  /\ DeepgramService.stopTranscription failed = (failed, [])
  /\ DeepgramService.connection (DeepgramService.svc failed) = Some 2%nat
  /\ Model.connectionStatus
       (StoreModel.deepgram
          (DeepgramService.store (fst (DeepgramService.stopTranscription failed))))
     = error.
Proof. cbv zeta. repeat split; reflexivity. Qed.

(** ** Starting a session *)

(** C1, as the code has it.  In [VerbumService], [startTranscription] on
    a service that is active or connecting is a no-op: nothing is reset
    and no call is made, so no connection is opened; in particular a
    start on an idle service opens one socket and every start that
    follows it at once is ignored.  In [DeepgramService] it is not: on an
    active service the call first stops the running session, which
    finishes the connection it holds and stops the tracks of its stream,
    then resets the store module and asks the client for a new
    connection.  When the client returns one
    ([live] is [Some k]) it is the one connection the service holds
    afterwards, and the service is active and [connected] if the audio
    set-up succeeds, inactive and in [error] if it throws; when the
    client throws, no connection is opened, none is held, and the
    service is inactive and in [error]. *)
Theorem startTranscription_while_active
    (now : Z) (fresh mediaStream : nat) (language : list N) (withCallback : bool)
    (live : option nat) (audioOk : bool)
    (v : VerbumService.world) (d : DeepgramService.world) :
  (VerbumService.isActive (VerbumService.svc v)
   || VerbumService.isConnecting (VerbumService.svc v) = true ->
   VerbumService.startTranscription now fresh mediaStream language withCallback v
   = (v, []))
  /\ (VerbumService.isActive (VerbumService.svc v)
      || VerbumService.isConnecting (VerbumService.svc v) = false ->
      let r1 :=
        VerbumService.startTranscription now fresh mediaStream language withCallback v in
      snd r1 = [io_connect fresh (VerbumService.mapLanguageCode language)]
      /\ forall now' fresh' mediaStream' language' withCallback',
          VerbumService.startTranscription now' fresh' mediaStream' language'
            withCallback' (fst r1)
          = (fst r1, []))
  /\ (DeepgramService.isActive (DeepgramService.svc d) = true ->
      let r :=
        DeepgramService.startTranscription now live audioOk mediaStream language d in
      let d' := fst (fst r) in
      let opened :=
        match live with Some k => [listen_live k language] | None => [] end in
      let started := match live with Some _ => audioOk | None => false end in
      snd (fst r) = snd (DeepgramService.stopTranscription d) ++ opened
      /\ List.filter opens (snd (fst r)) = opened
      /\ (forall k, DeepgramService.connection (DeepgramService.svc d) = Some k ->
          In (connection_finish k) (snd (DeepgramService.stopTranscription d)))
      /\ (forall ms, DeepgramService.stream (DeepgramService.svc d) = Some ms ->
          In (tracks_stop ms) (snd (DeepgramService.stopTranscription d)))
      /\ DeepgramService.connection (DeepgramService.svc d') = live
      /\ DeepgramService.isActive (DeepgramService.svc d') = started
      /\ snd r = negb started
      /\ StoreModel.deepgram (DeepgramService.store d')
         = Model.mk [] [] TranscriptionMetrics.zero started
             (if started then connected else error)
      /\ (started = true ->
          DeepgramService.audioCursor (DeepgramService.svc d') = 0%Q
          /\ DeepgramService.chunkCounter (DeepgramService.svc d') = 0%nat)).
Proof.
  split; [|split].
  - intros H. unfold VerbumService.startTranscription. rewrite H. reflexivity.
  - intros H. cbv zeta. unfold VerbumService.startTranscription. rewrite H.
    split; reflexivity.
  - intros H. cbv zeta. unfold DeepgramService.startTranscription. rewrite H.
    pose proof (deepgram_stop_active d H) as Hs. cbv zeta in Hs.
    destruct Hs as (_ & Hcon & _ & Hcalls & _).
    assert (Hf : List.filter opens (snd (DeepgramService.stopTranscription d)) = []).
    { rewrite Hcalls.
      destruct (DeepgramService.mediaRecorder (DeepgramService.svc d)) as [[| |]|];
        destruct (DeepgramService.stream (DeepgramService.svc d));
        destruct (DeepgramService.connection (DeepgramService.svc d)); reflexivity. }
    assert (Hin : forall k,
               DeepgramService.connection (DeepgramService.svc d) = Some k ->
               In (connection_finish k) (snd (DeepgramService.stopTranscription d))).
    { intros k Hk. rewrite Hcalls, Hk.
      apply in_or_app. right. apply in_or_app. right. left. reflexivity. }
    assert (Htr : forall ms,
               DeepgramService.stream (DeepgramService.svc d) = Some ms ->
               In (tracks_stop ms) (snd (DeepgramService.stopTranscription d))).
    { intros ms Hms. rewrite Hcalls, Hms.
      apply in_or_app. right. apply in_or_app. left. left. reflexivity. }
    destruct (DeepgramService.stopTranscription d) as [d1 c0] eqn:E.
    cbn [fst snd] in *.
    destruct live as [k|]; [destruct audioOk|]; cbn [fst snd].
    + split; [reflexivity|]. split; [rewrite List.filter_app, Hf; reflexivity|].
      split; [exact Hin|]. split; [exact Htr|]. repeat split.
    + split; [reflexivity|]. split; [rewrite List.filter_app, Hf; reflexivity|].
      split; [exact Hin|]. split; [exact Htr|]. repeat split; discriminate.
    + split; [rewrite app_nil_r; reflexivity|]. split; [exact Hf|].
      split; [exact Hin|]. split; [exact Htr|]. split; [exact Hcon|].
      repeat split; discriminate.
Qed.

(** The theorem on the streaming sessions of [Ex]: the Verbum service
    ignores the second start; the Deepgram service finishes connection 1
    and opens connection 2, or opens none when the client throws. *)
Lemma startTranscription_while_active_witness :
  VerbumService.startTranscription 5000 4 7 (JS.lit "en-US") false Ex.verbum_streaming
  = (Ex.verbum_streaming, [])
  /\ snd (fst (DeepgramService.startTranscription 5000 (Some 2%nat) true 7
                 (JS.lit "en-US") Ex.deepgram_streaming))
     = [tracks_stop 7; connection_finish 1; listen_live 2 (JS.lit "en-US")]
  /\ snd (fst (DeepgramService.startTranscription 5000 None true 7
                 (JS.lit "en-US") Ex.deepgram_streaming))
     = [tracks_stop 7; connection_finish 1].
Proof.
  split; [|split].
  - apply (proj1 (startTranscription_while_active 5000 4 7 (JS.lit "en-US") false
                    None true Ex.verbum_streaming Ex.deepgram_streaming)).
    reflexivity.
  - rewrite (proj1 (proj2 (proj2 (startTranscription_while_active 5000 2 7
                                    (JS.lit "en-US") false (Some 2%nat) true
                                    Ex.verbum_streaming Ex.deepgram_streaming))
                      eq_refl)).
    reflexivity.
  - rewrite (proj1 (proj2 (proj2 (startTranscription_while_active 5000 2 7
                                    (JS.lit "en-US") false None true
                                    Ex.verbum_streaming Ex.deepgram_streaming))
                      eq_refl)).
    reflexivity.
Defined.

(** C1 as stated fails for [DeepgramService]: a start on the streaming
    session of [Ex] empties the results of the store module and opens a
    connection. *)
Lemma deepgram_start_while_active_restarts :
  Model.results (StoreModel.deepgram (DeepgramService.store Ex.deepgram_streaming))
  = [Ex.final_quick]
  /\ Model.results
       (StoreModel.deepgram
          (DeepgramService.store
             (fst (fst (DeepgramService.startTranscription 5000 (Some 2%nat) true 7
                          (JS.lit "en-US") Ex.deepgram_streaming)))))
     = []
  /\ fst (fst (DeepgramService.startTranscription 5000 (Some 2%nat) true 7
                 (JS.lit "en-US") Ex.deepgram_streaming))
     <> Ex.deepgram_streaming
  /\ existsb opens
       (snd (fst (DeepgramService.startTranscription 5000 (Some 2%nat) true 7
                    (JS.lit "en-US") Ex.deepgram_streaming)))
     = true.
Proof.
  split; [reflexivity|]. split; [reflexivity|]. split; [|reflexivity].
  intros H.
  apply (f_equal (fun w => DeepgramService.connection (DeepgramService.svc w))) in H.
  discriminate H.
Qed.

(** ** Latency of a recognition event *)

Section Latency.
Import TranscriptionResult.

Lemma trim_nil : JS.trim [] = [].
Proof. reflexivity. Qed.

Lemma not_blank (s : list N) :
  JS.trim s <> [] ->
  negb (JS.truthy s) || negb (JS.truthy (JS.trim s)) = false.
Proof.
  intros H. assert (Hs : s <> []) by (intros ->; apply H, trim_nil).
  apply truthy_true_not_nil in H, Hs. rewrite H, Hs. reflexivity.
Qed.

Lemma deepgram_stores (now : Z) (final : bool) (a : DeepgramService.Alternative)
    (w : DeepgramService.world) :
  JS.trim (DeepgramService.transcript a) <> [] ->
  Model.results
    (StoreModel.deepgram
       (DeepgramService.store
          (DeepgramService.handleTranscriptResult now
             (DeepgramService.mkData final (Some a)) w)))
  = Model.results (StoreModel.deepgram (DeepgramService.store w))
    ++ [TranscriptionResult.mk (JS.trim (DeepgramService.transcript a)) now
          (Some (DeepgramService.storedConfidence (DeepgramService.confidence a)))
          final
          (Some (JS.Math_max 0
                   (DeepgramService.calculatedLatency now final a
                      (DeepgramService.svc w))))].
Proof.
  intros H. unfold DeepgramService.handleTranscriptResult.
  cbn [DeepgramService.alternative DeepgramService.is_final].
  rewrite (not_blank _ H). destruct final; reflexivity.
Qed.

Lemma verbum_pushes (now : Z) (data : VerbumService.VerbumSpeechResult)
    (v : VerbumService.world) :
  JS.trim (VerbumService.d_text data) <> [] ->
  VerbumService.results
    (VerbumService.svc (fst (VerbumService.handleSpeechResult now data v)))
  = VerbumService.results (VerbumService.svc v)
    ++ [TranscriptionResult.mk (JS.trim (VerbumService.d_text data)) now
          (Some (VerbumService.storedConfidence (VerbumService.d_confidence data)))
          (VerbumService.isRecognized (VerbumService.d_status data))
          (Some (JS.Math_max 0
                   (inject_Z (VerbumService.calculatedLatency now
                                (VerbumService.svc v)))))].
Proof.
  intros H. unfold VerbumService.handleSpeechResult. rewrite (not_blank _ H).
  destruct (VerbumService.onTranscription (VerbumService.svc v)) as [[|]|];
    reflexivity.
Qed.

Lemma sort_desc_nil_filter (f : Z -> bool) (l : list Z) :
  (forall x, In x l -> f x = false) -> sort_desc (List.filter f l) = [].
Proof.
  intros H. induction l as [|x l IH]; [reflexivity|].
  simpl. rewrite (H x (or_introl eq_refl)). apply IH.
  intros y Hy. apply H. right. exact Hy.
Qed.

Lemma verbum_no_measure (now : Z) (s : VerbumService.t) :
  VerbumService.currentUtteranceStart s = 0 ->
  (forall k t, VerbumService.audioChunkTimestamps s !! k = Some t -> t <= now - 3000) ->
  VerbumService.calculatedLatency now s = 0.
Proof.
  intros Hc Hold. unfold VerbumService.calculatedLatency. rewrite Hc. simpl.
  destruct (0 <? size (VerbumService.audioChunkTimestamps s))%nat; [|reflexivity].
  rewrite sort_desc_nil_filter; [reflexivity|].
  intros t Ht. apply in_map_iff in Ht as [[k t'] [<- Hin]].
  apply list_elem_of_In, elem_of_map_to_list, Hold in Hin. simpl. lia.
Qed.

Lemma sort_desc_head (l : list Z) :
  match sort_desc l with
  | [] => l = []
  | t :: _ => In t l /\ forall x, In x l -> x <= t
  end.
Proof.
  induction l as [|x l IH]; [reflexivity|].
  simpl. destruct (sort_desc l) as [|t r].
  - subst l. simpl. split; [left; reflexivity|]. intros y [<-|[]]. lia.
  - destruct IH as [Hin Hmax]. simpl. destruct (t <=? x) eqn:E.
    + apply Z.leb_le in E. split; [left; reflexivity|].
      intros y [<-|Hy]; [lia|]. specialize (Hmax y Hy). lia.
    + apply Z.leb_gt in E. split; [right; exact Hin|].
      intros y [<-|Hy]; [lia|]. exact (Hmax y Hy).
Qed.

Lemma In_stamps (m : gmap nat Z) (t : Z) :
  In t (map snd (map_to_list m)) <-> exists k, m !! k = Some t.
Proof.
  rewrite in_map_iff. split.
  - intros [[k t'] [<- Hin]]. exists k.
    apply elem_of_map_to_list, list_elem_of_In, Hin.
  - intros [k Hk]. exists (k, t). split; [reflexivity|].
    apply list_elem_of_In, elem_of_map_to_list, Hk.
Qed.

(** Without a tracked utterance start, the latency is measured from the
    most recent chunk stamp of the last three seconds. *)
Lemma verbum_chunk_measure (now : Z) (s : VerbumService.t) (k0 : nat) (t0 : Z) :
  VerbumService.currentUtteranceStart s = 0 ->
  VerbumService.audioChunkTimestamps s !! k0 = Some t0 ->
  now - 3000 < t0 ->
  exists t,
    (exists k, VerbumService.audioChunkTimestamps s !! k = Some t)
    /\ (forall k' t', VerbumService.audioChunkTimestamps s !! k' = Some t' -> t' <= t)
    /\ VerbumService.calculatedLatency now s = now - t
    /\ VerbumService.calculatedLatency now s < 3000.
Proof.
  intros Hc Hk Hrecent. unfold VerbumService.calculatedLatency. rewrite Hc. simpl.
  assert (Hsize : (0 <? size (VerbumService.audioChunkTimestamps s))%nat = true).
  { apply Nat.ltb_lt.
    pose proof (map_size_ne_0_lookup_2 (VerbumService.audioChunkTimestamps s) k0
                  (ex_intro _ t0 Hk)).
    lia. }
  rewrite Hsize.
  set (recent := List.filter (fun timestamp => now - 3000 <? timestamp)
                   (map snd (map_to_list (VerbumService.audioChunkTimestamps s)))).
  assert (Hin0 : In t0 recent).
  { apply List.filter_In. split; [apply In_stamps; eauto|]. apply Z.ltb_lt, Hrecent. }
  pose proof (sort_desc_head recent) as Hhead.
  destruct (sort_desc recent) as [|t r].
  - rewrite Hhead in Hin0. contradiction.
  - destruct Hhead as [Hin Hmax]. apply List.filter_In in Hin as [Hin Hlt].
    apply Z.ltb_lt in Hlt. exists t. split; [apply In_stamps, Hin|].
    split; [|split; [reflexivity|lia]].
    intros k' t' Hk'. destruct (Z_lt_le_dec (now - 3000) t') as [Hr|Hr]; [|lia].
    apply Hmax, List.filter_In. split; [apply In_stamps; eauto|].
    apply Z.ltb_lt, Hr.
Qed.

(** The cursor formula of [handleTranscriptResult] is evaluated on
    doubles.  With the cursor at 0.1 s and an alternative that carries
    the start 0.064 s and the duration 0.013 s, the latency is the
    double 23.000000000000007, not 23; the kernel's binary64 operations
    give the same number. *)
Example calculatedLatency_on_doubles :
  let a :=
    DeepgramService.mkAlt (JS.lit "hello") None
      (Some (Double.lit (64 # 1000))) (Some (Double.lit (13 # 1000))) in
  let latency :=
    DeepgramService.calculatedLatency 1020 false a
      (DeepgramService.svc Ex.deepgram_streaming) in
  latency = Double.lit (23000000000000007 # 1000000000000000)
  /\ ~ (latency == 23)%Q
  /\ Double.of_float
       (PrimFloat.mul
          (PrimFloat.sub (Double.to_float (Double.lit (1 # 10)))
             (PrimFloat.add (Double.to_float (Double.lit (64 # 1000)))
                (Double.to_float (Double.lit (13 # 1000)))))
          (Double.to_float 1000))
     = Some latency.
Proof.
  cbv zeta. split; [vm_compute; reflexivity|]. split; [vm_compute; discriminate|].
  vm_compute. reflexivity.
Qed.
End Latency.

(** C2, as the code has it.  [VerbumService] keeps no audio cursor and
    does not read the offset or the duration of an event.  For an
    interim event it stores the wall-clock difference computed by
    [calculatedLatency], clamped at 0: [now - currentUtteranceStart]
    whenever an utterance start is tracked; otherwise the time since the
    most recent chunk stamp when a chunk was stamped within the last
    three seconds, and 0 when none was.  Two events that differ in
    offset and duration only are handled alike. *)
Theorem interim_latency (now : Z)
    (v : VerbumService.world) (data : VerbumService.VerbumSpeechResult)
    (duration' offset' : option Q) :
  JS.trim (VerbumService.d_text data) <> [] ->
  VerbumService.d_status data = VerbumService.recognizing ->
  (exists r,
      VerbumService.results
        (VerbumService.svc (fst (VerbumService.handleSpeechResult now data v)))
      = VerbumService.results (VerbumService.svc v) ++ [r]
      /\ TranscriptionResult.isFinal r = false
      /\ TranscriptionResult.latency r
         = Some (JS.Math_max 0
                   (inject_Z (VerbumService.calculatedLatency now
                                (VerbumService.svc v))))
      /\ (0 < VerbumService.currentUtteranceStart (VerbumService.svc v) ->
          TranscriptionResult.latency r
          = Some (JS.Math_max 0
                    (inject_Z
                       (now - VerbumService.currentUtteranceStart
                                (VerbumService.svc v)))))
      /\ (VerbumService.currentUtteranceStart (VerbumService.svc v) = 0 ->
          forall k0 t0,
            VerbumService.audioChunkTimestamps (VerbumService.svc v) !! k0 = Some t0 ->
            now - 3000 < t0 ->
            exists t,
              (exists k,
                  VerbumService.audioChunkTimestamps (VerbumService.svc v) !! k = Some t)
              /\ (forall k' t',
                     VerbumService.audioChunkTimestamps (VerbumService.svc v) !! k'
                     = Some t' -> t' <= t)
              /\ TranscriptionResult.latency r
                 = Some (JS.Math_max 0 (inject_Z (now - t))))
      /\ (VerbumService.currentUtteranceStart (VerbumService.svc v) = 0 ->
          (forall k t,
              VerbumService.audioChunkTimestamps (VerbumService.svc v) !! k = Some t ->
              t <= now - 3000) ->
          TranscriptionResult.latency r = Some 0%Q))
  /\ VerbumService.handleSpeechResult now
       (VerbumService.mkData (VerbumService.d_text data)
          (VerbumService.d_confidence data) (VerbumService.d_status data)
          duration' offset') v
     = VerbumService.handleSpeechResult now data v.
Proof.
  intros Ht Hs. split.
  - eexists. split; [apply verbum_pushes, Ht|].
    rewrite Hs. split; [reflexivity|]. split; [reflexivity|]. split; [|split].
    + intros Hc. cbn [TranscriptionResult.latency].
      unfold VerbumService.calculatedLatency. apply Z.ltb_lt in Hc. rewrite Hc.
      reflexivity.
    + intros Hc k0 t0 Hk Hrecent. cbn [TranscriptionResult.latency].
      destruct (verbum_chunk_measure now _ k0 t0 Hc Hk Hrecent)
        as (t & Hin & Hmax & Hlat & _).
      exists t. split; [exact Hin|]. split; [exact Hmax|]. rewrite Hlat. reflexivity.
    + intros Hc Hold. cbn [TranscriptionResult.latency].
      rewrite (verbum_no_measure now _ Hc Hold). reflexivity.
  - destruct data as [t c st du off]. reflexivity.
Qed.

(** The theorem on the streaming Verbum session of [Ex]: an interim event
    120 ms after the utterance start is stored with 120 ms, whatever its
    offset and duration. *)
Lemma interim_latency_witness :
  Ex.last_latency
    (VerbumService.results
       (VerbumService.svc
          (fst (VerbumService.handleSpeechResult 1020 Ex.verbum_interim_a
                  Ex.verbum_streaming))))
  = Some (Some 120%Q)
  /\ VerbumService.handleSpeechResult 1020 Ex.verbum_interim_b Ex.verbum_streaming
     = VerbumService.handleSpeechResult 1020 Ex.verbum_interim_a Ex.verbum_streaming.
Proof.
  pose proof (interim_latency 1020 Ex.verbum_streaming Ex.verbum_interim_a
                (Some 1%Q) (Some 1%Q)) as [Hv Hi];
    [vm_compute; discriminate | reflexivity |].
  split.
  - destruct Hv as (r & Hr & _ & _ & Hl & _).
    rewrite Hr. unfold Ex.last_latency. rewrite last_snoc. simpl.
    rewrite Hl by reflexivity. reflexivity.
  - exact Hi.
Defined.

(** C2 as stated fails for [VerbumService]: in one and the same session
    state, two interim events that end at 0.05 s and at 2 s of the audio
    both get the latency 120 ms, which no value of an audio cursor
    reconciles with the formula. *)
Lemma verbum_interim_latency_ignores_position :
  Ex.last_latency
    (VerbumService.results
       (VerbumService.svc
          (fst (VerbumService.handleSpeechResult 1020 Ex.verbum_interim_a
                  Ex.verbum_streaming))))
  = Some (Some 120%Q)
  /\ Ex.last_latency
       (VerbumService.results
          (VerbumService.svc
             (fst (VerbumService.handleSpeechResult 1020 Ex.verbum_interim_b
                     Ex.verbum_streaming))))
     = Some (Some 120%Q)
  /\ ~ (exists audioCursor : Q,
          (120 == Spec.cursor_latency audioCursor (2 # 100) (3 # 100))%Q
          /\ (120 == Spec.cursor_latency audioCursor 1 1)%Q).
Proof.
  split; [reflexivity|]. split; [reflexivity|].
  intros [c [H1 H2]]. unfold Spec.cursor_latency in H1, H2. cbv zeta in H1, H2.
  destruct (Qlt_le_dec ((c - ((2 # 100) + (3 # 100))) * 1000) 0);
    destruct (Qlt_le_dec ((c - (1 + 1)) * 1000) 0); lra.
Qed.

(** C3, as the code has it.  For a final event handled by
    [handleTranscriptResult] or by [handleSpeechResult] while no
    utterance start is tracked ([currentUtteranceStart] is 0), and in
    [VerbumService] no chunk was stamped within the last three seconds,
    the stored result carries the latency 0: the field is set, not left
    undefined.  Only the results of the Web Speech fallback of
    [VerbumService] carry no latency.  [calculateMetrics] counts neither
    kind of result in the mean latency. *)
Theorem final_latency_without_start (now : Z)
    (w : DeepgramService.world) (a : DeepgramService.Alternative)
    (v : VerbumService.world) (data : VerbumService.VerbumSpeechResult)
    (transcript : list N) (conf : Q) (final : bool) :
  (JS.trim (DeepgramService.transcript a) <> [] ->
   DeepgramService.currentUtteranceStart (DeepgramService.svc w) = 0 ->
   exists r,
     Model.results
       (StoreModel.deepgram
          (DeepgramService.store
             (DeepgramService.handleTranscriptResult now
                (DeepgramService.mkData true (Some a)) w)))
     = Model.results (StoreModel.deepgram (DeepgramService.store w)) ++ [r]
     /\ TranscriptionResult.isFinal r = true
     /\ TranscriptionResult.latency r = Some 0%Q
     /\ Service.latencyPresentPositive r = false)
  /\ (JS.trim (VerbumService.d_text data) <> [] ->
      VerbumService.d_status data = VerbumService.recognized ->
      VerbumService.currentUtteranceStart (VerbumService.svc v) = 0 ->
      (forall k t,
          VerbumService.audioChunkTimestamps (VerbumService.svc v) !! k = Some t ->
          t <= now - 3000) ->
      exists r,
        VerbumService.results
          (VerbumService.svc (fst (VerbumService.handleSpeechResult now data v)))
        = VerbumService.results (VerbumService.svc v) ++ [r]
        /\ TranscriptionResult.isFinal r = true
        /\ TranscriptionResult.latency r = Some 0%Q
        /\ Service.latencyPresentPositive r = false)
  /\ (exists r,
        VerbumService.results
          (VerbumService.svc
             (fst (VerbumService.webSpeech_onresult now transcript conf final v)))
        = VerbumService.results (VerbumService.svc v) ++ [r]
        /\ TranscriptionResult.isFinal r = final
        /\ TranscriptionResult.latency r = None
        /\ Service.latencyPresentPositive r = false).
Proof.
  split; [|split].
  - intros Ht Hc. eexists. split; [apply deepgram_stores, Ht|].
    unfold DeepgramService.calculatedLatency. rewrite Hc.
    destruct (DeepgramService.start a), (DeepgramService.duration a);
      repeat split; reflexivity.
  - intros Ht Hs Hc Hold. eexists. split; [apply verbum_pushes, Ht|].
    rewrite Hs, (verbum_no_measure now _ Hc Hold). repeat split; reflexivity.
  - exists (TranscriptionResult.mk transcript now
              (Some (if Qeq_bool conf 0 then Double.lit (85 # 100) else conf)) final None).
    split; [|repeat split; reflexivity].
    unfold VerbumService.webSpeech_onresult.
    destruct (JS.truthy (JS.trim transcript)); [|reflexivity].
    destruct (VerbumService.onTranscription (VerbumService.svc v)) as [[|]|]; reflexivity.
Qed.

(** The theorem on the streaming Deepgram session of [Ex] and on the
    Verbum session between two utterances. *)
Lemma final_latency_without_start_witness :
  Ex.last_latency
    (Model.results
       (StoreModel.deepgram
          (DeepgramService.store
             (DeepgramService.handleTranscriptResult 1020 Ex.deepgram_final
                Ex.deepgram_streaming))))
  = Some (Some 0%Q)
  /\ Ex.last_latency
       (VerbumService.results
          (VerbumService.svc
             (fst (VerbumService.handleSpeechResult 1020 Ex.verbum_final
                     Ex.verbum_between_utterances))))
     = Some (Some 0%Q).
Proof.
  pose proof (final_latency_without_start 1020 Ex.deepgram_streaming
                (DeepgramService.mkAlt (JS.lit "hello world") (Some (Double.lit (9 # 10))) None None)
                Ex.verbum_between_utterances Ex.verbum_final [] 0 true)
    as (Hd & Hv & _).
  split.
  - destruct Hd as [r [Hr [_ [Hl _]]]]; [vm_compute; discriminate | reflexivity |].
    unfold Ex.deepgram_final. rewrite Hr. unfold Ex.last_latency.
    rewrite last_snoc. simpl. rewrite Hl. reflexivity.
  - destruct Hv as [r [Hr [_ [Hl _]]]];
      [vm_compute; discriminate | reflexivity | reflexivity | |].
    + intros k t H. change ((∅ : gmap nat Z) !! k = Some t) in H.
      rewrite lookup_empty in H. discriminate.
    + rewrite Hr. unfold Ex.last_latency. rewrite last_snoc. simpl.
      rewrite Hl. reflexivity.
Defined.

(** C3 as stated fails in both services: the final event handled without
    a tracked utterance start is stored with the latency 0, not without
    one. *)
Lemma final_latency_is_zero_not_undefined :
  Ex.last_latency
    (Model.results
       (StoreModel.deepgram
          (DeepgramService.store
             (DeepgramService.handleTranscriptResult 1020 Ex.deepgram_final
                Ex.deepgram_streaming))))
  <> Some None
  /\ Ex.last_latency
       (VerbumService.results
          (VerbumService.svc
             (fst (VerbumService.handleSpeechResult 1020 Ex.verbum_final
                     Ex.verbum_between_utterances))))
     <> Some None.
Proof. split; vm_compute; discriminate. Qed.

(* ===================================================================== *)
(** * Further properties of the code                                     *)
(* ===================================================================== *)

(** ** White space, tokens and trimming *)

Section Tokens.

Lemma trimStart_split (s : list N) :
  exists ws, s = ws ++ JS.trimStart s /\ Measure.blank ws = true.
Proof.
  induction s as [|c s [ws [Hs Hb]]].
  - exists []. split; reflexivity.
  - simpl. destruct (JS.isWhiteSpace c) eqn:E.
    + exists (c :: ws). split; [simpl; f_equal; exact Hs|].
      simpl. rewrite E. exact Hb.
    + exists []. split; reflexivity.
Qed.

Lemma blank_rev (ws : list N) : Measure.blank (rev ws) = Measure.blank ws.
Proof.
  unfold Measure.blank. induction ws as [|c ws IH]; [reflexivity|].
  simpl. rewrite forallb_app, IH. simpl. rewrite andb_true_r. apply andb_comm.
Qed.

Lemma trimEnd_split (s : list N) :
  exists ws, s = JS.trimEnd s ++ ws /\ Measure.blank ws = true.
Proof.
  destruct (trimStart_split (rev s)) as [ws [Hs Hb]].
  exists (rev ws). split; [|rewrite blank_rev; exact Hb].
  unfold JS.trimEnd. rewrite <- rev_app_distr, <- Hs, rev_involutive. reflexivity.
Qed.

Lemma trimStart_head (s : list N) :
  match JS.trimStart s with [] => True | c :: _ => JS.isWhiteSpace c = false end.
Proof.
  induction s as [|c s IH]; [exact I|].
  simpl. destruct (JS.isWhiteSpace c) eqn:E; [exact IH|exact E].
Qed.

Lemma trimStart_fixed (s : list N) :
  match s with [] => True | c :: _ => JS.isWhiteSpace c = false end ->
  JS.trimStart s = s.
Proof. destruct s as [|c s]; [reflexivity|]. simpl. intros ->. reflexivity. Qed.

Lemma blank_trimStart (ws : list N) : Measure.blank ws = true -> JS.trimStart ws = [].
Proof.
  induction ws as [|c ws IH]; [reflexivity|].
  simpl. intros H. apply andb_true_iff in H as [Hc Hw]. rewrite Hc. apply IH, Hw.
Qed.

Lemma blank_trim (s : list N) : Measure.blank s = true -> JS.trim s = [].
Proof.
  intros H. unfold JS.trim. rewrite (blank_trimStart _ H). reflexivity.
Qed.

Lemma token_starts_blank (b : bool) (ws : list N) :
  Measure.blank ws = true -> Spec.token_starts b ws = 0%nat.
Proof.
  revert b. induction ws as [|c ws IH]; intros b H; [reflexivity|].
  simpl in *. apply andb_true_iff in H as [Hc Hw]. rewrite Hc, andb_false_r.
  simpl. apply IH, Hw.
Qed.

Lemma token_starts_app_blank (b : bool) (s ws : list N) :
  Measure.blank ws = true -> Spec.token_starts b (s ++ ws) = Spec.token_starts b s.
Proof.
  revert b. induction s as [|c s IH]; intros b H.
  - simpl. apply token_starts_blank, H.
  - simpl. rewrite IH by exact H. reflexivity.
Qed.

Lemma token_starts_blank_app (ws s : list N) :
  Measure.blank ws = true ->
  Spec.token_starts true (ws ++ s) = Spec.token_starts true s.
Proof.
  induction ws as [|c ws IH]; intros H; [reflexivity|].
  simpl in *. apply andb_true_iff in H as [Hc Hw]. rewrite Hc. simpl. apply IH, Hw.
Qed.

Lemma token_count_trim (s : list N) :
  Spec.token_count (JS.trim s) = Spec.token_count s.
Proof.
  unfold Spec.token_count, JS.trim.
  destruct (trimStart_split s) as [ws1 [H1 B1]].
  destruct (trimEnd_split (JS.trimStart s)) as [ws2 [H2 B2]].
  rewrite H1 at 2. rewrite token_starts_blank_app by exact B1.
  rewrite H2 at 2. rewrite token_starts_app_blank by exact B2. reflexivity.
Qed.

Lemma token_starts_sep (b : bool) (x y : list N) (c : N) :
  JS.isWhiteSpace c = true ->
  Spec.token_starts b (x ++ c :: y)
  = (Spec.token_starts b x + Spec.token_starts true y)%nat.
Proof.
  intros Hc. revert b. induction x as [|d x IH]; intros b.
  - simpl. rewrite Hc, andb_false_r. reflexivity.
  - simpl. rewrite IH. lia.
Qed.

Lemma token_count_join (xs : list (list N)) :
  Spec.token_count (JS.join (JS.lit " ") xs) = list_sum (map Spec.token_count xs).
Proof.
  unfold Spec.token_count.
  induction xs as [|x [|y xs] IH]; [reflexivity|simpl; lia|].
  change (JS.join (JS.lit " ") (x :: y :: xs))
    with (x ++ 32%N :: JS.join (JS.lit " ") (y :: xs)).
  rewrite token_starts_sep by reflexivity. rewrite IH. reflexivity.
Qed.
End Tokens.

(** X1. The store's computed [totalWords] is always the [wordCount] that
    [calculateMetrics] reports for the same results. *)
Theorem totalWords_wordCount (state : Model.t) :
  Model.totalWords state
  = TranscriptionMetrics.wordCount (Service.calculateMetrics (Model.results state)).
Proof.
  unfold Model.totalWords.
  change (length (List.filter JS.nonEmpty (JS.split_ws (Model.finalText state))))
    with (Service.words (Model.finalText state)).
  rewrite words_token_count. unfold Model.finalText.
  rewrite token_count_trim, token_count_join, map_map.
  unfold Service.calculateMetrics. cbv zeta.
  destruct (List.filter TranscriptionResult.isFinal (Model.results state)) as [|r rs];
    [reflexivity|].
  cbn [length Nat.eqb TranscriptionMetrics.wordCount].
  rewrite wordCount_fold. reflexivity.
Qed.

(** X2. [countWords] of [src/utils] counts the white-space-delimited
    tokens of the text; its [trim()] changes nothing, so it agrees with
    the word count the services use, and a text of white space only has
    no word. *)
Theorem countWords_tokens (text : list N) :
  Utils.countWords text = Spec.token_count text
  /\ Utils.countWords text = Service.words text
  /\ (Measure.blank text = true -> Utils.countWords text = 0%nat).
Proof.
  assert (H : Utils.countWords text = Spec.token_count text).
  { unfold Utils.countWords.
    change (length (List.filter JS.nonEmpty (JS.split_ws (JS.trim text))))
      with (Service.words (JS.trim text)).
    rewrite words_token_count. apply token_count_trim. }
  split; [exact H|]. split.
  - rewrite H, words_token_count. reflexivity.
  - intros Hb. rewrite H. apply token_starts_blank, Hb.
Qed.

(** The theorem on a tab and two spaces. *)
Lemma countWords_tokens_witness : Utils.countWords [9%N; 32%N; 32%N] = 0%nat.
Proof. apply (countWords_tokens [9%N; 32%N; 32%N]). reflexivity. Defined.

(** ** The store over runs of actions *)

Section StoreRuns.
Import TranscriptionResult.

Lemma trim_trimmed (s : list N) : Measure.trimmed (JS.trim s).
Proof.
  unfold Measure.trimmed, JS.trim. split.
  - destruct (trimEnd_split (JS.trimStart s)) as [ws [Hs _]].
    pose proof (trimStart_head s) as Hh.
    destruct (JS.trimEnd (JS.trimStart s)) as [|c u]; [exact I|].
    rewrite Hs in Hh. exact Hh.
  - unfold JS.trimEnd. rewrite rev_involutive. apply trimStart_head.
Qed.

Lemma trimmed_trim (s : list N) : Measure.trimmed s -> JS.trim s = s.
Proof.
  intros [Hh Ht]. unfold JS.trim, JS.trimEnd.
  rewrite (trimStart_fixed s Hh), (trimStart_fixed (rev s) Ht).
  apply rev_involutive.
Qed.

Lemma apply_results (a : Dispatch.Action) (state : Model.t) :
  Model.results (Dispatch.apply a state)
  = if Dispatch.clears a then []
    else Model.results state ++ Dispatch.added [a].
Proof. destruct a; simpl; rewrite ?app_nil_r; reflexivity. Qed.

Lemma run_results (acts : list Dispatch.Action) (state : Model.t) :
  forallb (fun a => negb (Dispatch.clears a)) acts = true ->
  Model.results (Dispatch.run acts state) = Model.results state ++ Dispatch.added acts.
Proof.
  revert state. induction acts as [|a acts IH]; intros state H.
  - simpl. rewrite app_nil_r. reflexivity.
  - simpl in H. apply andb_true_iff in H as [Ha H].
    change (Dispatch.run (a :: acts) state)
      with (Dispatch.run acts (Dispatch.apply a state)).
    rewrite IH by exact H. rewrite apply_results.
    apply negb_true_iff in Ha. rewrite Ha.
    assert (Hadd : Dispatch.added (a :: acts) = Dispatch.added [a] ++ Dispatch.added acts).
    { unfold Dispatch.added. simpl. rewrite app_nil_r. reflexivity. }
    rewrite Hadd, app_assoc. reflexivity.
Qed.
End StoreRuns.

(** X3. The computed [finalText] of a store module never starts or ends
    with white space, trimming it again changes nothing, and the
    displayed text right after a final result is added has the same
    property. *)
Theorem finalText_trimmed (state : Model.t) (payload : TranscriptionResult.t) :
  Measure.trimmed (Model.finalText state)
  /\ JS.trim (Model.finalText state) = Model.finalText state
  /\ (TranscriptionResult.isFinal payload = true ->
      Measure.trimmed (Model.text (Model.addResult state payload))).
Proof.
  split; [apply trim_trimmed|]. split; [apply trimmed_trim, trim_trimmed|].
  intros H. unfold Model.addResult. cbn [Model.text]. rewrite H. apply trim_trimmed.
Qed.

(** The theorem on the store holding the untrimmed final text " hi",
    when "the quick" is added as final. *)
Lemma finalText_trimmed_witness :
  Measure.trimmed (Model.text (Model.addResult Ex.store_with_hi Ex.final_quick)).
Proof. apply (finalText_trimmed Ex.store_with_hi Ex.final_quick). reflexivity. Defined.

(** X4. The results of a store module are append-only between two
    clearing actions: a run of actions without [clearResults] and [reset]
    leaves the earlier results in place and appends the payloads of its
    [addResult] actions in order; after a clearing action the results are
    exactly the payloads added since. *)
Theorem store_results_append_only (state : Model.t) (c : Dispatch.Action)
    (before after : list Dispatch.Action) :
  (forallb (fun a => negb (Dispatch.clears a)) after = true ->
   Model.results (Dispatch.run after state)
   = Model.results state ++ Dispatch.added after)
  /\ (Dispatch.clears c = true ->
      forallb (fun a => negb (Dispatch.clears a)) after = true ->
      Model.results (Dispatch.run (before ++ c :: after) state) = Dispatch.added after).
Proof.
  split; [apply run_results|].
  intros Hc Ha. unfold Dispatch.run. rewrite fold_left_app. simpl.
  fold (Dispatch.run after
          (Dispatch.apply c (fold_left (fun st a => Dispatch.apply a st) before state))).
  rewrite run_results by exact Ha. rewrite apply_results, Hc. reflexivity.
Qed.

(** The theorem on a run that adds an interim result, resets, and then
    adds two final results around a status change. *)
Lemma store_results_append_only_witness :
  Model.results
    (Dispatch.run
       ([Dispatch.addResult Ex.interim_hello] ++ Dispatch.reset
          :: [Dispatch.addResult Ex.final_quick; Dispatch.setConnectionStatus connected;
              Dispatch.addResult Ex.final_fox])
       Ex.store_with_hi)
  = [Ex.final_quick; Ex.final_fox].
Proof.
  apply (store_results_append_only Ex.store_with_hi Dispatch.reset
           [Dispatch.addResult Ex.interim_hello]
           [Dispatch.addResult Ex.final_quick; Dispatch.setConnectionStatus connected;
            Dispatch.addResult Ex.final_fox]); reflexivity.
Defined.

(** ** [src/utils] *)

Section UtilsFacts.

Lemma row_of_unsupported (code : list N)
    (table : list (string * (string * string * string))) :
  ~ In code (map (fun e => JS.lit (fst e)) table) -> Utils.row_of code table = None.
Proof.
  induction table as [|[k row] table IH]; intros H; [reflexivity|].
  simpl. destruct (decide (JS.lit k = code)) as [E|_].
  - exfalso. apply H. left. exact E.
  - apply IH. intros Hin. apply H. right. exact Hin.
Qed.

Lemma verbum_map_unsupported (code : list N) :
  ~ In code Utils.supported -> VerbumService.mapLanguageCode code = JS.lit "en-US".
Proof.
  intros H. unfold VerbumService.mapLanguageCode.
  destruct (existsb _ _) eqn:E; [|reflexivity].
  exfalso. apply existsb_exists in E as [c [Hin Hc]].
  destruct (decide (c = code)) as [->|]; [|discriminate]. apply H, Hin.
Qed.

(** [s.substring(0, e)] is the prefix of [e] code units. *)
Lemma substring_prefix (s : list N) (e : Z) :
  Utils.substring s 0 e = firstn (Z.to_nat e) s.
Proof.
  unfold Utils.substring.
  set (len := Z.of_nat (length s)).
  replace (Z.min (Z.min (Z.max 0 0) len) (Z.min (Z.max e 0) len)) with 0 by lia.
  replace (Z.max (Z.min (Z.max 0 0) len) (Z.min (Z.max e 0) len) - 0)
    with (Z.min (Z.max e 0) len) by lia.
  change (skipn (Z.to_nat 0) s) with s.
  destruct (Z_le_gt_dec e len) as [Hle|Hgt].
  - f_equal. lia.
  - rewrite !firstn_all2; [reflexivity| |]; unfold len in *; lia.
Qed.

Lemma supported_cases (code : list N) (P : list N -> Prop) :
  Forall P Utils.supported -> In code Utils.supported -> P code.
Proof. intros HF Hin. rewrite Forall_forall in HF. apply HF, list_elem_of_In, Hin. Qed.
End UtilsFacts.

(** X5. [mapLanguageCode] of [src/utils] never fails: a code that is not
    a key of the table maps to ['en-US'] for every service; each of the
    nine supported codes maps to itself for [verbum] and [webspeech]; the
    function agrees with the mapping [VerbumService] uses to open its
    socket; and mapping a code that was already mapped for [verbum] gives
    the same answer as mapping the original. *)
Theorem mapLanguageCode_defaults (code : list N) (service : Utils.ServiceName) :
  Utils.mapLanguageCode code Utils.verbum = VerbumService.mapLanguageCode code
  /\ (~ In code Utils.supported -> Utils.mapLanguageCode code service = JS.lit "en-US")
  /\ (In code Utils.supported ->
      Utils.mapLanguageCode code Utils.verbum = code
      /\ Utils.mapLanguageCode code Utils.webspeech = code)
  /\ Utils.mapLanguageCode (Utils.mapLanguageCode code Utils.verbum) service
     = Utils.mapLanguageCode code service.
Proof.
  assert (Hun : forall sv, ~ In code Utils.supported ->
                           Utils.mapLanguageCode code sv = JS.lit "en-US").
  { intros sv H. unfold Utils.mapLanguageCode.
    rewrite (row_of_unsupported _ _ H). destruct sv; reflexivity. }
  assert (Hsup : In code Utils.supported ->
                 Utils.mapLanguageCode code Utils.verbum = code
                 /\ Utils.mapLanguageCode code Utils.webspeech = code
                 /\ VerbumService.mapLanguageCode code = code).
  { apply (supported_cases code
             (fun c => Utils.mapLanguageCode c Utils.verbum = c
                       /\ Utils.mapLanguageCode c Utils.webspeech = c
                       /\ VerbumService.mapLanguageCode c = c)).
    repeat constructor. }
  destruct (in_dec (fun x y : list N => decide (x = y)) code Utils.supported)
    as [Hin|Hout].
  - destruct (Hsup Hin) as (Hv & Hw & Hs).
    split; [congruence|]. split; [contradiction|]. split; [tauto|].
    rewrite Hv. reflexivity.
  - split; [rewrite (Hun _ Hout), (verbum_map_unsupported _ Hout); reflexivity|].
    split; [intros _; apply Hun, Hout|]. split; [contradiction|].
    rewrite !Hun by exact Hout. destruct service; reflexivity.
Qed.

(** The theorem on the unsupported code "pt-BR" and on "ja-JP". *)
Lemma mapLanguageCode_defaults_witness :
  Utils.mapLanguageCode (JS.lit "pt-BR") Utils.deepgram = JS.lit "en-US"
  /\ Utils.mapLanguageCode (JS.lit "ja-JP") Utils.verbum = JS.lit "ja-JP".
Proof.
  split.
  - apply (proj1 (proj2 (mapLanguageCode_defaults (JS.lit "pt-BR") Utils.deepgram))).
    vm_compute. intuition discriminate.
  - apply (proj1 (proj2 (proj2
             (mapLanguageCode_defaults (JS.lit "ja-JP") Utils.verbum)))).
    vm_compute. tauto.
Defined.

(** X6. [truncateText] returns a text that fits as it is.  A longer text
    is cut to [maxLength - 3] code units followed by "...", which makes
    exactly [maxLength] code units when [maxLength] is at least 3; for a
    smaller [maxLength] the result is "..." alone, three code units long
    and so longer than asked for. *)
Theorem truncateText_length (text : list N) (maxLength : Z) :
  (Z.of_nat (length text) <= maxLength -> Utils.truncateText text maxLength = text)
  /\ (maxLength < Z.of_nat (length text) -> 3 <= maxLength ->
      Utils.truncateText text maxLength
      = firstn (Z.to_nat (maxLength - 3)) text ++ JS.lit "..."
      /\ Z.of_nat (length (Utils.truncateText text maxLength)) = maxLength)
  /\ (maxLength < Z.of_nat (length text) -> maxLength < 3 ->
      Utils.truncateText text maxLength = JS.lit "...").
Proof.
  unfold Utils.truncateText. rewrite substring_prefix.
  split; [|split].
  - intros H. apply Z.leb_le in H. rewrite H. reflexivity.
  - intros H1 H2. apply Z.leb_gt in H1 as H1'. rewrite H1'.
    split; [reflexivity|].
    rewrite length_app, length_firstn. simpl length. lia.
  - intros H1 H2. apply Z.leb_gt in H1 as H1'. rewrite H1'.
    replace (Z.to_nat (maxLength - 3)) with 0%nat by lia. reflexivity.
Qed.

(** The theorem on "the quick" cut to 6, to 2 and to 20 code units. *)
Lemma truncateText_length_witness :
  Utils.truncateText (JS.lit "the quick") 6 = JS.lit "the..."
  /\ Utils.truncateText (JS.lit "the quick") 2 = JS.lit "..."
  /\ Utils.truncateText (JS.lit "the quick") 20 = JS.lit "the quick".
Proof.
  pose proof (truncateText_length (JS.lit "the quick") 6) as (_ & H6 & _).
  pose proof (truncateText_length (JS.lit "the quick") 2) as (_ & _ & H2).
  pose proof (truncateText_length (JS.lit "the quick") 20) as (H20 & _).
  split; [|split].
  - rewrite (proj1 (H6 ltac:(simpl; lia) ltac:(lia))). reflexivity.
  - apply H2; simpl; lia.
  - apply H20. simpl. lia.
Defined.

(** ** Averages and metrics *)

Section Averages.
Import TranscriptionResult.

(** A running sum of numbers that lie between two integers stays between
    the corresponding multiples of the integers, as long as these are
    below [2 ^ 53] in magnitude and hence doubles. *)
Lemma fold_add_int_bounds (lo hi : Z) (xs : list Q) :
  Forall (fun x => inject_Z lo <= x /\ x <= inject_Z hi)%Q xs ->
  forall (k : Z) (acc : Q),
    0 <= k ->
    (k + Z.of_nat (length xs)) * Z.max (Z.abs lo) (Z.abs hi) <= 2 ^ 53 ->
    (inject_Z (k * lo) <= acc /\ acc <= inject_Z (k * hi))%Q ->
    (inject_Z ((k + Z.of_nat (length xs)) * lo) <= fold_left Double.add xs acc
     /\ fold_left Double.add xs acc <= inject_Z ((k + Z.of_nat (length xs)) * hi))%Q.
Proof.
  induction 1 as [|x xs [Hlo Hhi] _ IH]; intros k acc Hk Hb [Ha1 Ha2].
  - cbn [length fold_left]. rewrite Z.add_0_r. split; assumption.
  - cbn [fold_left length] in *. rewrite Nat2Z.inj_succ in *.
    replace (k + Z.succ (Z.of_nat (length xs))) with (k + 1 + Z.of_nat (length xs)) in * by lia.
    apply IH; [lia|exact Hb|].
    assert (Hn : 0 <= Z.of_nat (length xs)) by lia.
    assert (B1 : Z.abs ((k + 1) * lo) <= 2 ^ 53) by nia.
    assert (B2 : Z.abs ((k + 1) * hi) <= 2 ^ 53) by nia.
    unfold Double.add. split.
    + rewrite <- (of_Z_exact _ B1). apply rnd_mono.
      replace ((k + 1) * lo) with (k * lo + lo) by ring. rewrite inject_Z_plus. lra.
    + rewrite <- (of_Z_exact _ B2). apply rnd_mono.
      replace ((k + 1) * hi) with (k * hi + hi) by ring. rewrite inject_Z_plus. lra.
Qed.

(** A running sum of numbers between 0 and 1 is at most their count and
    at most [2 ^ 53], where it stops growing. *)
Lemma fold_add_unit_bounds (xs : list Q) :
  Forall (fun x => 0 <= x /\ x <= 1)%Q xs ->
  forall (k : Z) (acc : Q),
    0 <= k ->
    (0 <= acc /\ acc <= inject_Z (Z.min k (2 ^ 53)))%Q ->
    (0 <= fold_left Double.add xs acc
     /\ fold_left Double.add xs acc
        <= inject_Z (Z.min (k + Z.of_nat (length xs)) (2 ^ 53)))%Q.
Proof.
  induction 1 as [|x xs [Hlo Hhi] _ IH]; intros k acc Hk [Ha1 Ha2].
  - cbn [length fold_left]. rewrite Z.add_0_r. split; assumption.
  - cbn [fold_left length]. rewrite Nat2Z.inj_succ.
    replace (k + Z.succ (Z.of_nat (length xs))) with (k + 1 + Z.of_nat (length xs)) by lia.
    apply IH; [lia|]. split; [apply add_nonneg; assumption|].
    unfold Double.add. destruct (Z.le_gt_cases (k + 1) (2 ^ 53)) as [Hs|Hs].
    + rewrite Z.min_l in Ha2 by lia. rewrite Z.min_l by exact Hs.
      rewrite <- (of_Z_exact (k + 1)) by lia. apply rnd_mono.
      rewrite inject_Z_plus. change (inject_Z 1) with 1%Q. lra.
    + rewrite Z.min_r in Ha2 by lia. rewrite Z.min_r by lia.
      apply Qle_trans with (Double.rnd (inject_Z (2 ^ 53) + 1)).
      * apply rnd_mono. lra.
      * vm_compute. discriminate.
Qed.

Lemma count_le_of_nat (n : nat) : (inject_Z (Z.min (Z.of_nat n) (2 ^ 53)) <= Double.of_nat n)%Q.
Proof.
  destruct (Z.le_gt_cases (Z.of_nat n) (2 ^ 53)) as [H|H].
  - rewrite Z.min_l by exact H. rewrite of_nat_exact by exact H. apply Qle_refl.
  - rewrite Z.min_r by lia. rewrite <- (of_Z_exact (2 ^ 53)) by reflexivity.
    apply rnd_mono. rewrite <- Zle_Qle. lia.
Qed.

Lemma filter_filter_same {A} (f : A -> bool) (l : list A) :
  List.filter f (List.filter f l) = List.filter f l.
Proof.
  induction l as [|x l IH]; [reflexivity|].
  simpl. destruct (f x) eqn:E; [simpl; rewrite E, IH|]; auto.
Qed.

Lemma present_confidences_bounds (rs : list TranscriptionResult.t) :
  (forall r c, In r rs -> confidence r = Some c -> (0 <= c /\ c <= 1)%Q) ->
  Forall (fun x => 0 <= x /\ x <= 1)%Q (Spec.present_confidences rs).
Proof.
  induction rs as [|r rs IH]; intros H; [constructor|].
  unfold Spec.present_confidences. simpl.
  destruct (confidence r) as [c|] eqn:E.
  - constructor; [apply (H r c); [left; reflexivity|exact E]|].
    apply IH. intros r' c' Hin. apply H. right. exact Hin.
  - apply IH. intros r' c' Hin. apply H. right. exact Hin.
Qed.

Lemma no_latency_no_positive (rs : list TranscriptionResult.t) :
  Forall (fun r => latency r = None) rs -> Spec.positive_latencies rs = [].
Proof.
  induction 1 as [|r rs Hr _ IH]; [reflexivity|].
  unfold Spec.positive_latencies. simpl. rewrite Hr. exact IH.
Qed.

Lemma Forall_filter_keep {A} (P : A -> Prop) (f : A -> bool) (l : list A) :
  Forall P l -> Forall P (List.filter f l).
Proof.
  induction 1 as [|x l Hx _ IH]; [constructor|].
  simpl. destruct (f x); [constructor; assumption|assumption].
Qed.

Lemma latency_metric_without_positive (rs : list TranscriptionResult.t) :
  Spec.positive_latencies (List.filter isFinal rs) = [] ->
  TranscriptionMetrics.latency (Service.calculateMetrics rs) = 0.
Proof.
  intros H. unfold Service.calculateMetrics. cbv zeta.
  rewrite latencies_positive, H.
  destruct (length (List.filter isFinal rs) =? 0)%nat; reflexivity.
Qed.
End Averages.

(** X7. [calculateAverage] of [src/utils] is 0 on the empty array; on a
    non-empty array it is the mean computed in double precision, and it
    lies between any two integers that bound the numbers, as long as
    the count, and the count times the larger bound, do not exceed
    [2 ^ 53]. *)
Theorem calculateAverage_bounds (numbers : list Q) (lo hi : Z) :
  Utils.calculateAverage [] = 0%Q
  /\ (numbers <> [] ->
      Utils.calculateAverage numbers = Spec.mean_double numbers
      /\ (Forall (fun x => inject_Z lo <= x /\ x <= inject_Z hi)%Q numbers ->
          Z.of_nat (length numbers) * Z.max 1 (Z.max (Z.abs lo) (Z.abs hi)) <= 2 ^ 53 ->
          (inject_Z lo <= Utils.calculateAverage numbers
           /\ Utils.calculateAverage numbers <= inject_Z hi)%Q)).
Proof.
  split; [reflexivity|]. intros Hne.
  assert (Hn : (0 < length numbers)%nat) by (destruct numbers; [congruence|simpl; lia]).
  assert (H : Utils.calculateAverage numbers = Spec.mean_double numbers).
  { unfold Utils.calculateAverage. destruct numbers; [congruence|reflexivity]. }
  split; [exact H|]. intros HF Hb. rewrite H. unfold Spec.mean_double, Double.div.
  assert (Hm : Z.max (Z.abs lo) (Z.abs hi) <= Z.max 1 (Z.max (Z.abs lo) (Z.abs hi)))
    by lia.
  assert (Hm1 : 1 <= Z.max 1 (Z.max (Z.abs lo) (Z.abs hi))) by lia.
  assert (Hz : 0 <= Z.of_nat (length numbers)) by lia.
  set (B := Z.max 1 (Z.max (Z.abs lo) (Z.abs hi))) in *.
  destruct (fold_add_int_bounds lo hi numbers HF 0 0%Q) as [Hlo Hhi];
    [lia|nia|split; apply Qle_refl|].
  rewrite Z.add_0_l in Hlo, Hhi. fold (Double.sum numbers) in Hlo, Hhi.
  assert (Hc : (Double.of_nat (length numbers) == inject_Z (Z.of_nat (length numbers)))%Q).
  { apply of_nat_exact. nia. }
  assert (Hpos : (0 < inject_Z (Z.of_nat (length numbers)))%Q).
  { rewrite <- (Zlt_Qlt 0). lia. }
  rewrite inject_Z_mult in Hlo, Hhi.
  split.
  - rewrite <- (of_Z_exact lo) by nia. apply rnd_mono.
    apply Qle_shift_div_l; rewrite Hc; [exact Hpos|]. lra.
  - rewrite <- (of_Z_exact hi) by nia. apply rnd_mono.
    apply Qle_shift_div_r; rewrite Hc; [exact Hpos|]. lra.
Qed.

(** The theorem on the numbers 120 and 81. *)
Lemma calculateAverage_bounds_witness :
  (81 <= Utils.calculateAverage [120; 81] /\ Utils.calculateAverage [120; 81] <= 120)%Q.
Proof.
  apply (calculateAverage_bounds [120%Q; 81%Q] 81 120); [discriminate| |vm_compute; discriminate].
  repeat constructor; discriminate.
Defined.

(** Bounds that are not integers do not carry over: the average of three
    times the double 0.1 is the double 0.10000000000000002, above each
    of the numbers. *)
Example calculateAverage_above_its_inputs :
  let x := Double.lit (1 # 10) in
  (x < Utils.calculateAverage [x; x; x])%Q
  /\ Utils.calculateAverage [x; x; x] = Double.lit (10000000000000002 # 100000000000000000).
Proof. split; vm_compute; reflexivity. Qed.

(** X8. Interim results never influence the metrics: [calculateMetrics]
    gives the same answer on a result list and on its final results
    alone, so an interim result inserted anywhere changes nothing. *)
Theorem calculateMetrics_ignores_interim
    (before after : list TranscriptionResult.t) (r : TranscriptionResult.t) :
  Service.calculateMetrics (before ++ after)
  = Service.calculateMetrics (List.filter TranscriptionResult.isFinal (before ++ after))
  /\ (TranscriptionResult.isFinal r = false ->
      Service.calculateMetrics (before ++ r :: after)
      = Service.calculateMetrics (before ++ after)).
Proof.
  split.
  - unfold Service.calculateMetrics. cbv zeta. rewrite filter_filter_same. reflexivity.
  - intros H. unfold Service.calculateMetrics. cbv zeta.
    rewrite !List.filter_app. simpl. rewrite H. reflexivity.
Qed.

(** The theorem on an interim result between the two final results of
    [Ex]. *)
Lemma calculateMetrics_ignores_interim_witness :
  Service.calculateMetrics [Ex.final_quick; Ex.interim_hello; Ex.final_fox]
  = Service.calculateMetrics [Ex.final_quick; Ex.final_fox].
Proof.
  apply (calculateMetrics_ignores_interim [Ex.final_quick] [Ex.final_fox]
           Ex.interim_hello).
  reflexivity.
Defined.

(** X9. When every confidence carried by a final result lies between 0
    and 1, the [accuracy] reported by [calculateMetrics] lies between 0
    and 100. *)
Theorem accuracy_range (results : list TranscriptionResult.t) :
  (forall r c, In r results -> TranscriptionResult.isFinal r = true ->
               TranscriptionResult.confidence r = Some c -> (0 <= c /\ c <= 1)%Q) ->
  (0 <= TranscriptionMetrics.accuracy (Service.calculateMetrics results)
   /\ TranscriptionMetrics.accuracy (Service.calculateMetrics results) <= 100)%Q.
Proof.
  intros H. unfold Service.calculateMetrics. cbv zeta.
  rewrite confidences_present.
  set (finals := List.filter TranscriptionResult.isFinal results).
  assert (HF : Forall (fun x => 0 <= x /\ x <= 1)%Q (Spec.present_confidences finals)).
  { apply present_confidences_bounds. intros r c Hin Hc.
    apply List.filter_In in Hin as [Hin Hfin]. exact (H r c Hin Hfin Hc). }
  destruct (length finals =? 0)%nat; [simpl; split; discriminate|].
  cbn [TranscriptionMetrics.accuracy].
  destruct (0 <? length (Spec.present_confidences finals))%nat eqn:E;
    [|split; vm_compute; discriminate].
  apply Nat.ltb_lt in E.
  set (confs := Spec.present_confidences finals) in *.
  destruct (fold_add_unit_bounds confs HF 0 0%Q) as [Hs0 Hs1];
    [lia|split; [apply Qle_refl|discriminate]|].
  rewrite Z.add_0_l in Hs1.
  change (fold_left Double.add confs 0%Q) with (JS.sum confs) in Hs0, Hs1.
  pose proof (count_le_of_nat (length confs)) as Hcnt.
  pose proof (of_nat_pos (length confs) E) as Hn1.
  set (s := JS.sum confs) in *. set (n := Double.of_nat (length confs)) in *.
  assert (Hq : (0 <= Double.div s n /\ Double.div s n <= 1)%Q).
  { unfold Double.div. split.
    - apply rnd_nonneg. apply Qle_shift_div_l; lra.
    - apply Qle_trans with (Double.rnd 1); [|vm_compute; discriminate].
      apply rnd_mono. apply Qle_shift_div_r; lra. }
  set (q := Double.div s n) in *.
  assert (Ha : (0 <= Double.mul q 100 /\ Double.mul q 100 <= 100)%Q).
  { unfold Double.mul. split.
    - apply rnd_nonneg. lra.
    - apply Qle_trans with (Double.rnd 100); [apply rnd_mono; lra|vm_compute; discriminate]. }
  set (a := Double.mul q 100) in *.
  assert (Hb : (0 <= Double.mul a 10 /\ Double.mul a 10 <= 1000)%Q).
  { unfold Double.mul. split.
    - apply rnd_nonneg. lra.
    - apply Qle_trans with (Double.rnd 1000); [apply rnd_mono; lra|vm_compute; discriminate]. }
  set (b := Double.mul a 10) in *.
  assert (H0 : 0 <= JS.Math_round b).
  { change 0 with (Qfloor (0 + (1 # 2))). apply Qfloor_resp_le. lra. }
  assert (H1 : JS.Math_round b <= 1000).
  { change 1000 with (Qfloor (1000 + (1 # 2))). apply Qfloor_resp_le. lra. }
  rewrite Zle_Qle in H0, H1.
  set (k := inject_Z (JS.Math_round b)) in *.
  change (inject_Z 0) with 0%Q in H0. change (inject_Z 1000) with 1000%Q in H1.
  unfold Double.div. split.
  - apply rnd_nonneg. apply Qle_shift_div_l; [reflexivity|]. lra.
  - apply Qle_trans with (Double.rnd 100); [|vm_compute; discriminate].
    apply rnd_mono. apply Qle_shift_div_r; [reflexivity|]. lra.
Qed.

(** The theorem on the two final results of [Ex]. *)
Lemma accuracy_range_witness :
  (TranscriptionMetrics.accuracy
     (Service.calculateMetrics [Ex.final_quick; Ex.final_fox]) <= 100)%Q.
Proof.
  apply (accuracy_range [Ex.final_quick; Ex.final_fox]).
  intros r c [<-|[<-|[]]] _ Hc; injection Hc as <-; split; discriminate.
Defined.

(** ** The Web Speech fallback *)

Section Fallback.
Import TranscriptionResult.

Lemma webSpeech_results (now : Z) (transcript : list N) (conf : Q) (final : bool)
    (w : VerbumService.world) :
  VerbumService.results
    (VerbumService.svc (fst (VerbumService.webSpeech_onresult now transcript conf final w)))
  = VerbumService.results (VerbumService.svc w)
    ++ [TranscriptionResult.mk transcript now
          (Some (if Qeq_bool conf 0 then Double.lit (85 # 100) else conf)) final None].
Proof.
  unfold VerbumService.webSpeech_onresult.
  destruct (JS.truthy (JS.trim transcript)); [|reflexivity].
  destruct (VerbumService.onTranscription (VerbumService.svc w)) as [[|]|]; reflexivity.
Qed.

Lemma webSpeech_run_no_latency (es : list VerbumSession.Event) (w : VerbumService.world) :
  VerbumSession.webSpeechOnly es ->
  Forall (fun r => latency r = None) (VerbumService.results (VerbumService.svc w)) ->
  Forall (fun r => latency r = None)
    (VerbumService.results (VerbumService.svc (VerbumSession.run es w))).
Proof.
  intros Hes. revert w. induction Hes as [|e es He _ IH]; intros w Hw; [exact Hw|].
  change (VerbumSession.run (e :: es) w)
    with (VerbumSession.run es (VerbumSession.step e w)).
  apply IH. destruct e; try contradiction.
  unfold VerbumSession.step. rewrite webSpeech_results.
  apply Forall_app. split; [exact Hw|]. constructor; [reflexivity|constructor].
Qed.

Lemma verbum_stop_publishes (w : VerbumService.world) :
  VerbumService.results (VerbumService.svc w) <> [] ->
  Model.metrics
    (StoreModel.verbum (VerbumService.store (fst (VerbumService.stopTranscription w))))
  = Service.calculateMetrics (VerbumService.results (VerbumService.svc w)).
Proof.
  intros H. destruct w as [s [dg vb]]. destruct vb as [txt srs m act cs].
  unfold VerbumService.stopTranscription.
  cbn [VerbumService.svc VerbumService.store] in *.
  destruct (VerbumService.mediaRecorder s) as [[| |]|];
    destruct (VerbumService.results s) as [|r rs]; try congruence;
    cbn -[Service.calculateMetrics TranscriptionMetrics.spread];
    apply spread_to_obj.
Qed.
End Fallback.

(** X10. A Verbum session that only ever received results from the Web
    Speech fallback stores no latency with any result, so the latency
    metric of its results is 0, and that is what [stopTranscription]
    publishes when there are results. *)
Theorem webSpeech_session_latency_zero (es : list VerbumSession.Event)
    (w : VerbumService.world) :
  VerbumSession.webSpeechOnly es ->
  VerbumService.results (VerbumService.svc w) = [] ->
  let w' := VerbumSession.run es w in
  Forall (fun r => TranscriptionResult.latency r = None)
    (VerbumService.results (VerbumService.svc w'))
  /\ TranscriptionMetrics.latency
       (Service.calculateMetrics (VerbumService.results (VerbumService.svc w'))) = 0
  /\ (VerbumService.results (VerbumService.svc w') <> [] ->
      TranscriptionMetrics.latency
        (Model.metrics
           (StoreModel.verbum
              (VerbumService.store (fst (VerbumService.stopTranscription w'))))) = 0).
Proof.
  intros Hes Hw. cbv zeta.
  assert (HF : Forall (fun r => TranscriptionResult.latency r = None)
                 (VerbumService.results (VerbumService.svc (VerbumSession.run es w)))).
  { apply webSpeech_run_no_latency; [exact Hes|]. rewrite Hw. constructor. }
  assert (HL : TranscriptionMetrics.latency
                 (Service.calculateMetrics
                    (VerbumService.results
                       (VerbumService.svc (VerbumSession.run es w)))) = 0).
  { apply latency_metric_without_positive, no_latency_no_positive.
    apply Forall_filter_keep, HF. }
  split; [exact HF|]. split; [exact HL|].
  intros Hne. rewrite (verbum_stop_publishes _ Hne). exact HL.
Qed.

(** The theorem on a fresh service that receives the final " hi" and the
    interim "x" from the fallback. *)
Lemma webSpeech_session_latency_zero_witness :
  TranscriptionMetrics.latency
    (Model.metrics
       (StoreModel.verbum
          (VerbumService.store
             (fst (VerbumService.stopTranscription
                     (VerbumSession.run
                        [VerbumSession.ev_webSpeech 1000 (JS.lit " hi") (Double.lit (9 # 10)) true;
                         VerbumSession.ev_webSpeech 1100 (JS.lit "x") 0 false]
                        (VerbumSession.fresh StoreModel.initial))))))) = 0.
Proof.
  apply (webSpeech_session_latency_zero
           [VerbumSession.ev_webSpeech 1000 (JS.lit " hi") (Double.lit (9 # 10)) true;
            VerbumSession.ev_webSpeech 1100 (JS.lit "x") 0 false]
           (VerbumSession.fresh StoreModel.initial)).
  - repeat constructor.
  - reflexivity.
  - vm_compute. discriminate.
Defined.

(** ** Float samples *)

Section FloatSamples.

Lemma toInt16_range (v : Q) :
  (-32768 <= v)%Q -> (v <= 32767)%Q ->
  -32768 <= DeepgramService.toInt16 v <= 32767.
Proof.
  intros Hlo Hhi. unfold DeepgramService.toInt16.
  destruct (Qle_bool 0 v) eqn:E.
  - apply Qle_bool_iff in E. split.
    + transitivity (Qfloor 0); [discriminate|]. apply Qfloor_resp_le, E.
    + change 32767 with (Qfloor 32767). apply Qfloor_resp_le, Hhi.
  - assert (Hneg : (v <= 0)%Q).
    { apply Qlt_le_weak, Qnot_le_lt. intros H. apply Qle_bool_iff in H. congruence. }
    split.
    + change (-32768) with (Qceiling (-32768)). apply Qceiling_resp_le, Hlo.
    + transitivity (Qceiling 0); [|discriminate]. apply Qceiling_resp_le, Hneg.
Qed.

Lemma clamp_range (y : Q) :
  (-32768 <= JS.Math_max (-32768) (DeepgramService.Math_min 32767 y)
   /\ JS.Math_max (-32768) (DeepgramService.Math_min 32767 y) <= 32767)%Q.
Proof.
  unfold JS.Math_max, DeepgramService.Math_min.
  destruct (Qle_bool 32767 y) eqn:E1.
  - simpl. split; discriminate.
  - assert (H1 : (y <= 32767)%Q).
    { apply Qlt_le_weak, Qnot_le_lt. intros H. apply Qle_bool_iff in H. congruence. }
    destruct (Qle_bool (-32768) y) eqn:E2.
    + apply Qle_bool_iff in E2. split; assumption.
    + split; discriminate.
Qed.

Lemma squares_of_silence (xs : list Q) :
  Forall (fun x => x == 0)%Q xs ->
  fold_left (fun sumSquares x => Double.add sumSquares (Double.mul x x)) xs 0%Q = 0%Q.
Proof.
  induction 1 as [|x xs Hx _ IH]; [reflexivity|].
  cbn [fold_left]. rewrite <- IH at 2. f_equal.
  unfold Double.add, Double.mul. apply rnd_zero_eq.
  rewrite (rnd_zero_eq (x * x)) by (rewrite Hx; reflexivity). reflexivity.
Qed.

Lemma squares_of_negated (xs : list Q) (acc : Q) :
  fold_left (fun sumSquares x => Double.add sumSquares (Double.mul x x))
    (map Qopp xs) acc
  = fold_left (fun sumSquares x => Double.add sumSquares (Double.mul x x)) xs acc.
Proof.
  revert acc. induction xs as [|x xs IH]; intros acc; [reflexivity|].
  cbn [map fold_left]. rewrite IH. do 2 f_equal.
  unfold Double.mul. apply rnd_comp. ring.
Qed.
End FloatSamples.

(** X11. [convertFloat32ToPCM16] keeps the number of samples and every
    sample it produces is a 16-bit value: a float in [-1, 32767/32768] is
    scaled by 32768 and cut towards zero, anything above saturates at
    32767 and anything below -1 at -32768. *)
Theorem convertFloat32ToPCM16_range (float32Array : list Q) (x : Q) :
  length (DeepgramService.convertFloat32ToPCM16 float32Array) = length float32Array
  /\ Forall (fun z => -32768 <= z <= 32767)
       (DeepgramService.convertFloat32ToPCM16 float32Array)
  /\ ((32767 # 32768 <= x)%Q -> DeepgramService.convertFloat32ToPCM16 [x] = [32767])
  /\ ((x <= -1)%Q -> DeepgramService.convertFloat32ToPCM16 [x] = [-32768])
  /\ ((-1 <= x)%Q -> (x <= 32767 # 32768)%Q ->
      DeepgramService.convertFloat32ToPCM16 [x]
      = [DeepgramService.toInt16 (x * 32768)]).
Proof.
  unfold DeepgramService.convertFloat32ToPCM16.
  split; [apply length_map|]. split; [|split; [|split]].
  - apply List.Forall_map, List.Forall_forall. intros y _.
    destruct (clamp_range (y * 32768)) as [Hlo Hhi]. apply toInt16_range; assumption.
  - intros H. simpl. f_equal.
    assert (E : Qle_bool 32767 (x * 32768) = true) by (apply Qle_bool_iff; lra).
    unfold DeepgramService.Math_min. rewrite E. reflexivity.
  - intros H. simpl. f_equal.
    assert (E : Qle_bool 32767 (x * 32768) = false).
    { destruct (Qle_bool 32767 (x * 32768)) eqn:E; [|reflexivity].
      apply Qle_bool_iff in E. lra. }
    unfold DeepgramService.Math_min. rewrite E. unfold JS.Math_max.
    destruct (Qle_bool (-32768) (x * 32768)) eqn:E2; [|reflexivity].
    apply Qle_bool_iff in E2.
    assert (Heq : (x * 32768 == -32768)%Q) by lra.
    unfold DeepgramService.toInt16.
    destruct (Qle_bool 0 (x * 32768)) eqn:E3.
    + apply Qle_bool_iff in E3. lra.
    + rewrite (Qceiling_comp _ _ Heq). reflexivity.
  - intros Hlo Hhi. simpl. f_equal.
    unfold DeepgramService.Math_min, JS.Math_max.
    destruct (Qle_bool 32767 (x * 32768)) eqn:E1.
    + apply Qle_bool_iff in E1. assert (Heq : (x * 32768 == 32767)%Q) by lra.
      simpl. unfold DeepgramService.toInt16.
      assert (E0 : Qle_bool 0 (x * 32768) = true) by (apply Qle_bool_iff; lra).
      rewrite E0, (Qfloor_comp _ _ Heq). reflexivity.
    + assert (E2 : Qle_bool (-32768) (x * 32768) = true) by (apply Qle_bool_iff; lra).
      rewrite E2. reflexivity.
Qed.

(** The theorem on the samples 1.5, -2 and 0.25. *)
Lemma convertFloat32ToPCM16_range_witness :
  DeepgramService.convertFloat32ToPCM16 [3 # 2] = [32767]
  /\ DeepgramService.convertFloat32ToPCM16 [(-2)%Q] = [-32768]
  /\ DeepgramService.convertFloat32ToPCM16 [1 # 4]
     = [DeepgramService.toInt16 ((1 # 4) * 32768)].
Proof.
  pose proof (convertFloat32ToPCM16_range [] (3 # 2)) as (_ & _ & H1 & _).
  pose proof (convertFloat32ToPCM16_range [] (-2)) as (_ & _ & _ & H2 & _).
  pose proof (convertFloat32ToPCM16_range [] (1 # 4)) as (_ & _ & _ & _ & H3).
  split; [apply H1; discriminate|]. split; [apply H2; discriminate|].
  apply H3; discriminate.
Defined.

(** X12. [detectAudioActivityFromFloat32] never takes silence for
    speech: on the empty buffer, and on a buffer of any length whose
    samples are all zero, it answers false.  Its answer does not depend
    on the sign of the samples. *)
Theorem detectAudioActivityFromFloat32_silence (float32Array : list Q) :
  DeepgramService.detectAudioActivityFromFloat32 [] = false
  /\ (Forall (fun x => x == 0)%Q float32Array ->
      DeepgramService.detectAudioActivityFromFloat32 float32Array = false)
  /\ DeepgramService.detectAudioActivityFromFloat32 (map Qopp float32Array)
     = DeepgramService.detectAudioActivityFromFloat32 float32Array.
Proof.
  split; [reflexivity|]. split.
  - intros H. unfold DeepgramService.detectAudioActivityFromFloat32. cbv zeta.
    rewrite (squares_of_silence _ H).
    destruct (length float32Array =? 0)%nat; [reflexivity|].
    unfold Double.div.
    rewrite (rnd_zero_eq (0 / Double.of_nat (length float32Array)));
      [reflexivity|].
    unfold Qdiv. apply Qmult_0_l.
  - unfold DeepgramService.detectAudioActivityFromFloat32. cbv zeta.
    rewrite squares_of_negated, length_map. reflexivity.
Qed.

(** The theorem on a buffer of three zero samples. *)
Lemma detectAudioActivityFromFloat32_silence_witness :
  DeepgramService.detectAudioActivityFromFloat32 [0%Q; 0%Q; 0%Q] = false.
Proof.
  apply (proj1 (proj2 (detectAudioActivityFromFloat32_silence [0%Q; 0%Q; 0%Q]))).
  repeat constructor.
Defined.

(** The detector does not decide [rms > 0.01] for the exact root mean
    square.  For these ten samples (each a 24-bit multiple of
    [2 ^ -30], so a float32) the exact mean of the squares is above
    [0.0001], yet the rounded root is the double 0.01 itself and the
    answer is false; the kernel's binary64 operations give the same
    root. *)
Example detectAudioActivityFromFloat32_at_the_threshold :
  let samples :=
    map (fun a => (inject_Z a / inject_Z (2 ^ 30))%Q)
      [10737570; 10738692; 10737371; 10736032; 10736324;
       10737364; 10739813; 10739218; 10727513; 10744278] in
  let sumSquares :=
    fold_left (fun sumSquares x => Double.add sumSquares (Double.mul x x)) samples 0%Q in
  DeepgramService.detectAudioActivityFromFloat32 samples = false
  /\ (1 # 10000 < fold_right (fun x acc => x * x + acc) 0 samples / 10)%Q
  /\ Double.sqrt (Double.div sumSquares 10) = Double.lit (1 # 100)
  /\ Double.of_float
       (PrimFloat.sqrt
          (PrimFloat.div
             (fold_left (fun sumSquares x =>
                           PrimFloat.add sumSquares (PrimFloat.mul x x))
                (map Double.to_float samples) (Double.to_float 0))
             (Double.to_float 10)))
     = Some (Double.lit (1 # 100)).
Proof. cbv zeta. repeat split; vm_compute; reflexivity. Qed.

(** ** The chunk timestamp map *)

Section Timestamps.

Lemma cleanup_lookup_iff (now : Z) (m : gmap nat Z) (k : nat) (t : Z) :
  Service.cleanupOldTimestamps now m !! k = Some t
  <-> m !! k = Some t /\ now - 10000 <= t.
Proof. unfold Service.cleanupOldTimestamps. cbv zeta. apply sweep_lookup. Qed.

Lemma cleanup_keeps_fresh (now : Z) (m : gmap nat Z) (k : nat) :
  Service.cleanupOldTimestamps now (<[k := now]> m) !! k = Some now.
Proof. apply cleanup_lookup_iff. rewrite lookup_insert_eq. split; [reflexivity|lia]. Qed.

Lemma keysBelow_cleanup (now : Z) (n : nat) (m : gmap nat Z) :
  Measure.keysBelow n m -> Measure.keysBelow n (Service.cleanupOldTimestamps now m).
Proof. intros H k t Hk. apply cleanup_lookup_iff in Hk as [Hk _]. exact (H k t Hk). Qed.

Lemma keysBelow_insert (now : Z) (n : nat) (m : gmap nat Z) :
  Measure.keysBelow n m -> Measure.keysBelow (S n) (<[n := now]> m).
Proof.
  intros H k t Hk. apply lookup_insert_Some in Hk as [[<- _]|[_ Hk]]; [lia|].
  specialize (H k t Hk). lia.
Qed.
End Timestamps.

(** X13. Cleaning the timestamp map only removes entries; cleaning twice
    at the same time is the same as cleaning once, and a cleaning at a
    later time makes an earlier one redundant. *)
Theorem cleanupOldTimestamps_compose (earlier later : Z) (m : gmap nat Z) :
  Service.cleanupOldTimestamps later m ⊆ m
  /\ (size (Service.cleanupOldTimestamps later m) <= size m)%nat
  /\ Service.cleanupOldTimestamps later (Service.cleanupOldTimestamps later m)
     = Service.cleanupOldTimestamps later m
  /\ (earlier <= later ->
      Service.cleanupOldTimestamps later (Service.cleanupOldTimestamps earlier m)
      = Service.cleanupOldTimestamps later m).
Proof.
  assert (Hsub : Service.cleanupOldTimestamps later m ⊆ m).
  { apply map_subseteq_spec. intros k t Hk. apply cleanup_lookup_iff in Hk. tauto. }
  assert (Hcomp : forall e, e <= later ->
            Service.cleanupOldTimestamps later (Service.cleanupOldTimestamps e m)
            = Service.cleanupOldTimestamps later m).
  { intros e He. apply map_eq. intros k. apply option_eq. intros t.
    rewrite !cleanup_lookup_iff. intuition lia. }
  split; [exact Hsub|]. split; [apply map_subseteq_size, Hsub|].
  split; [apply Hcomp; lia|apply Hcomp].
Qed.

(** The theorem on a map with chunks of 5 s and 20 s, cleaned at 16 s and
    then at 25 s. *)
Lemma cleanupOldTimestamps_compose_witness :
  Service.cleanupOldTimestamps 25000
    (Service.cleanupOldTimestamps 16000 (<[1%nat := 20000]> (<[0%nat := 5000]> ∅)))
  = Service.cleanupOldTimestamps 25000 (<[1%nat := 20000]> (<[0%nat := 5000]> ∅)).
Proof.
  apply (cleanupOldTimestamps_compose 16000 25000
           (<[1%nat := 20000]> (<[0%nat := 5000]> ∅))).
  lia.
Defined.

(** X14. A chunk that is taken in is stamped under a fresh id and the
    stamp is there afterwards, also when the periodic cleaning runs in
    the same call: [onaudioprocess] of a service that submits, and
    [ondataavailable] on non-empty data, advance [chunkCounter] by one and
    leave the old counter value mapped to [now].  A [DeepgramService]
    that does not submit and a [VerbumService] given empty data change
    nothing. *)
Theorem chunk_is_stamped (now : Z) (inputBuffer : list Q) (size : nat)
    (d : DeepgramService.world) (v : VerbumService.world) :
  (DeepgramService.submits (DeepgramService.svc d) = true ->
   let d' := fst (DeepgramService.onaudioprocess now inputBuffer d) in
   DeepgramService.chunkCounter (DeepgramService.svc d')
   = S (DeepgramService.chunkCounter (DeepgramService.svc d))
   /\ DeepgramService.audioChunkTimestamps (DeepgramService.svc d')
        !! DeepgramService.chunkCounter (DeepgramService.svc d) = Some now)
  /\ (DeepgramService.submits (DeepgramService.svc d) = false ->
      DeepgramService.onaudioprocess now inputBuffer d = (d, []))
  /\ ((0 < size)%nat ->
      let v' := VerbumService.ondataavailable now size v in
      VerbumService.chunkCounter (VerbumService.svc v')
      = S (VerbumService.chunkCounter (VerbumService.svc v))
      /\ VerbumService.audioChunkTimestamps (VerbumService.svc v')
           !! VerbumService.chunkCounter (VerbumService.svc v) = Some now)
  /\ VerbumService.ondataavailable now 0 v = v.
Proof.
  split; [|split; [|split]].
  - unfold DeepgramService.submits, DeepgramService.onaudioprocess.
    destruct (DeepgramService.connection (DeepgramService.svc d)) as [k|];
      [|discriminate].
    intros ->. cbn. split; [reflexivity|].
    match goal with |- context [if ?c then _ else _] => destruct c end;
      [apply cleanup_keeps_fresh|apply lookup_insert_eq].
  - unfold DeepgramService.submits, DeepgramService.onaudioprocess.
    destruct (DeepgramService.connection (DeepgramService.svc d)) as [k|];
      [|reflexivity].
    intros ->. reflexivity.
  - intros H. unfold VerbumService.ondataavailable.
    apply Nat.ltb_lt in H. rewrite H. cbn. split; [reflexivity|].
    match goal with |- context [if ?c then _ else _] => destruct c end;
      [apply cleanup_keeps_fresh|apply lookup_insert_eq].
  - reflexivity.
Qed.

(** The theorem on the streaming Deepgram session of [Ex] (chunk 5) and
    on the streaming Verbum session (chunk 1). *)
Lemma chunk_is_stamped_witness :
  DeepgramService.audioChunkTimestamps
    (DeepgramService.svc
       (fst (DeepgramService.onaudioprocess 2000 [1 # 2; 1 # 2] Ex.deepgram_streaming)))
    !! 5%nat = Some 2000
  /\ VerbumService.audioChunkTimestamps
       (VerbumService.svc (VerbumService.ondataavailable 2000 120 Ex.verbum_streaming))
       !! 1%nat = Some 2000.
Proof.
  pose proof (chunk_is_stamped 2000 [1 # 2; 1 # 2] 120 Ex.deepgram_streaming
                Ex.verbum_streaming) as (Hd & _ & Hv & _).
  split; [apply Hd; reflexivity|apply Hv; lia].
Defined.

(** ** What every reachable state of a session satisfies *)

Section DeepgramInvariant.
Import DeepgramService.

Lemma Inv_onaudioprocess (now : Z) (buf : list Q) (w : world) :
  DeepgramSession.Inv (svc w) ->
  DeepgramSession.Inv (svc (fst (onaudioprocess now buf w))).
Proof.
  intros H. pose proof H as (Hk & Ht & Hc & Hq). unfold onaudioprocess.
  destruct (connection (svc w)) as [k|] eqn:Ek; [|exact H].
  destruct (isActive (svc w)) eqn:Ea; [|exact H].
  simpl negb. cbv iota. cbv zeta. unfold DeepgramSession.Inv.
  cbn [fst svc audioChunkTimestamps chunkCounter audioActivityDetected
       currentUtteranceStart isActive connection audioCursor].
  split; [|split; [|split]].
  - assert (Hi : Measure.keysBelow (S (chunkCounter (svc w)))
                   (<[chunkCounter (svc w) := now]> (audioChunkTimestamps (svc w))))
      by (apply keysBelow_insert; exact Hk).
    match goal with |- context [if ?c then _ else _] => destruct c end;
      [apply keysBelow_cleanup|]; exact Hi.
  - destruct (negb (audioActivityDetected (svc w))
              && detectAudioActivityFromFloat32 buf); [discriminate|exact Ht].
  - intros _. discriminate.
  - apply add_nonneg; [exact Hq|apply chunk_duration_nonneg].
Qed.

Lemma Inv_handleTranscriptResult (now : Z) (data : Data) (w : world) :
  DeepgramSession.Inv (svc w) ->
  DeepgramSession.Inv (svc (handleTranscriptResult now data w)).
Proof.
  intros H. pose proof H as (Hk & Ht & Hc & Hq). unfold handleTranscriptResult.
  destruct (alternative data) as [a|]; [|exact H].
  destruct (negb (JS.truthy (transcript a)) || negb (JS.truthy (JS.trim (transcript a))));
    [exact H|].
  cbv zeta. unfold DeepgramSession.Inv.
  cbn [svc audioChunkTimestamps chunkCounter audioActivityDetected
       currentUtteranceStart isActive connection audioCursor].
  repeat split; try assumption.
  destruct (is_final data); [reflexivity|exact Ht].
Qed.

Lemma Inv_stopTranscription (w : world) :
  DeepgramSession.Inv (svc w) -> DeepgramSession.Inv (svc (fst (stopTranscription w))).
Proof.
  intros H. pose proof H as (Hk & Ht & Hc & Hq). unfold stopTranscription.
  destruct (isActive (svc w)); [|exact H].
  simpl negb. cbv iota.
  destruct (mediaRecorder (svc w)) as [[| |]|];
    (repeat split; [exact Hk|exact Ht|discriminate|exact Hq]).
Qed.

Lemma Inv_startTranscription (now : Z) (live : option nat) (audioOk : bool)
    (mediaStream : nat) (language : list N) (w : world) :
  DeepgramSession.Inv (svc w) ->
  DeepgramSession.Inv
    (svc (fst (fst (startTranscription now live audioOk mediaStream language w)))).
Proof.
  intros H. unfold startTranscription.
  assert (H0 : DeepgramSession.Inv
                 (svc (fst (if isActive (svc w) then stopTranscription w else (w, []))))).
  { destruct (isActive (svc w)); [apply Inv_stopTranscription, H|exact H]. }
  destruct (if isActive (svc w) then stopTranscription w else (w, [])) as [w0 c0].
  cbn [fst] in H0. destruct H0 as (Hk & Ht & Hc & Hq).
  destruct live as [k|].
  - destruct audioOk; unfold DeepgramSession.Inv; cbn;
      (repeat split; try discriminate; try reflexivity;
       intros k' t' Hl; rewrite lookup_empty in Hl; discriminate).
  - unfold DeepgramSession.Inv. cbn. repeat split; try assumption; discriminate.
Qed.

Lemma Inv_step (e : DeepgramSession.Event) (w : world) :
  DeepgramSession.Inv (svc w) -> DeepgramSession.Inv (svc (DeepgramSession.step e w)).
Proof.
  intros H. destruct e as [now live audioOk ms lang|[now buf|now data| | | |]].
  - apply Inv_startTranscription, H.
  - apply Inv_onaudioprocess, H.
  - apply Inv_handleTranscriptResult, H.
  - exact H.
  - exact H.
  - destruct H as (Hk & Ht & Hc & Hq). repeat split; try assumption. discriminate.
  - apply Inv_stopTranscription, H.
Qed.

Lemma Inv_run (es : list DeepgramSession.Event) (w : world) :
  DeepgramSession.Inv (svc w) -> DeepgramSession.Inv (svc (DeepgramSession.run es w)).
Proof.
  revert w. induction es as [|e es IH]; intros w H; [exact H|].
  apply (IH (DeepgramSession.step e w)), Inv_step, H.
Qed.
End DeepgramInvariant.

(** X15. Whatever happens to a [DeepgramService] after its construction
    (starts that succeed or fail, audio chunks, transcripts, connection
    events, stops, in any order), the ids in its timestamp map stay below
    [chunkCounter], so a new chunk never overwrites a stamp; an idle
    utterance timer has start 0; an active service holds a connection;
    and the audio cursor is not negative. *)
Theorem deepgram_session_invariant (es : list DeepgramSession.Event)
    (st : StoreModel.t) :
  let s := DeepgramService.svc (DeepgramSession.run es (DeepgramSession.fresh st)) in
  (forall k t, DeepgramService.audioChunkTimestamps s !! k = Some t ->
               (k < DeepgramService.chunkCounter s)%nat)
  /\ (DeepgramService.audioActivityDetected s = false ->
      DeepgramService.currentUtteranceStart s = 0)
  /\ (DeepgramService.isActive s = true -> DeepgramService.connection s <> None)
  /\ (0 <= DeepgramService.audioCursor s)%Q.
Proof.
  cbv zeta. apply (Inv_run es (DeepgramSession.fresh st)).
  unfold DeepgramSession.Inv. cbn. repeat split; discriminate.
Qed.

Section DeepgramTimerAndCursor.
Import DeepgramService.

Lemma onaudioprocess_timer (now : Z) (buf : list Q) (w : world) :
  let s' := svc (fst (onaudioprocess now buf w)) in
  (audioActivityDetected (svc w) = true ->
   audioActivityDetected s' = true
   /\ currentUtteranceStart s' = currentUtteranceStart (svc w))
  /\ (audioActivityDetected (svc w) = false -> submits (svc w) = true ->
      detectAudioActivityFromFloat32 buf = true ->
      audioActivityDetected s' = true /\ currentUtteranceStart s' = now)
  /\ (audioActivityDetected (svc w) = false ->
      detectAudioActivityFromFloat32 buf = false ->
      audioActivityDetected s' = false
      /\ currentUtteranceStart s' = currentUtteranceStart (svc w)).
Proof.
  cbv zeta. unfold onaudioprocess, submits.
  destruct (connection (svc w)) as [k|].
  - destruct (isActive (svc w)); simpl negb; cbv iota; cbv zeta;
      cbn [fst svc audioActivityDetected currentUtteranceStart];
      (split; [|split]); intros Ha; rewrite ?Ha; simpl;
      try (intros H1 H2; rewrite ?H2); try (intros H1; rewrite ?H1);
      try discriminate; split; congruence.
  - cbn [fst]. (split; [|split]); intros Ha; try discriminate.
    + split; [exact Ha|reflexivity].
    + intros _. split; [exact Ha|reflexivity].
Qed.

Lemma audio_run_keeps_start (ops : list Op) (w : world) :
  DeepgramSession.audioOnly ops ->
  audioActivityDetected (svc w) = true ->
  audioActivityDetected (svc (run ops w)) = true
  /\ currentUtteranceStart (svc (run ops w)) = currentUtteranceStart (svc w).
Proof.
  intros Hops. revert w. induction Hops as [|o ops Ho _ IH]; intros w Ha.
  - split; [exact Ha|reflexivity].
  - destruct o as [now buf| | | | |]; try contradiction.
    change (run (op_audio now buf :: ops) w)
      with (run ops (fst (onaudioprocess now buf w))).
    destruct (proj1 (onaudioprocess_timer now buf w) Ha) as [Ha' Hc'].
    destruct (IH _ Ha') as [Ha'' Hc'']. split; [exact Ha''|congruence].
Qed.

Lemma cursor_counter_step (n : nat) (e : DeepgramSession.Event) (w : world) :
  match e with
  | DeepgramSession.ev_op (op_audio _ buf) => length buf = n
  | _ => True
  end ->
  audioCursor (svc w)
  = Nat.iter (chunkCounter (svc w))
      (fun cursor => Double.add cursor (Double.div (Double.of_nat n) 16000)) 0%Q ->
  audioCursor (svc (DeepgramSession.step e w))
  = Nat.iter (chunkCounter (svc (DeepgramSession.step e w)))
      (fun cursor => Double.add cursor (Double.div (Double.of_nat n) 16000)) 0%Q.
Proof.
  intros He H. destruct e as [now live audioOk ms lang|[now buf|now data| | | |]].
  - unfold DeepgramSession.step, startTranscription.
    assert (H0 : audioCursor
                   (svc (fst (if isActive (svc w) then stopTranscription w else (w, []))))
                 = Nat.iter
                     (chunkCounter
                        (svc (fst (if isActive (svc w) then stopTranscription w
                                   else (w, [])))))
                     (fun cursor => Double.add cursor (Double.div (Double.of_nat n) 16000))
                     0%Q).
    { destruct (isActive (svc w)) eqn:Ea; [|exact H].
      unfold stopTranscription. rewrite Ea. simpl negb. cbv iota.
      destruct (mediaRecorder (svc w)) as [[| |]|]; exact H. }
    destruct (if isActive (svc w) then stopTranscription w else (w, [])) as [w0 c0].
    cbn [fst] in H0.
    destruct live as [k|]; [destruct audioOk; reflexivity|exact H0].
  - unfold DeepgramSession.step, step. rewrite onaudioprocess_cursor.
    unfold onaudioprocess, submits.
    destruct (connection (svc w)) as [k|]; [|exact H].
    destruct (isActive (svc w)); [|exact H].
    simpl negb. cbv iota. cbv zeta. cbn [fst svc chunkCounter].
    rewrite H, He. reflexivity.
  - unfold DeepgramSession.step, step. rewrite handleTranscriptResult_cursor.
    unfold handleTranscriptResult.
    destruct (alternative data) as [a|]; [|exact H].
    destruct (negb (JS.truthy (transcript a))
              || negb (JS.truthy (JS.trim (transcript a)))); exact H.
  - exact H.
  - exact H.
  - exact H.
  - unfold DeepgramSession.step, step, stopTranscription.
    destruct (isActive (svc w)); [|exact H]. simpl negb. cbv iota.
    destruct (mediaRecorder (svc w)) as [[| |]|]; exact H.
Qed.
End DeepgramTimerAndCursor.

(** X16. The utterance timer of [DeepgramService]: the first submitted
    chunk with activity arms it at that chunk's timestamp; while it is
    armed no run of audio chunks, however long, moves the start; and a
    chunk without activity leaves an idle timer idle. *)
Theorem deepgram_utterance_timer (now : Z) (inputBuffer : list Q)
    (ops : list DeepgramService.Op) (w : DeepgramService.world) :
  (DeepgramService.audioActivityDetected (DeepgramService.svc w) = false ->
   DeepgramService.submits (DeepgramService.svc w) = true ->
   DeepgramService.detectAudioActivityFromFloat32 inputBuffer = true ->
   let s' :=
     DeepgramService.svc (fst (DeepgramService.onaudioprocess now inputBuffer w)) in
   DeepgramService.audioActivityDetected s' = true
   /\ DeepgramService.currentUtteranceStart s' = now)
  /\ (DeepgramService.audioActivityDetected (DeepgramService.svc w) = true ->
      DeepgramSession.audioOnly ops ->
      let s' := DeepgramService.svc (DeepgramService.run ops w) in
      DeepgramService.audioActivityDetected s' = true
      /\ DeepgramService.currentUtteranceStart s'
         = DeepgramService.currentUtteranceStart (DeepgramService.svc w))
  /\ (DeepgramService.audioActivityDetected (DeepgramService.svc w) = false ->
      DeepgramService.detectAudioActivityFromFloat32 inputBuffer = false ->
      let s' :=
        DeepgramService.svc (fst (DeepgramService.onaudioprocess now inputBuffer w)) in
      DeepgramService.audioActivityDetected s' = false
      /\ DeepgramService.currentUtteranceStart s'
         = DeepgramService.currentUtteranceStart (DeepgramService.svc w)).
Proof.
  pose proof (onaudioprocess_timer now inputBuffer w) as (_ & Harm & Hidle).
  split; [exact Harm|]. split; [|exact Hidle].
  intros Ha Hops. apply audio_run_keeps_start; assumption.
Qed.

(** The theorem on the streaming Deepgram session of [Ex]: a loud chunk at
    2000 arms the timer, and two more chunks at 2064 and 2128 leave the
    start at 2000. *)
Lemma deepgram_utterance_timer_witness :
  DeepgramService.currentUtteranceStart
    (DeepgramService.svc
       (DeepgramService.run
          [DeepgramService.op_audio 2064 [1 # 2]; DeepgramService.op_audio 2128 [0%Q]]
          (fst (DeepgramService.onaudioprocess 2000 [1 # 2; 1 # 2]
                  Ex.deepgram_streaming))))
  = 2000.
Proof.
  pose proof (deepgram_utterance_timer 2000 [1 # 2; 1 # 2] [] Ex.deepgram_streaming)
    as (Harm & _).
  destruct Harm as [Ha Hs]; [reflexivity|reflexivity|vm_compute; reflexivity|].
  pose proof (deepgram_utterance_timer 0 []
                [DeepgramService.op_audio 2064 [1 # 2];
                 DeepgramService.op_audio 2128 [0%Q]]
                (fst (DeepgramService.onaudioprocess 2000 [1 # 2; 1 # 2]
                        Ex.deepgram_streaming))) as (_ & Hkeep & _).
  destruct Hkeep as [_ Hc]; [exact Ha|repeat constructor|].
  rewrite Hc. exact Hs.
Defined.

(** X17. In every state a [DeepgramService] can reach through events
    whose audio buffers all hold [n] samples, the audio cursor is
    determined by [chunkCounter]: it is the duration [n / 16000] added
    to 0 that many times in double precision.  Cursor and chunk counter
    are reset together and advance together. *)
Theorem audioCursor_counts_chunks (n : nat) (es : list DeepgramSession.Event)
    (st : StoreModel.t) :
  DeepgramSession.fixedBuffers n es ->
  let s := DeepgramService.svc (DeepgramSession.run es (DeepgramSession.fresh st)) in
  DeepgramService.audioCursor s
  = Nat.iter (DeepgramService.chunkCounter s)
      (fun cursor => Double.add cursor (Double.div (Double.of_nat n) 16000)) 0%Q.
Proof.
  intros Hes. cbv zeta.
  assert (H : forall w,
            DeepgramService.audioCursor (DeepgramService.svc w)
            = Nat.iter (DeepgramService.chunkCounter (DeepgramService.svc w))
                (fun cursor => Double.add cursor (Double.div (Double.of_nat n) 16000))
                0%Q ->
            DeepgramService.audioCursor
              (DeepgramService.svc (DeepgramSession.run es w))
            = Nat.iter
                (DeepgramService.chunkCounter
                   (DeepgramService.svc (DeepgramSession.run es w)))
                (fun cursor => Double.add cursor (Double.div (Double.of_nat n) 16000))
                0%Q).
  { induction Hes as [|e es He _ IH]; intros w Hw; [exact Hw|].
    apply (IH (DeepgramSession.step e w)), cursor_counter_step; assumption. }
  apply H. reflexivity.
Qed.

(** The theorem on a start followed by ten chunks of 1024 samples: the
    counter stands at 10 and the cursor at the double 0.6400000000000001,
    not at 10 * 0.064. *)
Lemma audioCursor_counts_chunks_witness :
  let s :=
    DeepgramService.svc
      (DeepgramSession.run
         (DeepgramSession.ev_start 1000 (Some 1%nat) true 7 (JS.lit "en-US")
          :: repeat (DeepgramSession.ev_op
                       (DeepgramService.op_audio 1064 (repeat 0%Q 1024))) 10)
         (DeepgramSession.fresh StoreModel.initial)) in
  DeepgramService.chunkCounter s = 10%nat
  /\ DeepgramService.audioCursor s = Double.lit (6400000000000001 # 10000000000000000)
  /\ DeepgramService.audioCursor s <> Double.lit (64 # 100).
Proof.
  cbv zeta.
  rewrite (audioCursor_counts_chunks 1024
             (DeepgramSession.ev_start 1000 (Some 1%nat) true 7 (JS.lit "en-US")
              :: repeat (DeepgramSession.ev_op
                           (DeepgramService.op_audio 1064 (repeat 0%Q 1024))) 10)
             StoreModel.initial).
  - split; [vm_compute; reflexivity|]. split; [vm_compute; reflexivity|].
    vm_compute. discriminate.
  - repeat constructor.
Defined.

(** The theorem on a start followed by one chunk: the service is active,
    so it holds a connection. *)
Lemma deepgram_session_invariant_witness :
  DeepgramService.connection
    (DeepgramService.svc
       (DeepgramSession.run
          [DeepgramSession.ev_start 1000 (Some 1%nat) true 7 (JS.lit "en-US");
           DeepgramSession.ev_op (DeepgramService.op_audio 1064 [1 # 2])]
          (DeepgramSession.fresh StoreModel.initial)))
  <> None.
Proof.
  apply (deepgram_session_invariant
           [DeepgramSession.ev_start 1000 (Some 1%nat) true 7 (JS.lit "en-US");
            DeepgramSession.ev_op (DeepgramService.op_audio 1064 [1 # 2])]
           StoreModel.initial).
  reflexivity.
Defined.

Section VerbumInvariant.
Import VerbumService.

Lemma Inv_ondataavailable (now : Z) (size : nat) (w : world) :
  VerbumSession.Inv (svc w) -> VerbumSession.Inv (svc (ondataavailable now size w)).
Proof.
  intros H. pose proof H as (Hk & Ht & Hc & Hs). unfold ondataavailable.
  destruct (0 <? size)%nat; [|exact H].
  cbv zeta. unfold VerbumSession.Inv.
  cbn [svc audioChunkTimestamps chunkCounter audioActivityDetected
       currentUtteranceStart isActive isConnecting socket].
  split; [|split; [|split]]; try assumption.
  assert (Hi : Measure.keysBelow (S (chunkCounter (svc w)))
                 (<[chunkCounter (svc w) := now]> (audioChunkTimestamps (svc w))))
    by (apply keysBelow_insert; exact Hk).
  match goal with |- context [if ?c then _ else _] => destruct c end;
    [apply keysBelow_cleanup|]; exact Hi.
Qed.

Lemma Inv_handleSpeechResult (now : Z) (data : VerbumSpeechResult) (w : world) :
  VerbumSession.Inv (svc w) ->
  VerbumSession.Inv (svc (fst (handleSpeechResult now data w))).
Proof.
  intros H. pose proof H as (Hk & Ht & Hc & Hs). unfold handleSpeechResult.
  destruct (negb (JS.truthy (d_text data)) || negb (JS.truthy (JS.trim (d_text data))));
    [exact H|].
  cbv zeta.
  assert (Hgoal : VerbumSession.Inv
            (mk (socket (svc w)) (isActive (svc w)) (isConnecting (svc w))
               (onTranscription (svc w)) (startTime (svc w))
               (results (svc w)
                ++ [TranscriptionResult.mk (JS.trim (d_text data)) now
                      (Some (storedConfidence (d_confidence data)))
                      (isRecognized (d_status data))
                      (Some (JS.Math_max 0
                               (inject_Z (calculatedLatency now (svc w)))))])
               (mediaRecorder (svc w)) (stream (svc w)) (audioChunkTimestamps (svc w))
               (if isRecognized (d_status data) then 0
                else currentUtteranceStart (svc w))
               (if isRecognized (d_status data) then false
                else audioActivityDetected (svc w))
               (chunkCounter (svc w)))).
  { unfold VerbumSession.Inv.
    cbn [audioChunkTimestamps chunkCounter audioActivityDetected
         currentUtteranceStart isActive isConnecting socket].
    split; [|split; [|split]]; try assumption.
    destruct (isRecognized (d_status data)); [reflexivity|exact Ht]. }
  destruct (onTranscription (svc w)) as [[|]|]; exact Hgoal.
Qed.

Lemma Inv_step_verbum (e : VerbumSession.Event) (w : world) :
  VerbumSession.Inv (svc w) -> VerbumSession.Inv (svc (VerbumSession.step e w)).
Proof.
  intros H. pose proof H as (Hk & Ht & Hc & Hs).
  destruct e as [now fresh ms lang cb| | | |ms|now size|ts buf|now data|now tr conf fin|].
  - unfold VerbumSession.step, startTranscription.
    destruct (isActive (svc w) || isConnecting (svc w)); [exact H|].
    unfold VerbumSession.Inv. cbn. repeat split; try assumption; discriminate.
  - unfold VerbumSession.Inv. cbn. repeat split; try assumption; discriminate.
  - unfold VerbumSession.Inv. cbn. repeat split; try assumption; discriminate.
  - unfold VerbumSession.Inv. cbn. repeat split; try assumption; discriminate.
  - unfold VerbumSession.Inv. cbn. repeat split; try assumption; try reflexivity.
    discriminate.
  - apply Inv_ondataavailable, H.
  - unfold VerbumSession.step, onArrayBuffer. cbv zeta. unfold VerbumSession.Inv.
    cbn [fst svc audioChunkTimestamps chunkCounter audioActivityDetected
         currentUtteranceStart isActive isConnecting socket].
    split; [|split; [|split]]; try assumption.
    destruct (negb (audioActivityDetected (svc w))
              && ((100 <? length buf)%nat || Service.detectAudioActivity buf));
      [discriminate|exact Ht].
  - apply Inv_handleSpeechResult, H.
  - unfold VerbumSession.step, webSpeech_onresult. cbv zeta.
    destruct (JS.truthy (JS.trim tr));
      [destruct (onTranscription (svc w)) as [[|]|]|]; exact H.
  - unfold VerbumSession.step, stopTranscription.
    destruct (mediaRecorder (svc w)) as [[| |]|];
      unfold VerbumSession.Inv; cbn; repeat split; try assumption; discriminate.
Qed.

Lemma Inv_run_verbum (es : list VerbumSession.Event) (w : world) :
  VerbumSession.Inv (svc w) -> VerbumSession.Inv (svc (VerbumSession.run es w)).
Proof.
  revert w. induction es as [|e es IH]; intros w H; [exact H|].
  apply (IH (VerbumSession.step e w)), Inv_step_verbum, H.
Qed.
End VerbumInvariant.

(** X18. Whatever happens to a [VerbumService] after its construction
    (starts, socket events, recorder chunks, recognition results from
    the socket or from the fallback, stops, in any order), the ids in its
    timestamp map stay below [chunkCounter]; an idle utterance timer has
    start 0; and a service that is connecting also counts as active and
    holds a socket. *)
Theorem verbum_session_invariant (es : list VerbumSession.Event) (st : StoreModel.t) :
  let s := VerbumService.svc (VerbumSession.run es (VerbumSession.fresh st)) in
  (forall k t, VerbumService.audioChunkTimestamps s !! k = Some t ->
               (k < VerbumService.chunkCounter s)%nat)
  /\ (VerbumService.audioActivityDetected s = false ->
      VerbumService.currentUtteranceStart s = 0)
  /\ (VerbumService.isConnecting s = true -> VerbumService.isActive s = true)
  /\ (VerbumService.isConnecting s = true -> VerbumService.socket s <> None).
Proof.
  cbv zeta. apply (Inv_run_verbum es (VerbumSession.fresh st)).
  unfold VerbumSession.Inv. cbn. repeat split; discriminate.
Qed.

(** The theorem on a start followed by a connection error and a second
    start: nothing was stamped, so the utterance timer is idle at 0. *)
Lemma verbum_session_invariant_witness :
  VerbumService.currentUtteranceStart
    (VerbumService.svc
       (VerbumSession.run
          [VerbumSession.ev_start 1000 3 7 (JS.lit "en-US") false;
           VerbumSession.ev_connect_error;
           VerbumSession.ev_start 2000 4 7 (JS.lit "en-US") false]
          (VerbumSession.fresh StoreModel.initial)))
  = 0.
Proof.
  apply (verbum_session_invariant
           [VerbumSession.ev_start 1000 3 7 (JS.lit "en-US") false;
            VerbumSession.ev_connect_error;
            VerbumSession.ev_start 2000 4 7 (JS.lit "en-US") false]
           StoreModel.initial).
  reflexivity.
Defined.

(** ** More on the results the handlers store *)

Section StoredResults.
Import TranscriptionResult.

Lemma Math_max_0_nonneg (x : Q) : (0 <= JS.Math_max 0 x)%Q.
Proof.
  unfold JS.Math_max. destruct (Qle_bool 0 x) eqn:E.
  - apply Qle_bool_iff, E.
  - apply Qle_refl.
Qed.

Lemma deepgram_confidence_not_zero (c : option Q) :
  ~ (DeepgramService.storedConfidence c == 0)%Q.
Proof.
  unfold DeepgramService.storedConfidence. destruct c as [q|]; [|discriminate].
  destruct (Qeq_bool q 0) eqn:E; [discriminate|].
  intros H. apply Qeq_bool_iff in H. congruence.
Qed.

End StoredResults.

(** X19. Every result that [handleTranscriptResult] or
    [handleSpeechResult] stores carries a latency, which is never
    negative, and a confidence; the confidence stored by
    [DeepgramService] is never 0, because a reported 0 is replaced by
    0.95 like a missing one. *)
Theorem stored_latency_nonnegative (now : Z) (final : bool)
    (a : DeepgramService.Alternative) (w : DeepgramService.world)
    (data : VerbumService.VerbumSpeechResult) (v : VerbumService.world) :
  (JS.trim (DeepgramService.transcript a) <> [] ->
   exists r l c,
     Model.results
       (StoreModel.deepgram
          (DeepgramService.store
             (DeepgramService.handleTranscriptResult now
                (DeepgramService.mkData final (Some a)) w)))
     = Model.results (StoreModel.deepgram (DeepgramService.store w)) ++ [r]
     /\ TranscriptionResult.latency r = Some l /\ (0 <= l)%Q
     /\ TranscriptionResult.confidence r = Some c /\ ~ (c == 0)%Q)
  /\ (JS.trim (VerbumService.d_text data) <> [] ->
      exists r l c,
        VerbumService.results
          (VerbumService.svc (fst (VerbumService.handleSpeechResult now data v)))
        = VerbumService.results (VerbumService.svc v) ++ [r]
        /\ TranscriptionResult.latency r = Some l /\ (0 <= l)%Q
        /\ TranscriptionResult.confidence r = Some c).
Proof.
  split.
  - intros H. eexists _, _, _. split; [apply deepgram_stores, H|].
    cbn [TranscriptionResult.latency TranscriptionResult.confidence].
    split; [reflexivity|]. split; [apply Math_max_0_nonneg|].
    split; [reflexivity|apply deepgram_confidence_not_zero].
  - intros H. eexists _, _, _. split; [apply verbum_pushes, H|].
    cbn [TranscriptionResult.latency TranscriptionResult.confidence].
    split; [reflexivity|]. split; [apply Math_max_0_nonneg|reflexivity].
Qed.

(** The theorem on the interim Deepgram event of [Ex] handled before any
    audio was submitted (the raw difference is negative) and on the final
    Verbum event of [Ex]. *)
Lemma stored_latency_nonnegative_witness :
  Ex.last_latency
    (Model.results
       (StoreModel.deepgram
          (DeepgramService.store
             (DeepgramService.handleTranscriptResult 1020 Ex.deepgram_interim
                (DeepgramService.mkWorld DeepgramService.new StoreModel.initial)))))
  = Some (Some 0%Q)
  /\ exists l,
      Ex.last_latency
        (VerbumService.results
           (VerbumService.svc
              (fst (VerbumService.handleSpeechResult 1020 Ex.verbum_final
                      Ex.verbum_streaming))))
      = Some (Some l) /\ (0 <= l)%Q.
Proof.
  split; [reflexivity|].
  destruct (proj2 (stored_latency_nonnegative 1020 true
                     (DeepgramService.mkAlt (JS.lit "x") None None None)
                     Ex.deepgram_streaming Ex.verbum_final Ex.verbum_streaming))
    as (r & l & c & Hr & Hl & Hpos & _); [vm_compute; discriminate|].
  exists l. split; [|exact Hpos].
  rewrite Hr. unfold Ex.last_latency. rewrite last_snoc. simpl. rewrite Hl. reflexivity.
Defined.

(** X20. A recognition event whose text is empty or white space only is
    dropped by both handlers without a trace: no state changes, nothing
    is stored, no call is made; [DeepgramService] drops an event without
    an alternative in the same way. *)
Theorem blank_events_are_dropped (now : Z) (final : bool)
    (a : DeepgramService.Alternative) (w : DeepgramService.world)
    (data : VerbumService.VerbumSpeechResult) (v : VerbumService.world) :
  (Measure.blank (DeepgramService.transcript a) = true ->
   DeepgramService.handleTranscriptResult now (DeepgramService.mkData final (Some a)) w
   = w)
  /\ DeepgramService.handleTranscriptResult now (DeepgramService.mkData final None) w = w
  /\ (Measure.blank (VerbumService.d_text data) = true ->
      VerbumService.handleSpeechResult now data v = (v, [])).
Proof.
  split; [|split].
  - intros H. unfold DeepgramService.handleTranscriptResult.
    cbn [DeepgramService.alternative]. rewrite (blank_trim _ H).
    rewrite orb_true_r. reflexivity.
  - reflexivity.
  - intros H. unfold VerbumService.handleSpeechResult. rewrite (blank_trim _ H).
    rewrite orb_true_r. reflexivity.
Qed.

(** The theorem on a transcript of two spaces and a Verbum text made of a
    line feed. *)
Lemma blank_events_are_dropped_witness :
  DeepgramService.handleTranscriptResult 1020
    (DeepgramService.mkData true
       (Some (DeepgramService.mkAlt (JS.lit "  ") (Some (Double.lit (9 # 10))) None None)))
    Ex.deepgram_streaming
  = Ex.deepgram_streaming
  /\ VerbumService.handleSpeechResult 1020
       (VerbumService.mkData [10%N] VerbumService.conf_undefined
          VerbumService.recognized None None)
       Ex.verbum_streaming
     = (Ex.verbum_streaming, []).
Proof.
  pose proof (blank_events_are_dropped 1020 true
                (DeepgramService.mkAlt (JS.lit "  ") (Some (Double.lit (9 # 10))) None None)
                Ex.deepgram_streaming
                (VerbumService.mkData [10%N] VerbumService.conf_undefined
                   VerbumService.recognized None None)
                Ex.verbum_streaming) as (Hd & _ & Hv).
  split; [apply Hd; reflexivity|apply Hv; reflexivity].
Defined.

(** X21. The chunk fallback of [VerbumService]: when no utterance start
    is tracked and some chunk was stamped within the last 3000 ms, the
    latency computed by [handleSpeechResult] is the time since the most
    recent stamp in the map, hence below 3000 ms. *)
Theorem verbum_chunk_fallback (now : Z) (s : VerbumService.t) (k0 : nat) (t0 : Z) :
  VerbumService.currentUtteranceStart s = 0 ->
  VerbumService.audioChunkTimestamps s !! k0 = Some t0 ->
  now - 3000 < t0 ->
  exists t,
    (exists k, VerbumService.audioChunkTimestamps s !! k = Some t)
    /\ (forall k' t', VerbumService.audioChunkTimestamps s !! k' = Some t' -> t' <= t)
    /\ VerbumService.calculatedLatency now s = now - t
    /\ VerbumService.calculatedLatency now s < 3000.
Proof. apply verbum_chunk_measure. Qed.

(** The theorem on a service between two utterances with chunks stamped
    at 5000 and 9500, asked at 10000: the latency is 500 ms. *)
Lemma verbum_chunk_fallback_witness :
  VerbumService.calculatedLatency 10000
    (VerbumService.mk None true false None 0 [] None None
       (<[1%nat := 9500]> (<[0%nat := 5000]> ∅)) 0 false 2%nat)
  < 3000.
Proof.
  destruct (verbum_chunk_fallback 10000
              (VerbumService.mk None true false None 0 [] None None
                 (<[1%nat := 9500]> (<[0%nat := 5000]> ∅)) 0 false 2%nat)
              1%nat 9500) as (t & _ & _ & _ & H);
    [reflexivity|reflexivity|lia|exact H].
Defined.

(** X22. After [handleTranscriptResult] has handled a final event, the
    metrics in the store are those of the results in the store, the
    displayed text is the final text, and the utterance timer is idle; an
    interim event leaves the metrics, the final text and the utterance
    timer as they were. *)
Theorem deepgram_final_event_publishes (now : Z) (a : DeepgramService.Alternative)
    (w : DeepgramService.world) :
  JS.trim (DeepgramService.transcript a) <> [] ->
  (let w' :=
     DeepgramService.handleTranscriptResult now
       (DeepgramService.mkData true (Some a)) w in
   Model.metrics (StoreModel.deepgram (DeepgramService.store w'))
   = Service.calculateMetrics
       (Model.results (StoreModel.deepgram (DeepgramService.store w')))
   /\ Model.text (StoreModel.deepgram (DeepgramService.store w'))
      = Model.finalText (StoreModel.deepgram (DeepgramService.store w'))
   /\ DeepgramService.audioActivityDetected (DeepgramService.svc w') = false
   /\ DeepgramService.currentUtteranceStart (DeepgramService.svc w') = 0)
  /\ (let w' :=
        DeepgramService.handleTranscriptResult now
          (DeepgramService.mkData false (Some a)) w in
      Model.metrics (StoreModel.deepgram (DeepgramService.store w'))
      = Model.metrics (StoreModel.deepgram (DeepgramService.store w))
      /\ Model.finalText (StoreModel.deepgram (DeepgramService.store w'))
         = Model.finalText (StoreModel.deepgram (DeepgramService.store w))
      /\ DeepgramService.audioActivityDetected (DeepgramService.svc w')
         = DeepgramService.audioActivityDetected (DeepgramService.svc w)
      /\ DeepgramService.currentUtteranceStart (DeepgramService.svc w')
         = DeepgramService.currentUtteranceStart (DeepgramService.svc w)).
Proof.
  intros H. cbv zeta. unfold DeepgramService.handleTranscriptResult.
  cbn [DeepgramService.alternative DeepgramService.is_final].
  rewrite (not_blank _ H). cbv zeta. split.
  - cbn -[Service.calculateMetrics TranscriptionMetrics.spread JS.trim JS.join].
    rewrite spread_to_obj. repeat split.
  - cbn [DeepgramService.store DeepgramService.svc StoreModel.on_deepgram
         StoreModel.deepgram DeepgramService.audioActivityDetected
         DeepgramService.currentUtteranceStart].
    split; [reflexivity|]. split; [|split; reflexivity].
    unfold Model.finalText, Model.addResult. cbn [Model.results].
    rewrite List.filter_app. simpl. rewrite app_nil_r. reflexivity.
Qed.

(** The theorem on the final Deepgram event of [Ex]. *)
Lemma deepgram_final_event_publishes_witness :
  Model.metrics
    (StoreModel.deepgram
       (DeepgramService.store
          (DeepgramService.handleTranscriptResult 1020 Ex.deepgram_final
             Ex.deepgram_streaming)))
  = Service.calculateMetrics
      (Model.results
         (StoreModel.deepgram
            (DeepgramService.store
               (DeepgramService.handleTranscriptResult 1020 Ex.deepgram_final
                  Ex.deepgram_streaming)))).
Proof.
  apply (deepgram_final_event_publishes 1020
           (DeepgramService.mkAlt (JS.lit "hello world") (Some (Double.lit (9 # 10))) None None)
           Ex.deepgram_streaming).
  vm_compute. discriminate.
Defined.

(** ** Life cycle *)

Section Inactive.
Import DeepgramService.

Lemma inactive_step (o : Op) (w : world) :
  isActive (svc w) = false ->
  isActive (svc (step o w)) = false
  /\ stream (svc (step o w)) = stream (svc w)
  /\ connection (svc (step o w)) = connection (svc w)
  /\ advance_of o w = []
  /\ calls_of o w = []
  /\ (forall now buf, onaudioprocess now buf w = (w, [])).
Proof.
  intros H.
  assert (E : forall now buf, onaudioprocess now buf w = (w, [])).
  { intros now buf. unfold onaudioprocess. rewrite H.
    destruct (connection (svc w)); reflexivity. }
  destruct o as [now buf|now data| | | |].
  - unfold step, advance_of, calls_of, submits. rewrite E, H.
    repeat split; try assumption.
    destruct (connection (svc w)); reflexivity.
  - unfold step, handleTranscriptResult.
    destruct (alternative data) as [a|];
      [destruct (negb (JS.truthy (transcript a))
                 || negb (JS.truthy (JS.trim (transcript a))))|];
      repeat split; try assumption; try apply E.
  - repeat split; try assumption; apply E.
  - repeat split; try assumption; apply E.
  - repeat split; try assumption; apply E.
  - unfold step, calls_of. rewrite (deepgram_stop_inactive w H).
    repeat split; try assumption; apply E.
Qed.

Lemma inactive_run (ops : list Op) (w : world) :
  isActive (svc w) = false ->
  isActive (svc (run ops w)) = false
  /\ stream (svc (run ops w)) = stream (svc w)
  /\ connection (svc (run ops w)) = connection (svc w)
  /\ advances ops w = []
  /\ trace ops w = [].
Proof.
  revert w. induction ops as [|o ops IH]; intros w H; [repeat split; assumption|].
  destruct (inactive_step o w H) as (Ha & Hs & Hc & Hadv & Hcalls & _).
  destruct (IH (step o w) Ha) as (Ha' & Hs' & Hc' & Hadv' & Htr').
  change (run (o :: ops) w) with (run ops (step o w)).
  rewrite advances_cons, Hadv, Hadv'. cbn [trace]. rewrite Hcalls, Htr'.
  repeat split; congruence.
Qed.
End Inactive.

(** X23. After [stopTranscription] no audio leaves the service.  In
    [DeepgramService], whatever runs after the stop short of a new start
    (chunks, transcripts, connection events, further stops), no external
    call is made at all, so nothing is sent on the connection; every
    further [onaudioprocess] returns without a call and without a change;
    no chunk counts as submitted and the audio cursor stays where it
    was.  In [VerbumService] the continuation of a chunk emits nothing
    on the socket. *)
Theorem no_audio_after_stop (now : Z) (buffer : list byte) (inputBuffer : list Q)
    (ops : list DeepgramService.Op)
    (d : DeepgramService.world) (v : VerbumService.world) :
  let stopped := fst (DeepgramService.stopTranscription d) in
  DeepgramService.trace ops stopped = []
  /\ DeepgramService.onaudioprocess now inputBuffer (DeepgramService.run ops stopped)
     = (DeepgramService.run ops stopped, [])
  /\ DeepgramService.advances ops stopped = []
  /\ DeepgramService.audioCursor (DeepgramService.svc (DeepgramService.run ops stopped))
     = DeepgramService.audioCursor (DeepgramService.svc d)
  /\ snd (VerbumService.onArrayBuffer now buffer
            (fst (VerbumService.stopTranscription v))) = [].
Proof.
  cbv zeta.
  assert (H : DeepgramService.isActive
                (DeepgramService.svc (fst (DeepgramService.stopTranscription d)))
              = false).
  { destruct (DeepgramService.isActive (DeepgramService.svc d)) eqn:E.
    - apply (deepgram_stop_active d E).
    - rewrite (deepgram_stop_inactive d E). exact E. }
  destruct (inactive_run ops _ H) as (Ha & _ & _ & Hadv & Htr).
  split; [exact Htr|]. split; [|split; [exact Hadv|split]].
  - apply (inactive_step (DeepgramService.op_audio now inputBuffer) _ Ha).
  - rewrite run_cursor, Hadv. apply stopTranscription_cursor.
  - unfold VerbumService.stopTranscription.
    destruct (VerbumService.mediaRecorder (VerbumService.svc v)) as [[| |]|];
      reflexivity.
Qed.

(** X24. The start guard of [VerbumService] outlives a failed
    connection: after a start and a connection error the service still
    counts as active, so a further start is ignored; only
    [stopTranscription] clears the guard, after which a start opens a
    socket again. *)
Theorem verbum_guard_after_error (now now' : Z) (fresh fresh' mediaStream : nat)
    (language : list N) (withCallback : bool) (v : VerbumService.world) :
  VerbumService.isActive (VerbumService.svc v)
  || VerbumService.isConnecting (VerbumService.svc v) = false ->
  let failed :=
    VerbumService.on_connect_error
      (fst (VerbumService.startTranscription now fresh mediaStream language
              withCallback v)) in
  VerbumService.startTranscription now' fresh' mediaStream language withCallback failed
  = (failed, [])
  /\ snd (VerbumService.startTranscription now' fresh' mediaStream language withCallback
            (fst (VerbumService.stopTranscription failed)))
     = [io_connect fresh' (VerbumService.mapLanguageCode language)].
Proof.
  intros H. cbv zeta.
  destruct v as [s st]. destruct s as [sock a c cb t0 rs rec ms stamps cus aad n].
  cbn [VerbumService.svc VerbumService.isActive VerbumService.isConnecting] in H.
  apply orb_false_elim in H as [-> ->].
  destruct rec as [[| |]|]; split; reflexivity.
Qed.

(** The theorem on a freshly constructed service. *)
Lemma verbum_guard_after_error_witness :
  snd (VerbumService.startTranscription 2000 4 7 (JS.lit "en-US") false
         (VerbumService.on_connect_error
            (fst (VerbumService.startTranscription 1000 3 7 (JS.lit "en-US") false
                    (VerbumSession.fresh StoreModel.initial)))))
  = [].
Proof.
  rewrite (proj1 (verbum_guard_after_error 1000 2000 3 4 7 (JS.lit "en-US") false
                    (VerbumSession.fresh StoreModel.initial) eq_refl)).
  reflexivity.
Defined.

(** X25. When a start of [DeepgramService] fails, the returned promise is
    rejected and the service is left inactive with the store saying
    [error] and inactive, so a following [stopTranscription] does
    nothing.  If the client threw, no connection was opened; if the audio
    set-up threw, the connection that was just opened stays in the
    service and is not finished by that stop. *)
Theorem deepgram_failed_start (now : Z) (k mediaStream : nat) (language : list N)
    (d : DeepgramService.world) :
  (let r := DeepgramService.startTranscription now None true mediaStream language d in
   snd r = true
   /\ DeepgramService.isActive (DeepgramService.svc (fst (fst r))) = false
   /\ Model.connectionStatus (StoreModel.deepgram (DeepgramService.store (fst (fst r))))
      = error
   /\ Model.isActive (StoreModel.deepgram (DeepgramService.store (fst (fst r)))) = false
   /\ List.filter opens (snd (fst r)) = []
   /\ DeepgramService.stopTranscription (fst (fst r)) = (fst (fst r), []))
  /\ (let r :=
        DeepgramService.startTranscription now (Some k) false mediaStream language d in
      snd r = true
      /\ DeepgramService.isActive (DeepgramService.svc (fst (fst r))) = false
      /\ Model.connectionStatus
           (StoreModel.deepgram (DeepgramService.store (fst (fst r)))) = error
      /\ DeepgramService.connection (DeepgramService.svc (fst (fst r))) = Some k
      /\ DeepgramService.stopTranscription (fst (fst r)) = (fst (fst r), [])).
Proof.
  cbv zeta. unfold DeepgramService.startTranscription.
  assert (Hc : List.filter opens
                 (snd (if DeepgramService.isActive (DeepgramService.svc d)
                       then DeepgramService.stopTranscription d else (d, []))) = []).
  { destruct (DeepgramService.isActive (DeepgramService.svc d)) eqn:E; [|reflexivity].
    destruct (deepgram_stop_active d E) as (_ & _ & _ & Hcalls & _). rewrite Hcalls.
    destruct (DeepgramService.mediaRecorder (DeepgramService.svc d)) as [[| |]|];
      destruct (DeepgramService.stream (DeepgramService.svc d));
      destruct (DeepgramService.connection (DeepgramService.svc d)); reflexivity. }
  destruct (if DeepgramService.isActive (DeepgramService.svc d)
            then DeepgramService.stopTranscription d else (d, [])) as [w0 c0].
  cbn [snd] in Hc. split.
  - cbn [fst snd]. repeat split; try reflexivity. exact Hc.
  - cbn [fst snd]. repeat split; reflexivity.
Qed.

(** X26. Once the server has closed the connection of a
    [DeepgramService], nothing short of a new start releases what the
    service holds: whatever runs next (chunks, transcripts, connection
    events, stops), the stream and the connection stay in its fields, and
    [stopTranscription] at that point makes no call, so it neither stops
    the tracks nor finishes the connection. *)
Theorem deepgram_stop_after_close (ops : list DeepgramService.Op)
    (d : DeepgramService.world) :
  let w := DeepgramService.run ops (DeepgramService.on_close d) in
  DeepgramService.stopTranscription w = (w, [])
  /\ DeepgramService.stream (DeepgramService.svc w)
     = DeepgramService.stream (DeepgramService.svc d)
  /\ DeepgramService.connection (DeepgramService.svc w)
     = DeepgramService.connection (DeepgramService.svc d).
Proof.
  cbv zeta.
  destruct (inactive_run ops (DeepgramService.on_close d) eq_refl)
    as (Ha & Hs & Hc & _).
  split; [apply deepgram_stop_inactive, Ha|]. split; [exact Hs|exact Hc].
Qed.

(** ** Events as the interface declares them *)

(** X27. [handleTranscriptResult] looks for [start] and [duration] on the
    alternative, while the interface [DeepgramResponse] declares them on
    the message.  For a message shaped as the interface says, with a
    non-blank first transcript, the stored latency therefore never
    involves the audio cursor, nor the [start] and [duration] of the
    message: an interim result is stored with the latency 0, a final one
    with the time since the utterance start, or 0 when none is
    tracked. *)
Theorem deepgram_response_latency (now : Z)
    (message : DeepgramService.DeepgramResponse)
    (a : DeepgramService.DeepgramAlternative)
    (rest : list DeepgramService.DeepgramAlternative)
    (w : DeepgramService.world) :
  DeepgramService.r_alternatives message = a :: rest ->
  JS.trim (DeepgramService.a_transcript a) <> [] ->
  exists r,
    Model.results
      (StoreModel.deepgram
         (DeepgramService.store
            (DeepgramService.handleTranscriptResult now
               (DeepgramService.received message) w)))
    = Model.results (StoreModel.deepgram (DeepgramService.store w)) ++ [r]
    /\ TranscriptionResult.text r = JS.trim (DeepgramService.a_transcript a)
    /\ TranscriptionResult.isFinal r = DeepgramService.r_is_final message
    /\ (DeepgramService.r_is_final message = false ->
        TranscriptionResult.latency r = Some 0%Q)
    /\ (DeepgramService.r_is_final message = true ->
        TranscriptionResult.latency r
        = Some (if 0 <? DeepgramService.currentUtteranceStart (DeepgramService.svc w)
                then JS.Math_max 0
                       (inject_Z
                          (now - DeepgramService.currentUtteranceStart
                                   (DeepgramService.svc w)))
                else 0%Q)).
Proof.
  intros Hm Ht. unfold DeepgramService.received. rewrite Hm. cbn [head option_map].
  eexists. split; [apply deepgram_stores; exact Ht|].
  cbn [TranscriptionResult.text TranscriptionResult.isFinal TranscriptionResult.latency
       DeepgramService.transcript].
  split; [reflexivity|]. split; [reflexivity|].
  unfold DeepgramService.calculatedLatency. cbn [DeepgramService.start].
  split; intros ->; cbn [negb]; [reflexivity|].
  destruct (0 <? DeepgramService.currentUtteranceStart (DeepgramService.svc w));
    reflexivity.
Qed.

(** The theorem on the streaming Deepgram session of [Ex], whose cursor
    stands at 0.1 s: an interim message with [start] 0.02 s and
    [duration] 0.03 s is stored with the latency 0. *)
Lemma deepgram_response_latency_witness :
  Ex.last_latency
    (Model.results
       (StoreModel.deepgram
          (DeepgramService.store
             (DeepgramService.handleTranscriptResult 1020
                (DeepgramService.received
                   (DeepgramService.mkResponse (Double.lit (3 # 100))
                      (Double.lit (2 # 100)) false
                      [DeepgramService.mkAlternative (JS.lit "hello")
                         (Double.lit (9 # 10))]))
                Ex.deepgram_streaming))))
  = Some (Some 0%Q).
Proof.
  destruct (deepgram_response_latency 1020
              (DeepgramService.mkResponse (Double.lit (3 # 100))
                 (Double.lit (2 # 100)) false
                 [DeepgramService.mkAlternative (JS.lit "hello") (Double.lit (9 # 10))])
              (DeepgramService.mkAlternative (JS.lit "hello") (Double.lit (9 # 10))) []
              Ex.deepgram_streaming eq_refl)
    as (r & Hr & _ & _ & Hl & _); [vm_compute; discriminate|].
  rewrite Hr. unfold Ex.last_latency. rewrite last_snoc. simpl.
  rewrite Hl by reflexivity. reflexivity.
Defined.
